(** * neurogym: trial timelines and step functions of four tasks

    A shallow embedding of [src/envs/rdm.py] (RDM),
    [src/neurogym/envs/readysetgo.py] (ReadySetGo),
    [src/neurogym/envs/nalt_perceptualdecisionmaking.py] and
    [src/neurogym/envs/delaymatchcategory.py].

    Conventions.  Times (milliseconds), observation values and the rewards
    of RDM and the period tasks are rationals [Q]: every float is one, and
    the arithmetic of the source is read exactly.  Timestep indices and
    actions are integers [Z].  Python dictionaries are [gmap string _],
    Python lists are lists indexed the Python way ([py_index]).  A Python
    exception is the [Raise] branch of the result type [Res].  The random
    generator [self.rng] is an explicit state threaded through every draw,
    in the order of the source. *)

From Stdlib Require Import ZArith QArith Qround Qminmax Qabs Reals Qreals Lqa Lra
  Lia.
From stdpp Require Import base option list gmap strings.

(** ** Python results and exceptions *)

Inductive PyError : Set :=
| IndexError | KeyError | ValueError | AttributeError | ConfigError.

Inductive Res (A : Type) : Type :=
| Ok (a : A)
| Raise (e : PyError).
Arguments Ok {A} a.
Arguments Raise {A} e.

#[global] Instance Res_ret : MRet Res := λ A a, Ok a.
#[global] Instance Res_bind : MBind Res :=
  λ A B f m, match m with Ok a => f a | Raise e => Raise e end.

(** [d[k]] on a dictionary. *)
Definition getitem {A} (d : gmap string A) (k : string) : Res A :=
  match d !! k with Some v => Ok v | None => Raise KeyError end.

(** Python sequence indexing: a negative index counts from the end, an
    index outside [-len, len) raises IndexError. *)
Definition py_pos {A} (l : list A) (i : Z) : Res nat :=
  let n := Z.of_nat (length l) in
  let j := if (i <? 0)%Z then (i + n)%Z else i in
  if ((0 <=? j) && (j <? n))%Z then Ok (Z.to_nat j) else Raise IndexError.

Definition py_index {A} (l : list A) (i : Z) : Res A :=
  j ← py_pos l i;
  match l !! j with Some x => Ok x | None => Raise IndexError end.

Definition py_setitem {A} (l : list A) (i : Z) (x : A) : Res (list A) :=
  j ← py_pos l i; Ok (<[j := x]> l).

(** [x in l] on a list of integers. *)
Definition py_in (x : Z) (l : list Z) : bool := existsb (Z.eqb x) l.

(** [range(lo, hi)] as a list. *)
Definition zrange (lo hi : Z) : list Z :=
  map (λ k, (lo + Z.of_nat k)%Z) (seq 0 (Z.to_nat (hi - lo))).

Definition Qlt_bool (a b : Q) : bool := negb (Qle_bool b a).

(** Python's [round]: to the nearest integer, a tie to the even one. *)
Definition py_round (q : Q) : Z :=
  let f := Qfloor (q + (1 # 2))%Q in
  if Qeq_bool (q + (1 # 2))%Q (inject_Z f) && Z.odd f then (f - 1)%Z else f.

(** The values stored in the info and status dictionaries. *)
Inductive PyVal : Type :=
| VBool (b : bool)
| VInt (z : Z)
| VStr (s : string)
| VArr (v : list Q).

(** ** Interfaces of the numeric environment *)

(** [numpy.random.RandomState], as the tasks use it.  A draw returns the
    sample and the generator's next state. *)
Class RandomState (G : Type) := {
  rng_choice : list Q → G → Q * G;
  rng_random : G → Q * G;
  rng_normal : Q → Q → G → Q * G;
  rng_choice_elem : ∀ l g, l ≠ [] → fst (rng_choice l g) ∈ l;
}.

(** [rng.choice(l)]: raises ValueError on an empty sequence. *)
Definition py_choice `{RandomState G} (l : list Q) (g : G) : Res (Q * G) :=
  match l with [] => Raise ValueError | _ => Ok (rng_choice l g) end.

(** Floating-point functions of numpy: each maps floats to floats. *)
Class NumPy := {
  np_sqrt : Q → Q;
  np_cos : Q → Q;
  np_sin : Q → Q;
  np_pi : Q;
}.

(** The functions of the [tasktools] module whose bodies are not in the
    sources, as parameters of the development:
    [truncated_exponential(rng, dt, mean, xmin, xmax)], which returns the
    drawn duration (and here the generator's next state), and
    [new_trial(t, tmax, dt, status, R_MISS, num_tr, perf, R, p_stp)], which
    returns [(reward, new_trial, t, perf, num_tr)]. *)
Class Tasktools (G : Type) := {
  truncated_exponential : G → Q → Q → Q → Q → Q * G;
  tasktools_new_trial :
    Z → Q → Q → bool → Q → Z → Q → Q → Q → Q * bool * Z * Q * Z;
}.

(** ** The period engine (ngym.EpochEnv / ngym.PeriodEnv) *)

Module Engine.

(** Modelled from the spec: the base classes [ngym.EpochEnv] and
    [ngym.PeriodEnv] (add_epoch / add_period, in_epoch / in_period, add_ob,
    add_randn, set_groundtruth, ob_now, gt_now) are not in the sources.
    Section 4.2: a period starts at a given time or at the end of a named
    earlier period, ends at start + duration, and owns the timestep indices
    from round(start / dt) up to, excluding, round(end / dt); the last
    declared period fixes the number of timesteps of the trial.  Section
    4.3: writes to the observation buffer add, the ground-truth buffer
    defaults to 0 (fixate).  Section 4.4: in_period holds iff the current
    timestep lies in the period's set; an undeclared name is a
    configuration error. *)

Inductive Dist : Type :=
| Constant (v : Q)
| TruncatedExponential (mean xmin xmax : Q).

Inductive After : Type :=
| AfterTime (x : Q)
| AfterPeriod (name : string).

Inductive ObValue : Type :=
| Scalar (x : Q)
| Vector (v : list Q).

Definition start_ind (dt : Q) (p : Q * Q) : Z := py_round (fst p / dt)%Q.
Definition end_ind (dt : Q) (p : Q * Q) : Z := py_round (snd p / dt)%Q.

(** Timestep [i] belongs to period [p]. *)
Definition owns (dt : Q) (p : Q * Q) (i : Z) : bool :=
  ((start_ind dt p <=? i) && (i <? end_ind dt p))%Z.

Record Env (G : Type) : Type := mkEnv {
  dt : Q;
  t_ind : Z;
  rng : G;
  periods : gmap string (Q * Q);
  tmax_ind : Z;
  ob_width : nat;
  ob_dict : gmap string (list nat);
  ob : list (list Q);
  gt : list Z;
}.
Arguments mkEnv {G}.
Arguments dt {G}.
Arguments t_ind {G}.
Arguments rng {G}.
Arguments periods {G}.
Arguments tmax_ind {G}.
Arguments ob_width {G}.
Arguments ob_dict {G}.
Arguments ob {G}.
Arguments gt {G}.

Section Engine.
Context {G : Type} `{!RandomState G} `{!Tasktools G}.

(** The state the base constructor leaves: clock at 0, no period. *)
Definition init (dt0 : Q) (g : G) : Env G :=
  mkEnv dt0 0%Z g ∅ 0%Z 0%nat ∅ [] [].

Definition set_t (i : Z) (e : Env G) : Env G :=
  mkEnv (dt e) i (rng e) (periods e) (tmax_ind e) (ob_width e) (ob_dict e)
        (ob e) (gt e).

Definition set_rng (g : G) (e : Env G) : Env G :=
  mkEnv (dt e) (t_ind e) g (periods e) (tmax_ind e) (ob_width e) (ob_dict e)
        (ob e) (gt e).

Definition set_periods (ps : gmap string (Q * Q)) (e : Env G) : Env G :=
  mkEnv (dt e) (t_ind e) (rng e) ps (tmax_ind e) (ob_width e) (ob_dict e)
        (ob e) (gt e).

Definition set_obs_space (w : nat) (d : gmap string (list nat)) (e : Env G)
  : Env G :=
  mkEnv (dt e) (t_ind e) (rng e) (periods e) (tmax_ind e) w d (ob e) (gt e).

Definition set_ob (o : list (list Q)) (e : Env G) : Env G :=
  mkEnv (dt e) (t_ind e) (rng e) (periods e) (tmax_ind e) (ob_width e)
        (ob_dict e) o (gt e).

Definition set_gt (l : list Z) (e : Env G) : Env G :=
  mkEnv (dt e) (t_ind e) (rng e) (periods e) (tmax_ind e) (ob_width e)
        (ob_dict e) (ob e) l.

(** The current time in milliseconds. *)
Definition t (e : Env G) : Q := (inject_Z (t_ind e) * dt e)%Q.

(** Duration sampler (section 4.1). *)
Definition sample (d : Dist) (e : Env G) : Q * G :=
  match d with
  | Constant v => (v, rng e)
  | TruncatedExponential mean xmin xmax =>
      truncated_exponential (rng e) (dt e) mean xmin xmax
  end.

(** The last period fixes the trial's length and allocates the buffers. *)
Definition init_trial (tmax : Q) (e : Env G) : Env G :=
  let n := py_round (tmax / dt e)%Q in
  mkEnv (dt e) (t_ind e) (rng e) (periods e) n (ob_width e) (ob_dict e)
        (replicate (Z.to_nat n) (replicate (ob_width e) 0%Q))
        (replicate (Z.to_nat n) 0%Z).

Definition period_start (after : After) (e : Env G) : Res Q :=
  match after with
  | AfterTime x => Ok x
  | AfterPeriod n =>
      match periods e !! n with
      | Some p => Ok (snd p)
      | None => Raise ConfigError
      end
  end.

(** [add_epoch(name, duration, after=..., last_epoch=...)]. *)
Definition add_epoch (name : string) (duration : Q) (after : After)
    (last : bool) (e : Env G) : Res (Env G) :=
  if Qle_bool (dt e) 0 then Raise ConfigError else
  start ← period_start after e;
  let stop := (start + duration)%Q in
  let e' := set_periods (<[name := (start, stop)]> (periods e)) e in
  Ok (if last then init_trial stop e' else e').

(** One period whose duration is drawn from the task's timing table. *)
Definition add_timed (timing : gmap string Dist) (name : string)
    (after : After) (last : bool) (e : Env G) : Res (Env G) :=
  d ← getitem timing name;
  let '(x, g) := sample d e in
  add_epoch name x after last (set_rng g e).

(** [add_period([n1, n2, ...], after=..., last_period=...)]: the periods
    are laid end to end, the first one at [after]. *)
Fixpoint add_period (timing : gmap string Dist) (names : list string)
    (after : After) (last : bool) (e : Env G) : Res (Env G) :=
  match names with
  | [] => Ok e
  | [n] => add_timed timing n after last e
  | n :: rest =>
      e' ← add_timed timing n after false e;
      add_period timing rest (AfterPeriod n) last e'
  end.

Definition in_period (name : string) (e : Env G) : Res bool :=
  match periods e !! name with
  | Some p => Ok (owns (dt e) p (t_ind e))
  | None => Raise ConfigError
  end.

(** The attribute [<name>_1]: the end of a declared period, in ms. *)
Definition period_end (name : string) (e : Env G) : Res Q :=
  match periods e !! name with
  | Some p => Ok (snd p)
  | None => Raise AttributeError
  end.

(** The rows a write covers: those of the named period, or all of them. *)
Definition rows_of (period : option string) (e : Env G) : Res (Z → bool) :=
  match period with
  | None => Ok (λ _, true)
  | Some n =>
      match periods e !! n with
      | Some p => Ok (owns (dt e) p)
      | None => Raise ConfigError
      end
  end.

(** The channels a write covers: those [ob_dict] lists under [where], or
    all of them. *)
Definition chans_of (where_ : option string) (e : Env G) : Res (list nat) :=
  match where_ with
  | None => Ok (seq 0 (ob_width e))
  | Some k => getitem (ob_dict e) k
  end.

Definition add_to_row (xs : list (nat * Q)) (row : list Q) : list Q :=
  foldr (λ cx r, alter (λ y, (y + snd cx)%Q) (fst cx) r) row xs.

Definition on_rows {A} (inp : Z → bool) (f : A → A) (rows : list A)
  : list A :=
  imap (λ i r, if inp (Z.of_nat i) then f r else r) rows.

(** [add_ob(value, period, where=...)]. *)
Definition add_ob (value : ObValue) (period : option string)
    (where_ : option string) (e : Env G) : Res (Env G) :=
  inp ← rows_of period e;
  cs ← chans_of where_ e;
  xs ← match value with
       | Scalar x => Ok (map (λ c, (c, x)) cs)
       | Vector v =>
           if Nat.eqb (length v) (length cs) then Ok (zip cs v)
           else Raise ValueError
       end;
  Ok (set_ob (on_rows inp (add_to_row xs) (ob e)) e).

(** One normal draw per channel of a row, left to right. *)
Fixpoint randn_row (mu sigma : Q) (cs : list nat) (row : list Q) (g : G)
  : list Q * G :=
  match cs with
  | [] => (row, g)
  | c :: cs' =>
      let '(x, g1) := rng_normal mu sigma g in
      randn_row mu sigma cs' (alter (λ y, (y + x)%Q) c row) g1
  end.

(** One row after the other, from the first timestep on. *)
Fixpoint randn_rows (inp : Z → bool) (mu sigma : Q) (cs : list nat) (i : Z)
    (rows : list (list Q)) (g : G) : list (list Q) * G :=
  match rows with
  | [] => ([], g)
  | r :: rs =>
      let '(r', g1) :=
        if inp i then randn_row mu sigma cs r g else (r, g) in
      let '(rs', g2) := randn_rows inp mu sigma cs (i + 1)%Z rs g1 in
      (r' :: rs', g2)
  end.

(** [add_randn(mu, sigma, period)]. *)
Definition add_randn (mu sigma : Q) (period : option string)
    (where_ : option string) (e : Env G) : Res (Env G) :=
  inp ← rows_of period e;
  cs ← chans_of where_ e;
  let '(o, g) := randn_rows inp mu sigma cs 0 (ob e) (rng e) in
  Ok (set_rng g (set_ob o e)).

(** [set_groundtruth(label, period)]. *)
Definition set_groundtruth (label : Z) (period : option string)
    (e : Env G) : Res (Env G) :=
  inp ← rows_of period e;
  Ok (set_gt (on_rows inp (λ _, label) (gt e)) e).

Definition ob_now (e : Env G) : Res (list Q) := py_index (ob e) (t_ind e).
Definition gt_now (e : Env G) : Res Z := py_index (gt e) (t_ind e).

End Engine.
End Engine.

(** ** ReadySetGo (src/neurogym/envs/readysetgo.py) *)

Module ReadySetGo.

(** [x ** 1.5] on a non-negative real. *)
Definition pow15 (x : R) : R := (x * sqrt x)%R.

Record t (G : Type) : Type := mk {
  env : Engine.Env G;
  actions : list Z;
  sigma : Q;
  measures : list Q;
  gain : Q;
  fixation : Q;
  ready : Q;
  set_ : Q;
  R_ABORTED : R;
  R_CORRECT : R;
  R_FAIL : R;
  R_MISS : R;
  abort : bool;
  trial : gmap string Q;
}.
Arguments mk {G}.
Arguments env {G}.
Arguments actions {G}.
Arguments sigma {G}.
Arguments measures {G}.
Arguments gain {G}.
Arguments fixation {G}.
Arguments ready {G}.
Arguments set_ {G}.
Arguments R_ABORTED {G}.
Arguments R_CORRECT {G}.
Arguments R_FAIL {G}.
Arguments R_MISS {G}.
Arguments abort {G}.
Arguments trial {G}.

Section ReadySetGo.
Context {G : Type} `{!RandomState G} `{!Tasktools G} `{!NumPy}.

Definition set_env (e : Engine.Env G) (self : t G) : t G :=
  mk e (actions self) (sigma self) (measures self) (gain self)
     (fixation self) (ready self) (set_ self) (R_ABORTED self)
     (R_CORRECT self) (R_FAIL self) (R_MISS self) (abort self) (trial self).

Definition set_trial (tr : gmap string Q) (self : t G) : t G :=
  mk (env self) (actions self) (sigma self) (measures self) (gain self)
     (fixation self) (ready self) (set_ self) (R_ABORTED self)
     (R_CORRECT self) (R_FAIL self) (R_MISS self) (abort self) tr.

(** The clock moved to timestep [i] (the driver's work). *)
Definition at_step (i : Z) (self : t G) : t G :=
  set_env (Engine.set_t i (env self)) self.

Definition in_epoch (name : string) (self : t G) : Res bool :=
  Engine.in_period name (env self).

(** [_new_trial]: draws the measured interval and declares the epochs; the
    result is the object after the call and the returned dictionary. *)
Definition _new_trial (self : t G) : Res (t G * gmap string Q) :=
  '(measure, g) ← py_choice (measures self) (Engine.rng (env self));
  let production := (measure * gain self)%Q in
  let e := Engine.set_rng g (env self) in
  e ← Engine.add_epoch "fixation" (fixation self) (Engine.AfterTime 0) false e;
  e ← Engine.add_epoch "ready" (ready self) (Engine.AfterPeriod "fixation")
        false e;
  e ← Engine.add_epoch "measure" measure (Engine.AfterPeriod "fixation")
        false e;
  e ← Engine.add_epoch "set" (set_ self) (Engine.AfterPeriod "measure")
        false e;
  e ← Engine.add_epoch "production" (2 * production)%Q
        (Engine.AfterPeriod "set") true e;
  Ok (set_env e self,
      <["measure" := measure]> (<["production" := production]> ∅)).

(** The attributes [__init__(dt, timing, gain)] assigns, on the seeded
    generator [g], before it draws the first trial. *)
Definition attributes (dt : Q) (timing : Q * Q * Q) (gain : Q) (g : G)
  : t G :=
  mk (Engine.set_obs_space 3 ∅ (Engine.init dt g))
     [-1; 1]%Z
     (np_sqrt (2 * 100 * (1 # 100))%Q)
     [500; 580; 660; 760; 840; 920; 1000]%Q
     gain
     (fst (fst timing)) (snd (fst timing)) (snd timing)
     (- (1 / 10))%R 1%R 0%R 0%R
     false
     ∅.

(** [__init__(dt, timing, gain)]. *)
Definition __init__ (dt : Q) (timing : Q * Q * Q) (gain : Q) (g : G)
  : Res (t G) :=
  '(self, tr) ← _new_trial (attributes dt timing gain g);
  Ok (set_trial tr self).

Definition _step (self : t G) (action : Z)
  : Res (list Q * R * bool * gmap string PyVal) :=
  let trial := trial self in
  let new_trial := false in
  let gt := [0; 0]%Q in
  let reward := 0%R in
  let obs := [0; 0; 0]%Q in
  in_fix ← in_epoch "fixation" self;
  '(obs, gt, new_trial, reward) ←
    (if in_fix : bool then
       let obs := <[0%nat := 1%Q]> obs in
       let gt := <[0%nat := 1%Q]> gt in
       a ← py_index (actions self) action;
       if negb (a =? -1)%Z
       then Ok (obs, gt, abort self, R_ABORTED self)
       else Ok (obs, gt, new_trial, reward)
     else Ok (obs, gt, new_trial, reward));
  in_prod ← in_epoch "production" self;
  '(gt, new_trial, reward) ←
    (if in_prod : bool then
       measure_1 ← Engine.period_end "measure" (env self);
       let t_prod := (Engine.t (env self) - measure_1)%Q in
       production ← getitem trial "production";
       let eps := Qabs (t_prod - production) in
       let gt :=
         if Qlt_bool eps (Engine.dt (env self) / 2 + 1)
         then <[1%nat := 1%Q]> gt else <[0%nat := 1%Q]> gt in
       if (action =? 1)%Z then
         let eps_threshold := ((2 # 10) * production + 25)%Q in
         if Qlt_bool eps_threshold eps
         then Ok (gt, true, R_FAIL self)
         else
           let reward := pow15 (Q2R (1 - eps / eps_threshold)) in
           let reward := Rmin reward (1 / 10) in
           Ok (gt, true, (reward * R_CORRECT self)%R)
       else Ok (gt, new_trial, reward)
     else Ok (<[0%nat := 1%Q]> gt, new_trial, reward));
  in_ready ← in_epoch "ready" self;
  let obs := if in_ready : bool then <[1%nat := 1%Q]> obs else obs in
  in_set ← in_epoch "set" self;
  let obs := if in_set : bool then <[2%nat := 1%Q]> obs else obs in
  Ok (obs, reward, false,
      <["new_trial" := VBool new_trial]> (<["gt" := VArr gt]> ∅)).

(** [np.max(l)]: raises ValueError on an empty sequence. *)
Definition np_max (l : list Q) : Res Q :=
  match l with
  | [] => Raise ValueError
  | x :: r => Ok (foldl Qmax x r)
  end.

(** The line feed of the string literals. *)
Definition nl : string := String (Ascii.ascii_of_nat 10) "".

(** The first statement of [__str__]. *)
Definition max_trial_duration (self : t G) : Res Q :=
  longest ← np_max (measures self);
  Ok (fixation self + longest + set_ self + 2 * gain self * set_ self)%Q.

(** [__str__]; [str] is Python's conversion of a number to text. *)
Definition __str__ (str : Q → string) (self : t G) : Res string :=
  max_trial_duration ← max_trial_duration self;
  let string := "" in
  let string :=
    if Qeq_bool (fixation self) 0 || Qeq_bool (ready self) 0
       || Qeq_bool (set_ self) 0
    then
      let string := string +:+ "XXXXXXXXXXXXXXXXXXXXXX" +:+ nl in
      let string :=
        string +:+ "the duration of all periods must be larger than 0"
        +:+ nl in
      string +:+ "XXXXXXXXXXXXXXXXXXXXXX" +:+ nl
    else string in
  let string :=
    string +:+ "mean trial duration: " +:+ str max_trial_duration +:+ nl in
  let string :=
    string +:+ " (max num. steps: "
    +:+ str (max_trial_duration / Engine.dt (env self))%Q in
  Ok string.

End ReadySetGo.
End ReadySetGo.

(** An integer-valued number read as an index or a label; any other
    number is refused, as numpy refuses a fractional index. *)
Definition as_int (q : Q) : Res Z :=
  if Qeq_bool q (inject_Z (Qfloor q)) then Ok (Qfloor q) else Raise IndexError.

(** [d.update(other)]: the entries of [other] win. *)
Definition update {A} (d other : gmap string A) : gmap string A := other ∪ d.

(** ** nalt_PerceptualDecisionMaking
    (src/neurogym/envs/nalt_perceptualdecisionmaking.py) *)

Module nalt_PerceptualDecisionMaking.

Record t (G : Type) : Type := mk {
  env : Engine.Env G;
  n : nat;
  choices : list Q;
  cohs : list Q;
  sigma : Q;
  rewards : gmap string Q;
  timing : gmap string Engine.Dist;
  abort : bool;
  trial : gmap string Q;
  performance : Z;
}.
Arguments mk {G}.
Arguments env {G}.
Arguments n {G}.
Arguments choices {G}.
Arguments cohs {G}.
Arguments sigma {G}.
Arguments rewards {G}.
Arguments timing {G}.
Arguments abort {G}.
Arguments trial {G}.
Arguments performance {G}.

Section nalt.
Context {G : Type} `{!RandomState G} `{!Tasktools G} `{!NumPy}.

Definition set_env (e : Engine.Env G) (self : t G) : t G :=
  mk e (n self) (choices self) (cohs self) (sigma self) (rewards self)
     (timing self) (abort self) (trial self) (performance self).

Definition set_trial (tr : gmap string Q) (self : t G) : t G :=
  mk (env self) (n self) (choices self) (cohs self) (sigma self)
     (rewards self) (timing self) (abort self) tr (performance self).

Definition set_performance (p : Z) (self : t G) : t G :=
  mk (env self) (n self) (choices self) (cohs self) (sigma self)
     (rewards self) (timing self) (abort self) (trial self) p.

Definition at_step (i : Z) (self : t G) : t G :=
  set_env (Engine.set_t i (env self)) self.

Definition in_period (name : string) (self : t G) : Res bool :=
  Engine.in_period name (env self).

(** [__init__(dt, rewards, timing, stim_scale, sigma, n_ch)], on the seeded
    generator [g]; an absent [rewards] or [timing] is the empty
    dictionary. *)
Definition __init__ (dt : Q) (rewards : gmap string Q)
    (timing : gmap string Engine.Dist) (stim_scale sigma : Q) (n_ch : nat)
    (g : G) : t G :=
  mk (Engine.set_obs_space (n_ch + 1)
        (<["fixation" := [0%nat]]> (<["stimulus" := seq 1 n_ch]> ∅))
        (Engine.init dt g))
     n_ch
     (map (λ k, inject_Z (Z.of_nat k) + 1)%Q (seq 0 n_ch))
     (map (λ c, c * stim_scale)%Q
        [0; 64 # 10; 128 # 10; 256 # 10; 512 # 10]%Q)
     (sigma / np_sqrt dt)%Q
     (update (<["abort" := (- (1 # 10))%Q]>
                (<["correct" := 1%Q]> (<["fail" := 0%Q]> ∅))) rewards)
     (update (<["fixation" := Engine.Constant 500]>
                (<["stimulus" := Engine.TruncatedExponential 330 80 1500]>
                   (<["decision" := Engine.Constant 500]> ∅))) timing)
     false
     ∅
     0.

(** The noise-free stimulus of lines 71-72:
    [np.ones(n) * (1 - coh/100)/2] with entry [ground_truth - 1] set to
    [(1 + coh/100)/2]. *)
Definition stim (self : t G) : Res (list Q) :=
  coh ← getitem (trial self) "coh";
  ground_truth ← getitem (trial self) "ground_truth";
  let stim := replicate (n self) (1 * (1 - coh / 100) / 2)%Q in
  i ← as_int (ground_truth - 1);
  py_setitem stim i ((1 + coh / 100) / 2)%Q.

Definition new_trial (self : t G) (kwargs : gmap string Q) : Res (t G) :=
  '(ground_truth, g) ← py_choice (choices self) (Engine.rng (env self));
  '(coh, g) ← py_choice (cohs self) g;
  let tr := <["ground_truth" := ground_truth]> (<["coh" := coh]> ∅) in
  let self := set_trial (update tr kwargs)
                (set_env (Engine.set_rng g (env self)) self) in
  e ← Engine.add_period (timing self) ["fixation"; "stimulus"; "decision"]
        (Engine.AfterTime 0) true (env self);
  e ← Engine.add_ob (Engine.Scalar 1) (Some "fixation") (Some "fixation") e;
  stim ← stim self;
  e ← Engine.add_ob (Engine.Vector stim) (Some "stimulus") (Some "stimulus") e;
  e ← Engine.add_randn 0 (sigma self) (Some "stimulus") None e;
  ground_truth ← getitem (trial self) "ground_truth";
  label ← as_int ground_truth;
  e ← Engine.set_groundtruth label (Some "decision") e;
  Ok (set_env e self).

Definition _step (self : t G) (action : Z)
  : Res (t G * (list Q * Q * bool * gmap string PyVal)) :=
  let new_trial := false in
  obs ← Engine.ob_now (env self);
  gt ← Engine.gt_now (env self);
  let reward := 0%Q in
  in_fix ← in_period "fixation" self;
  '(self, new_trial, reward) ←
    (if in_fix : bool then
       if negb (action =? 0)%Z then
         abort_reward ← getitem (rewards self) "abort";
         Ok (self, abort self, abort_reward)
       else Ok (self, new_trial, reward)
     else
       in_dec ← in_period "decision" self;
       if in_dec : bool then
         if negb (action =? 0)%Z then
           if (action =? gt)%Z then
             correct ← getitem (rewards self) "correct";
             Ok (set_performance 1 self, true, correct)
           else
             fail ← getitem (rewards self) "fail";
             Ok (self, true, fail)
         else Ok (self, new_trial, reward)
       else Ok (self, new_trial, reward));
  Ok (self, (obs, reward, false,
             <["new_trial" := VBool new_trial]> (<["gt" := VInt gt]> ∅))).

End nalt.
End nalt_PerceptualDecisionMaking.

(** ** DelayedMatchCategory (src/neurogym/envs/delaymatchcategory.py) *)

Module DelayedMatchCategory.

Record t (G : Type) : Type := mk {
  env : Engine.Env G;
  choices : list Q;
  sigma : Q;
  rewards : gmap string Q;
  timing : gmap string Engine.Dist;
  abort : bool;
  trial : gmap string Q;
  performance : Z;
}.
Arguments mk {G}.
Arguments env {G}.
Arguments choices {G}.
Arguments sigma {G}.
Arguments rewards {G}.
Arguments timing {G}.
Arguments abort {G}.
Arguments trial {G}.
Arguments performance {G}.

Section DMC.
Context {G : Type} `{!RandomState G} `{!Tasktools G} `{!NumPy}.

Definition set_env (e : Engine.Env G) (self : t G) : t G :=
  mk e (choices self) (sigma self) (rewards self) (timing self)
     (abort self) (trial self) (performance self).

Definition set_trial (tr : gmap string Q) (self : t G) : t G :=
  mk (env self) (choices self) (sigma self) (rewards self) (timing self)
     (abort self) tr (performance self).

Definition set_performance (p : Z) (self : t G) : t G :=
  mk (env self) (choices self) (sigma self) (rewards self) (timing self)
     (abort self) (trial self) p.

Definition at_step (i : Z) (self : t G) : t G :=
  set_env (Engine.set_t i (env self)) self.

Definition in_period (name : string) (self : t G) : Res bool :=
  Engine.in_period name (env self).

Definition __init__ (dt : Q) (rewards : gmap string Q)
    (timing : gmap string Engine.Dist) (sigma : Q) (g : G) : t G :=
  mk (Engine.set_obs_space 3
        (<["fixation" := [0%nat]]> (<["stimulus" := seq 1 2]> ∅))
        (Engine.init dt g))
     [1; 2]%Q
     (sigma / np_sqrt dt)%Q
     (update (<["abort" := (- (1 # 10))%Q]>
                (<["correct" := 1%Q]> (<["fail" := 0%Q]> ∅))) rewards)
     (update (<["fixation" := Engine.Constant 500]>
                (<["sample" := Engine.Constant 650]>
                   (<["first_delay" := Engine.Constant 1000]>
                      (<["test" := Engine.Constant 650]> ∅)))) timing)
     false
     ∅
     0.

Definition new_trial (self : t G) (kwargs : gmap string Q) : Res (t G) :=
  '(ground_truth, g) ← py_choice (choices self) (Engine.rng (env self));
  '(sample_category, g) ← py_choice [0; 1]%Q g;
  let tr := <["ground_truth" := ground_truth]>
              (<["sample_category" := sample_category]> ∅) in
  let self := set_trial (update tr kwargs) self in
  ground_truth ← getitem (trial self) "ground_truth";
  sample_category ← getitem (trial self) "sample_category";
  let '(u, g) := rng_random g in
  let sample_theta := ((sample_category + u) * np_pi)%Q in
  let test_category :=
    if Qeq_bool ground_truth 2 then (1 - sample_category)%Q
    else sample_category in
  let '(u, g) := rng_random g in
  let test_theta := ((test_category + u) * np_pi)%Q in
  let stim_sample := [np_cos sample_theta; np_sin sample_theta] in
  let stim_test := [np_cos test_theta; np_sin test_theta] in
  let periods := ["fixation"; "sample"; "first_delay"; "test"] in
  e ← Engine.add_period (timing self) periods (Engine.AfterTime 0) true
        (Engine.set_rng g (env self));
  e ← Engine.add_ob (Engine.Scalar 1) None (Some "fixation") e;
  e ← Engine.add_ob (Engine.Vector stim_sample) (Some "sample")
        (Some "stimulus") e;
  e ← Engine.add_ob (Engine.Vector stim_test) (Some "test")
        (Some "stimulus") e;
  e ← Engine.add_randn 0 (sigma self) (Some "sample") None e;
  e ← Engine.add_randn 0 (sigma self) (Some "test") None e;
  label ← as_int ground_truth;
  e ← Engine.set_groundtruth label (Some "test") e;
  Ok (set_env e self).

Definition _step (self : t G) (action : Z)
  : Res (t G * (list Q * Q * bool * gmap string PyVal)) :=
  let new_trial := false in
  obs ← Engine.ob_now (env self);
  gt ← Engine.gt_now (env self);
  let reward := 0%Q in
  in_fix ← in_period "fixation" self;
  '(self, new_trial, reward) ←
    (if in_fix : bool then
       if negb (action =? 0)%Z then
         abort_reward ← getitem (rewards self) "abort";
         Ok (self, abort self, abort_reward)
       else Ok (self, new_trial, reward)
     else
       in_test ← in_period "test" self;
       if in_test : bool then
         if negb (action =? 0)%Z then
           if (action =? gt)%Z then
             correct ← getitem (rewards self) "correct";
             Ok (set_performance 1 self, true, correct)
           else
             fail ← getitem (rewards self) "fail";
             Ok (self, true, fail)
         else Ok (self, new_trial, reward)
       else Ok (self, new_trial, reward));
  Ok (self, (obs, reward, false,
             <["new_trial" := VBool new_trial]> (<["gt" := VInt gt]> ∅))).

End DMC.
End DelayedMatchCategory.

(** ** RDM (src/envs/rdm.py) *)

Module RDM.

(** Modelled from the spec: [tasktools.to_map] is not in the sources.  The
    external interface (section 6) has a finite set of legal actions and an
    observation vector of fixed width; the names are numbered from 0 in the
    order given, which is what [spaces.Discrete(3)], the shape [(3,)] and
    [np.zeros(len(self.inputs))] index. *)
Definition to_map (names : list string) : gmap string Z :=
  list_to_map (imap (λ i s, (s, Z.of_nat i)) names).

(** A value of the [durations] dictionary: an interval, or the number
    stored under ['tmax']. *)
Inductive DurVal : Type :=
| Interval (a b : Q)
| Total (x : Q).

(** Modelled from the spec: [tasktools.get_epochs_idx] is not in the
    sources.  Section 3: the timeline has the timestep indices 0..N-1 with
    N = ceil(total_duration / dt); section 4.2: an interval owns the
    indices from round(start / dt) up to, excluding, round(end / dt). *)
Definition get_epochs_idx (dt : Q) (durations : gmap string DurVal)
  : Res (list Z * gmap string (list Z)) :=
  tmax ← getitem durations "tmax";
  match tmax with
  | Interval _ _ => Raise ValueError
  | Total x =>
      Ok (zrange 0 (Qceiling (x / dt)),
          omap (λ v, match v with
                     | Interval a b =>
                         Some (zrange (py_round (a / dt)) (py_round (b / dt)))
                     | Total _ => None
                     end) durations)
  end.

Record Trial : Type := mkTrial {
  durations : gmap string DurVal;
  time : list Z;
  epochs : gmap string (list Z);
  left_right : Q;
  coh : Q;
}.

(** Class attributes. *)
Definition inputs : gmap string Z := to_map ["FIXATION"; "LEFT"; "RIGHT"].
Definition actions : gmap string Z :=
  to_map ["FIXATE"; "CHOOSE-LEFT"; "CHOOSE-RIGHT"].
Definition left_rights : list Q := [-1; 1]%Q.
Definition cohs : list Q := [0; 64 # 10; 128 # 10; 256 # 10; 512 # 10]%Q.
Definition fixation : Q := 750.
Definition stimulus_min_class : Q := 80.
Definition stimulus_mean : Q := 330.
Definition stimulus_max : Q := 1500.
Definition decision : Q := 500.
Definition tmax : Q := fixation + stimulus_max + decision.
Definition R_ABORTED : Q := -1.
Definition R_CORRECT : Q := 1.
Definition R_FAIL : Q := 0.
Definition R_MISS : Q := 0.

(** The instance: the attributes of the base class [ngym.ngym] (clock,
    counters, generator) and those [__init__] sets. *)
Record task (G : Type) : Type := mk {
  dt : Q;
  t : Z;
  rng : G;
  num_tr : Z;
  perf : Q;
  p_stp : Q;
  stimulus_min : Q;
  trial : Trial;
}.
Arguments mk {G}.
Arguments dt {G}.
Arguments t {G}.
Arguments rng {G}.
Arguments num_tr {G}.
Arguments perf {G}.
Arguments p_stp {G}.
Arguments stimulus_min {G}.
Arguments trial {G}.

Section RDM.
Context {G : Type} `{!RandomState G} `{!Tasktools G} `{!NumPy}.

Definition sigma : Q := np_sqrt (2 * 100 * (1 # 100)).

Definition get_bool (d : gmap string PyVal) (k : string) : Res bool :=
  v ← getitem d k;
  match v with VBool b => Ok b | _ => Raise ValueError end.

(** [_new_trial(rng, dt, context)]: the trial dictionary, and the
    generator after the draws. *)
Definition _new_trial (self : task G) (rng : G) (dt : Q)
    (context : gmap string Q) : Res (Trial * G) :=
  let '(stimulus, rng) :=
    match context !! "stimulus" with
    | Some x => (x, rng)
    | None =>
        truncated_exponential rng dt stimulus_mean (stimulus_min self)
          stimulus_max
    end in
  let durations : gmap string DurVal :=
    <["fixation" := Interval 0 fixation]>
    (<["stimulus" := Interval fixation (fixation + stimulus)]>
    (<["decision" := Interval (fixation + stimulus)
                              (fixation + stimulus + decision)]>
    (<["tmax" := Total tmax]> ∅))) in
  '(time, epochs) ← get_epochs_idx dt durations;
  '(left_right, rng) ←
    match context !! "left_right" with
    | Some x => Ok (x, rng)
    | None => py_choice left_rights rng
    end;
  '(coh, rng) ←
    match context !! "coh" with
    | Some x => Ok (x, rng)
    | None => py_choice cohs rng
    end;
  Ok (mkTrial durations time epochs left_right coh, rng).

(** [__init__(dt)], on the seeded generator [g].  The base constructor
    (not in the sources) leaves the clock and the counters at 0; its
    continuation probability is the parameter [p]. *)
Definition __init__ (dt : Q) (p : Q) (g : G) : Res (task G) :=
  let self :=
    mk dt 0 g 0 0 p (Qmax stimulus_min_class dt)
       (mkTrial ∅ [] ∅ 0 0) in
  '(tr, g) ← _new_trial self (rng self) (RDM.dt self) ∅;
  Ok (mk dt 0 g 0 0 p (stimulus_min self) tr).

(** Input scaling. *)
Definition scale (coh : Q) : Q := (1 + coh / 100) / 2.

(** [step], first part ("Reward"): the status dictionary and the reward
    of the action. *)
Definition step_reward (self : task G) (action : Z)
  : Res (gmap string PyVal * Q) :=
  let trial := trial self in
  let epochs := epochs trial in
  let status : gmap string PyVal := <["continue" := VBool true]> ∅ in
  let reward := 0%Q in
  decision_idx ← getitem epochs "decision";
  if negb (py_in (t self - 1) decision_idx) then
    fixate ← getitem actions "FIXATE";
    if negb (action =? fixate)%Z
    then Ok (<["continue" := VBool false]> status, R_ABORTED)
    else Ok (status, reward)
  else if py_in (t self - 1) decision_idx then
    choose_left ← getitem actions "CHOOSE-LEFT";
    if (action =? choose_left)%Z then
      let correct := Qlt_bool (left_right trial) 0 in
      Ok (<["correct" := VBool correct]>
            (<["t_choice" := VInt (t self - 1)]>
               (<["choice" := VStr "L"]>
                  (<["continue" := VBool false]> status))),
          if correct then R_CORRECT else R_FAIL)
    else
      choose_right ← getitem actions "CHOOSE-RIGHT";
      if (action =? choose_right)%Z then
        let correct := Qlt_bool 0 (left_right trial) in
        Ok (<["correct" := VBool correct]>
              (<["t_choice" := VInt (t self - 1)]>
                 (<["choice" := VStr "R"]>
                    (<["continue" := VBool false]> status))),
            if correct then R_CORRECT else R_FAIL)
      else Ok (status, reward)
  else Ok (status, reward).

(** [step], second part ("Inputs"): the observation, and the generator
    after the two noise draws of a stimulus timestep. *)
Definition step_inputs (self : task G) : Res (list Q * G) :=
  let trial := trial self in
  let epochs := epochs trial in
  '(high, low) ←
    (if Qlt_bool (left_right trial) 0 then
       high ← getitem inputs "LEFT"; low ← getitem inputs "RIGHT";
       Ok (high, low)
     else
       high ← getitem inputs "RIGHT"; low ← getitem inputs "LEFT";
       Ok (high, low));
  let obs := replicate (size inputs) 0%Q in
  fixation_idx ← getitem epochs "fixation";
  stimulus_idx ← getitem epochs "stimulus";
  obs ← (if py_in (t self) fixation_idx || py_in (t self) stimulus_idx then
           i ← getitem inputs "FIXATION"; py_setitem obs i 1%Q
         else Ok obs);
  if py_in (t self) stimulus_idx then
    let '(x, g) := rng_normal 0 sigma (rng self) in
    obs ← py_setitem obs high
            (scale (coh trial) + x / np_sqrt (dt self))%Q;
    let '(y, g) := rng_normal 0 sigma g in
    obs ← py_setitem obs low
            (scale (- coh trial) + y / np_sqrt (dt self))%Q;
    Ok (obs, g)
  else Ok (obs, rng self).

(** [step(action)]: the two parts above, then the call of
    [tasktools.new_trial] and, on a new trial, of [_new_trial]. *)
Definition step (self : task G) (action : Z)
  : Res (task G * (list Q * Q * bool * gmap string PyVal)) :=
  '(status, reward) ← step_reward self action;
  '(obs, g) ← step_inputs self;
  continue ← get_bool status "continue";
  let '(reward, new_trial, t', perf', num_tr') :=
    tasktools_new_trial (t self) tmax (dt self) continue R_MISS
      (num_tr self) (perf self) reward (p_stp self) in
  '(tr, g) ← (if new_trial : bool then _new_trial self g (dt self) ∅
              else Ok (trial self, g));
  let done := false in
  Ok (mk (dt self) t' g num_tr' perf' (p_stp self) (stimulus_min self) tr,
      (obs, reward, done, status)).

(** The steps of a run, one action after the other. *)
Fixpoint run (self : task G) (acts : list Z) : Res (task G) :=
  match acts with
  | [] => Ok self
  | a :: rest => '(self, _) ← step self a; run self rest
  end.

End RDM.
End RDM.

(** ** A concrete numeric environment

    Instances of the three interfaces on which the step functions can be
    run: a linear congruential generator, rational square root, cosine and
    sine, and a driver in the sense of section 4.4 of the spec. *)

Module Demo.

Definition lcg (s : N) : N := ((s * 1103515245 + 12345) mod 2147483648)%N.

Definition pick (l : list Q) (s : N) : Q :=
  nth (N.to_nat (s mod N.of_nat (length l))) l 0%Q.

Lemma pick_elem (l : list Q) (s : N) : l ≠ [] → pick l s ∈ l.
Proof.
  intros Hl. unfold pick. apply list_elem_of_In, nth_In.
  destruct l as [|x l]; [done|].
  assert (s mod N.of_nat (length (x :: l)) < N.of_nat (length (x :: l)))%N
    by (apply N.mod_lt; simpl; lia).
  lia.
Qed.

#[global] Instance random_state : RandomState N := {|
  rng_choice l s := (pick l s, lcg s);
  rng_random s := ((inject_Z (Z.of_N (s mod 1000)) / 1000)%Q, lcg s);
  rng_normal mu sigma s :=
    ((mu + sigma * ((inject_Z (Z.of_N (s mod 7)) - 3) / 2))%Q, lcg s);
  rng_choice_elem l s := pick_elem l s;
|}.

#[global] Instance tasktools : Tasktools N := {|
  truncated_exponential s dt mean xmin xmax :=
    (Qmax xmin (Qmin xmax (mean * (inject_Z (Z.of_N (s mod 5)) / 2))),
     lcg s);
  tasktools_new_trial t tmax dt continue R_MISS num_tr perf R p_stp :=
    if negb continue then (R, true, 0%Z, perf, (num_tr + 1)%Z)
    else if Qle_bool (tmax / dt) (inject_Z t)
         then (R_MISS, true, 0%Z, perf, (num_tr + 1)%Z)
         else (R, false, (t + 1)%Z, perf, num_tr)
|}.

#[global] Instance numpy : NumPy := {|
  np_sqrt q := Z.sqrt (Qfloor (q * 1000000)) # 1000;
  np_cos x := (1 - x * x / 2 + x * x * x * x / 24)%Q;
  np_sin x := (x - x * x * x / 6 + x * x * x * x * x / 120)%Q;
  np_pi := (355 # 113)%Q;
|}.

End Demo.

(** The value a call returned ([d] if it raised). *)
Definition the {A} (d : A) (r : Res A) : A :=
  match r with Ok a => a | Raise _ => d end.

(** ** Concrete tasks, on the environment above *)

Module Run.

(** RDM(dt=100), and the task after the steps [acts]. *)
Definition rdm_blank : RDM.task N :=
  RDM.mk 100 0 7%N 0 0 0 0 (RDM.mkTrial ∅ [] ∅ 0 0).
Definition rdm : RDM.task N := the rdm_blank (RDM.__init__ 100 0 7%N).
Definition rdm_after (acts : list Z) : RDM.task N :=
  the rdm_blank (RDM.run rdm acts).

(** nalt_PerceptualDecisionMaking(), and its first trial. *)
Definition nalt : nalt_PerceptualDecisionMaking.t N :=
  nalt_PerceptualDecisionMaking.__init__ 100 ∅ ∅ 1 (3 # 2) 3 7%N.
Definition nalt_trial : nalt_PerceptualDecisionMaking.t N :=
  the nalt (nalt_PerceptualDecisionMaking.new_trial nalt ∅).

(** DelayedMatchCategory(), and its first trial. *)
Definition dmc : DelayedMatchCategory.t N :=
  DelayedMatchCategory.__init__ 100 ∅ ∅ (3 # 2) 7%N.
Definition dmc_trial : DelayedMatchCategory.t N :=
  the dmc (DelayedMatchCategory.new_trial dmc ∅).

(** ReadySetGo(dt, timing=(500, 83, 83), gain=1) before its first trial,
    and with the first trial drawn. *)
Definition rsg_attributes (dt : Q) : ReadySetGo.t N :=
  ReadySetGo.attributes dt (500, 83, 83)%Q 1 7%N.
Definition rsg_drawn (dt : Q) : ReadySetGo.t N * gmap string Q :=
  the (rsg_attributes dt, ∅) (ReadySetGo._new_trial (rsg_attributes dt)).
Definition rsg (dt : Q) : ReadySetGo.t N :=
  ReadySetGo.set_trial (rsg_drawn dt).2 (rsg_drawn dt).1.

End Run.

(** ** The vocabulary of the statements *)

(** No timestep belongs to two periods of different names. *)
Definition disjoint_periods (dt : Q) (ps : gmap string (Q * Q)) : Prop :=
  ∀ n1 n2 p1 p2 i, n1 ≠ n2 → ps !! n1 = Some p1 → ps !! n2 = Some p2 →
    Engine.owns dt p1 i = true → Engine.owns dt p2 i = true → False.

(** The timesteps owned by some period are exactly those of [lo, hi). *)
Definition covers (dt : Q) (ps : gmap string (Q * Q)) (lo hi : Z) : Prop :=
  ∀ i, (lo ≤ i < hi)%Z ↔ ∃ n p, ps !! n = Some p ∧ Engine.owns dt p i = true.

(** The periods partition the timesteps 0..N-1. *)
Definition partitions (dt : Q) (ps : gmap string (Q * Q)) (N : Z) : Prop :=
  disjoint_periods dt ps ∧ covers dt ps 0 N.

(** The same for a dictionary of index lists (RDM's [epochs]). *)
Definition partitions_idx (eps : gmap string (list Z)) (N : Z) : Prop :=
  (∀ n1 n2 l1 l2 i, n1 ≠ n2 → eps !! n1 = Some l1 → eps !! n2 = Some l2 →
     i ∈ l1 → i ∈ l2 → False) ∧
  (∀ i, (0 ≤ i < N)%Z ↔ ∃ n l, eps !! n = Some l ∧ i ∈ l).

(** Periods laid end to end from the time [c] on. *)
Fixpoint lay (c : Q) (nds : list (string * Q)) (m : gmap string (Q * Q))
  : gmap string (Q * Q) :=
  match nds with
  | [] => m
  | (n, d) :: r => lay (c + d) r (<[n := (c, (c + d)%Q)]> m)
  end.

Fixpoint lay_end (c : Q) (nds : list (string * Q)) : Q :=
  match nds with
  | [] => c
  | (_, d) :: r => lay_end (c + d) r
  end.

(** The periods of a nalt_PerceptualDecisionMaking trial, with their
    durations. *)
Definition nalt_chain (d1 d2 d3 : Q) : list (string * Q) :=
  [("fixation", d1); ("stimulus", d2); ("decision", d3)].

(** The periods of a DelayedMatchCategory trial, with their durations. *)
Definition dmc_chain (d1 d2 d3 d4 : Q) : list (string * Q) :=
  [("fixation", d1); ("sample", d2); ("first_delay", d3); ("test", d4)].

(** The info dictionary of a period task's step. *)
Definition period_info (new_trial : bool) (gt : Z) : gmap string PyVal :=
  <["new_trial" := VBool new_trial]> (<["gt" := VInt gt]> ∅).

(** The epochs a ReadySetGo trial declares, over the timeline [m] it
    finds: 'ready' and 'measure' both start at the end of 'fixation'. *)
Definition rsg_periods (f r m s p : Q) (base : gmap string (Q * Q))
  : gmap string (Q * Q) :=
  <["production" := ((0 + f + m + s)%Q, (0 + f + m + s + 2 * p)%Q)]>
  (<["set" := ((0 + f + m)%Q, (0 + f + m + s)%Q)]>
  (<["measure" := ((0 + f)%Q, (0 + f + m)%Q)]>
  (<["ready" := ((0 + f)%Q, (0 + f + r)%Q)]>
  (<["fixation" := (0%Q, (0 + f)%Q)]> base)))).

(** The info dictionary of a ReadySetGo step. *)
Definition rsg_info (new_trial : bool) (gt : list Q) : gmap string PyVal :=
  <["new_trial" := VBool new_trial]> (<["gt" := VArr gt]> ∅).

(** The [durations] and [epochs] dictionaries of an RDM trial whose
    stimulus lasts [stimulus] ms. *)
Definition rdm_durations (stimulus : Q) : gmap string RDM.DurVal :=
  <["fixation" := RDM.Interval 0 RDM.fixation]>
  (<["stimulus" := RDM.Interval RDM.fixation (RDM.fixation + stimulus)]>
  (<["decision" := RDM.Interval (RDM.fixation + stimulus)
                     (RDM.fixation + stimulus + RDM.decision)]>
  (<["tmax" := RDM.Total RDM.tmax]> ∅))).

Definition rdm_epochs (dt stimulus : Q) : gmap string (list Z) :=
  (λ p : Q * Q, zrange (Engine.start_ind dt p) (Engine.end_ind dt p)) <$>
  lay 0 [("fixation", RDM.fixation); ("stimulus", stimulus);
         ("decision", RDM.decision)] ∅.

(** The reward [tasktools.new_trial] returns when RDM's step hands it the
    reward [reward] and the continue flag [continue]. *)
Definition returned_reward `{Tasktools G} (self : RDM.task G)
    (continue : bool) (reward : Q) : Q :=
  (tasktools_new_trial (RDM.t self) RDM.tmax (RDM.dt self) continue
     RDM.R_MISS (RDM.num_tr self) (RDM.perf self) reward
     (RDM.p_stp self)).1.1.1.1.

(** Every period the timeline [ps] holds has one of the names [names]. *)
Definition declared_among (ps : gmap string (Q * Q)) (names : list string)
  : Prop :=
  ∀ k, is_Some (ps !! k) → k ∈ names.

Definition lay_inv (dt c0 c : Q) (m : gmap string (Q * Q)) : Prop :=
  (c0 <= c)%Q ∧ disjoint_periods dt m ∧
  covers dt m (py_round (c0 / dt)) (py_round (c / dt)).

(** The two noise draws of an RDM stimulus timestep, in the order of the
    source, and the generator they leave. *)
Definition rdm_noise `{RandomState G} `{NumPy} (self : RDM.task G)
  : Q * Q * G :=
  let '(x, g) := rng_normal 0 RDM.sigma (RDM.rng self) in
  let '(y, g) := rng_normal 0 RDM.sigma g in
  (x, y, g).

(** * Properties *)

(** ** Numbers and sequences *)

(** Linear arithmetic over the rationals and over the reals. *)
Ltac qlra := Lqa.lra.
Ltac rlra := Lra.lra.

Lemma Qlt_bool_iff (a b : Q) : Qlt_bool a b = true ↔ (a < b)%Q.
Proof.
  unfold Qlt_bool. rewrite negb_true_iff. split.
  - intros H. apply Qnot_le_lt. intros Hle.
    apply Qle_bool_iff in Hle. congruence.
  - intros H. destruct (Qle_bool b a) eqn:E; [|done].
    apply Qle_bool_iff in E. exfalso. exact (Qlt_not_le _ _ H E).
Qed.

Lemma Qlt_bool_false (a b : Q) : Qlt_bool a b = false ↔ (b <= a)%Q.
Proof.
  unfold Qlt_bool. rewrite negb_false_iff. apply Qle_bool_iff.
Qed.

Lemma py_round_mono (p q : Q) : (p <= q)%Q → (py_round p <= py_round q)%Z.
Proof.
  intros Hpq. unfold py_round.
  set (x := (p + (1 # 2))%Q). set (y := (q + (1 # 2))%Q).
  assert (Hxy : (x <= y)%Q) by (unfold x, y; qlra).
  pose proof (Qfloor_resp_le _ _ Hxy) as Hf.
  destruct (Qeq_bool y (inject_Z (Qfloor y)) && Z.odd (Qfloor y)) eqn:Ey.
  - apply andb_true_iff in Ey as [Ey Hodd].
    apply Qeq_bool_iff in Ey.
    destruct (Z.eq_dec (Qfloor x) (Qfloor y)) as [Heq|Hne].
    + assert (Ex : (x == inject_Z (Qfloor x))%Q).
      { pose proof (Qfloor_le x) as Hx. rewrite Heq in Hx |- *.
        apply Qle_antisym; [rewrite <- Ey; exact Hxy | exact Hx]. }
      apply Qeq_bool_iff in Ex. rewrite Ex, Heq, Hodd. simpl. lia.
    + destruct (Qeq_bool x (inject_Z (Qfloor x)) && Z.odd (Qfloor x)); lia.
  - destruct (Qeq_bool x (inject_Z (Qfloor x)) && Z.odd (Qfloor x)); lia.
Qed.

Lemma py_round_comp (p q : Q) : (p == q)%Q → py_round p = py_round q.
Proof.
  intros H. apply Z.le_antisymm; apply py_round_mono; rewrite H; apply Qle_refl.
Qed.

Lemma py_round_0 : py_round 0 = 0%Z.
Proof. reflexivity. Qed.

Lemma Qdiv_le_mono (a b d : Q) : (0 < d)%Q → (a <= b)%Q → (a / d <= b / d)%Q.
Proof.
  intros Hd Hab. unfold Qdiv. apply Qmult_le_compat_r; [exact Hab|].
  apply Qlt_le_weak, Qinv_lt_0_compat, Hd.
Qed.

Lemma elem_of_zrange (i lo hi : Z) : i ∈ zrange lo hi ↔ (lo ≤ i < hi)%Z.
Proof.
  unfold zrange. rewrite list_elem_of_fmap. split.
  - intros (k & -> & Hk). apply elem_of_seq in Hk. lia.
  - intros H. exists (Z.to_nat (i - lo)). split; [lia|].
    apply elem_of_seq. lia.
Qed.

Lemma py_in_iff (x : Z) (l : list Z) : py_in x l = true ↔ x ∈ l.
Proof.
  unfold py_in. rewrite existsb_exists. split.
  - intros (y & Hy & E). apply Z.eqb_eq in E. subst. by apply list_elem_of_In.
  - intros H. exists x. split; [by apply list_elem_of_In | apply Z.eqb_refl].
Qed.

Lemma py_index_Some {A} (l : list A) (i : Z) :
  (0 ≤ i < Z.of_nat (length l))%Z →
  ∃ x, py_index l i = Ok x ∧ l !! Z.to_nat i = Some x.
Proof.
  intros H. unfold py_index, py_pos.
  destruct (i <? 0)%Z eqn:E; [lia|].
  replace ((0 <=? i) && (i <? Z.of_nat (length l)))%Z with true
    by (symmetry; apply andb_true_iff; lia).
  simpl. destruct (l !! Z.to_nat i) as [x|] eqn:El; [eauto|].
  apply lookup_ge_None in El. lia.
Qed.

(** ** Timelines *)

Lemma owns_iff (dt a b : Q) (i : Z) :
  Engine.owns dt (a, b) i = true ↔
  (py_round (a / dt) ≤ i < py_round (b / dt))%Z.
Proof.
  unfold Engine.owns, Engine.start_ind, Engine.end_ind. simpl.
  rewrite andb_true_iff, Z.leb_le, Z.ltb_lt. done.
Qed.

Lemma round_div_mono (dt a b : Q) :
  (0 < dt)%Q → (a <= b)%Q → (py_round (a / dt) ≤ py_round (b / dt))%Z.
Proof. intros Hd Hab. by apply py_round_mono, Qdiv_le_mono. Qed.

Lemma lay_inv_empty (dt c0 : Q) : lay_inv dt c0 c0 ∅.
Proof.
  split; [apply Qle_refl|]. split.
  - intros n1 n2 p1 p2 i _ H. by rewrite lookup_empty in H.
  - intros i. split; [lia|].
    intros (n & p & H & _). by rewrite lookup_empty in H.
Qed.

Lemma lay_inv_step (dt c0 c d : Q) (n : string) (m : gmap string (Q * Q)) :
  (0 < dt)%Q → (0 <= d)%Q → m !! n = None →
  lay_inv dt c0 c m → lay_inv dt c0 (c + d) (<[n := (c, (c + d)%Q)]> m).
Proof.
  intros Hdt Hd Hfresh (Hc & Hdis & Hcov).
  assert (Hr1 : (py_round (c0 / dt) ≤ py_round (c / dt))%Z)
    by by apply round_div_mono.
  assert (Hr2 : (py_round (c / dt) ≤ py_round ((c + d) / dt))%Z)
    by (apply round_div_mono; [done | qlra]).
  assert (Hold : ∀ k p i, m !! k = Some p → Engine.owns dt p i = true →
                 (py_round (c0 / dt) ≤ i < py_round (c / dt))%Z).
  { intros k p i Hk Ho. apply Hcov. eauto. }
  split; [qlra|]. split.
  - intros n1 n2 p1 p2 i Hne H1 H2 O1 O2.
    destruct (decide (n1 = n)) as [->|N1], (decide (n2 = n)) as [->|N2];
      [done| | |].
    + rewrite lookup_insert_eq in H1. rewrite lookup_insert_ne in H2 by done.
      injection H1 as <-. apply owns_iff in O1.
      pose proof (Hold _ _ _ H2 O2). lia.
    + rewrite lookup_insert_eq in H2. rewrite lookup_insert_ne in H1 by done.
      injection H2 as <-. apply owns_iff in O2.
      pose proof (Hold _ _ _ H1 O1). lia.
    + rewrite lookup_insert_ne in H1, H2 by done. eauto.
  - intros i. split.
    + intros Hi. destruct (Z_lt_le_dec i (py_round (c / dt))) as [Hlt|Hge].
      * destruct (proj1 (Hcov i) (conj (proj1 Hi) Hlt)) as (k & p & Hk & Ho).
        exists k, p. split; [|done].
        rewrite lookup_insert_ne; [done|]. intros ->. congruence.
      * exists n, (c, (c + d)%Q). split; [apply lookup_insert_eq|].
        apply owns_iff. lia.
    + intros (k & p & Hk & Ho).
      destruct (decide (k = n)) as [->|Hkn].
      * rewrite lookup_insert_eq in Hk. injection Hk as <-.
        apply owns_iff in Ho. lia.
      * rewrite lookup_insert_ne in Hk by done.
        pose proof (Hold _ _ _ Hk Ho). lia.
Qed.

Lemma lay_inv_lay (dt c0 : Q) (nds : list (string * Q)) :
  (0 < dt)%Q →
  ∀ c m, NoDup nds.*1 → (∀ n, n ∈ nds.*1 → m !! n = None) →
    Forall (λ nd, 0 <= nd.2)%Q nds →
    lay_inv dt c0 c m → lay_inv dt c0 (lay_end c nds) (lay c nds m).
Proof.
  intros Hdt. induction nds as [|[n d] r IH]; intros c m Hnd Hfresh Hpos Hinv.
  - exact Hinv.
  - simpl in *. apply NoDup_cons in Hnd as [Hn Hnd].
    apply Forall_cons in Hpos as [Hd Hpos]. simpl in Hd.
    apply IH; [done| |done|].
    + intros k Hk. rewrite lookup_insert_ne.
      * apply Hfresh. by right.
      * intros ->. done.
    + apply lay_inv_step; [done|done| |done]. apply Hfresh. by left.
Qed.


(** Periods laid end to end from time 0, each of a non-negative duration,
    partition the timesteps up to the end of the last one. *)
Lemma lay_partitions (dt : Q) (nds : list (string * Q)) :
  (0 < dt)%Q → NoDup nds.*1 → Forall (λ nd, 0 <= nd.2)%Q nds →
  partitions dt (lay 0 nds ∅) (py_round (lay_end 0 nds / dt)).
Proof.
  intros Hdt Hnd Hpos.
  destruct (lay_inv_lay dt 0 nds Hdt 0 ∅ Hnd) as (_ & Hdis & Hcov).
  - intros n _. apply lookup_empty.
  - done.
  - apply lay_inv_empty.
  - assert (E : py_round (0 / dt) = 0%Z).
    { transitivity (py_round 0); [|reflexivity].
      apply py_round_comp. unfold Qdiv. apply Qmult_0_l. }
    rewrite E in Hcov. by split.
Qed.

Lemma lay_lookup_notin (nds : list (string * Q)) (n : string) :
  ∀ c m, n ∉ nds.*1 → lay c nds m !! n = m !! n.
Proof.
  induction nds as [|[k d] r IH]; intros c m Hn; [done|].
  simpl in *. apply not_elem_of_cons in Hn as [Hk Hn].
  rewrite IH by done. by rewrite lookup_insert_ne.
Qed.

Lemma lay_durations_nonneg (nds : list (string * Q)) :
  ∀ c m, NoDup nds.*1 →
    (∀ n p, n ∈ nds.*1 → lay c nds m !! n = Some p → (p.1 <= p.2)%Q) →
    Forall (λ nd, 0 <= nd.2)%Q nds.
Proof.
  induction nds as [|[k d] r IH]; intros c m Hnd H; [constructor|].
  simpl in *. apply NoDup_cons in Hnd as [Hk Hnd]. constructor.
  - specialize (H k (c, (c + d)%Q)). simpl in H.
    assert (c <= c + d)%Q; [|simpl; qlra].
    apply H; [by left|]. rewrite lay_lookup_notin by done.
    apply lookup_insert_eq.
  - apply (IH (c + d)%Q (<[k := (c, (c + d)%Q)]> m)); [done|].
    intros n p Hn. apply H. by right.
Qed.

Section EngineFacts.
Context {G : Type} `{!RandomState G} `{!Tasktools G}.

Lemma add_epoch_inv (n : string) (d : Q) (after : Engine.After)
    (last : bool) (e e' : Engine.Env G) :
  Engine.add_epoch n d after last e = Ok e' →
  ∃ c, Engine.period_start after e = Ok c ∧ (0 < Engine.dt e)%Q ∧
       let e1 := Engine.set_periods
                   (<[n := (c, (c + d)%Q)]> (Engine.periods e)) e in
       e' = if last then Engine.init_trial (c + d) e1 else e1.
Proof.
  unfold Engine.add_epoch. intros H.
  destruct (Qle_bool (Engine.dt e) 0) eqn:Edt; [done|].
  destruct (Engine.period_start after e) as [c|] eqn:Ec; [|done].
  simpl in H. injection H as <-. exists c. split; [done|]. split; [|done].
  apply Qnot_le_lt. intros Hle. apply Qle_bool_iff in Hle. congruence.
Qed.

Lemma add_timed_inv (timing : gmap string Engine.Dist) (n : string)
    (after : Engine.After) (last : bool) (e e' : Engine.Env G) :
  Engine.add_timed timing n after last e = Ok e' →
  ∃ c d g, Engine.period_start after e = Ok c ∧ (0 < Engine.dt e)%Q ∧
       let e1 := Engine.set_periods
                   (<[n := (c, (c + d)%Q)]> (Engine.periods e))
                   (Engine.set_rng g e) in
       e' = if last then Engine.init_trial (c + d) e1 else e1.
Proof.
  unfold Engine.add_timed, getitem. intros H.
  destruct (timing !! n) as [dist|]; [|done]. simpl in H.
  destruct (Engine.sample dist e) as [x g].
  apply add_epoch_inv in H as (c & Hc & Hdt & ->).
  exists c, x, g. split; [|done].
  by destruct after.
Qed.

(** What a call of [add_period] on a list of names leaves. *)
Lemma add_period_lay (timing : gmap string Engine.Dist)
    (names : list string) (last : bool) :
  ∀ (after : Engine.After) (e e' : Engine.Env G) (c : Q),
    names ≠ [] → Engine.period_start after e = Ok c →
    Engine.add_period timing names after last e = Ok e' →
    ∃ durs,
      length durs = length names ∧
      Engine.periods e' = lay c (zip names durs) (Engine.periods e) ∧
      Engine.dt e' = Engine.dt e ∧ (0 < Engine.dt e)%Q ∧
      Engine.t_ind e' = Engine.t_ind e ∧
      Engine.ob_width e' = Engine.ob_width e ∧
      Engine.ob_dict e' = Engine.ob_dict e ∧
      (last = true →
       let n := py_round (lay_end c (zip names durs) / Engine.dt e) in
       Engine.tmax_ind e' = n ∧
       Engine.ob e' =
         replicate (Z.to_nat n) (replicate (Engine.ob_width e) 0%Q) ∧
       Engine.gt e' = replicate (Z.to_nat n) 0%Z).
Proof.
  induction names as [|n rest IH]; intros after e e' c Hne Hc H; [done|].
  destruct rest as [|n2 rest].
  - simpl in H. apply add_timed_inv in H as (c' & d & g & Hc' & Hdt & ->).
    rewrite Hc in Hc'. injection Hc' as <-.
    exists [d]. simpl. destruct last; simpl; repeat split; done.
  - change (Engine.add_period timing (n :: n2 :: rest) after last e)
      with (e1 ← Engine.add_timed timing n after false e;
            Engine.add_period timing (n2 :: rest) (Engine.AfterPeriod n)
              last e1) in H.
    destruct (Engine.add_timed timing n after false e) as [e1|] eqn:E1;
      [|done].
    simpl in H.
    apply add_timed_inv in E1 as (c' & d & g & Hc' & Hdt & ->).
    rewrite Hc in Hc'. injection Hc' as <-.
    apply (IH _ _ _ (c + d)%Q) in H; [|done|].
    + destruct H as (durs & Hlen & Hp & Hd & _ & Ht & Hw & Ho & Hlast).
      exists (d :: durs).
      change (zip (n :: n2 :: rest) (d :: durs))
        with ((n, d) :: zip (n2 :: rest) durs).
      cbn [lay lay_end].
      split; [cbn [length]; by rewrite Hlen|].
      split; [exact Hp|]. split; [exact Hd|]. split; [exact Hdt|].
      split; [exact Ht|]. split; [exact Hw|]. split; [exact Ho|].
      exact Hlast.
    + cbn. by rewrite lookup_insert_eq.
Qed.

End EngineFacts.

(** ** Results *)

Lemma bind_Ok {A B} (m : Res A) (f : A → Res B) (b : B) :
  m ≫= f = Ok b → ∃ a, m = Ok a ∧ f a = Ok b.
Proof. destruct m as [a|]; [eauto | done]. Qed.

Lemma getitem_Ok {A} (d : gmap string A) (k : string) (v : A) :
  getitem d k = Ok v ↔ d !! k = Some v.
Proof. unfold getitem. destruct (d !! k); split; congruence. Qed.

(** Splits the first bind of a hypothesis [H : m ≫= f = Ok _]. *)
Ltac bind_inv H x Hx :=
  apply bind_Ok in H; destruct H as (x & Hx & H); cbn beta in H.

(** ** Buffers *)

Section BufferFacts.
Context {G : Type} `{!RandomState G} `{!Tasktools G}.

Lemma on_rows_length {A} (inp : Z → bool) (f : A → A) (rows : list A) :
  length (Engine.on_rows inp f rows) = length rows.
Proof. apply length_imap. Qed.


Lemma randn_rows_length (inp : Z → bool) (mu sigma : Q) (cs : list nat)
    (rows : list (list Q)) :
  ∀ i g, length (Engine.randn_rows inp mu sigma cs i rows g).1 = length rows.
Proof.
  induction rows as [|r rs IH]; intros i g; [done|].
  cbn [Engine.randn_rows].
  destruct (if inp i then Engine.randn_row mu sigma cs r g else (r, g))
    as [r' g1].
  specialize (IH (i + 1)%Z g1).
  destruct (Engine.randn_rows inp mu sigma cs (i + 1) rs g1) as [rs' g2].
  simpl in *. by rewrite IH.
Qed.

(** What the three writers leave untouched. *)
Definition same_frame (e e' : Engine.Env G) : Prop :=
  Engine.dt e' = Engine.dt e ∧ Engine.t_ind e' = Engine.t_ind e ∧
  Engine.periods e' = Engine.periods e ∧
  Engine.tmax_ind e' = Engine.tmax_ind e ∧
  length (Engine.ob e') = length (Engine.ob e).

Lemma same_frame_trans (e1 e2 e3 : Engine.Env G) :
  same_frame e1 e2 → same_frame e2 e3 → same_frame e1 e3.
Proof.
  unfold same_frame. intros (?&?&?&?&?) (?&?&?&?&?).
  repeat split; congruence.
Qed.

Lemma add_ob_frame (v : Engine.ObValue) (p w : option string)
    (e e' : Engine.Env G) :
  Engine.add_ob v p w e = Ok e' →
  same_frame e e' ∧ Engine.gt e' = Engine.gt e.
Proof.
  unfold Engine.add_ob. intros H.
  bind_inv H inp Hinp. bind_inv H cs Hcs. bind_inv H xs Hxs.
  injection H as <-. unfold same_frame. cbn.
  by rewrite on_rows_length.
Qed.

Lemma add_randn_frame (mu sigma : Q) (p w : option string)
    (e e' : Engine.Env G) :
  Engine.add_randn mu sigma p w e = Ok e' →
  same_frame e e' ∧ Engine.gt e' = Engine.gt e.
Proof.
  unfold Engine.add_randn. intros H.
  bind_inv H inp Hinp. bind_inv H cs Hcs.
  pose proof (randn_rows_length inp mu sigma cs (Engine.ob e) 0
                (Engine.rng e)) as Hlen.
  destruct (Engine.randn_rows inp mu sigma cs 0 (Engine.ob e) (Engine.rng e))
    as [o g].
  injection H as <-. unfold same_frame. cbn. done.
Qed.

Lemma set_groundtruth_inv (label : Z) (n : string) (e e' : Engine.Env G) :
  Engine.set_groundtruth label (Some n) e = Ok e' →
  ∃ p, Engine.periods e !! n = Some p ∧ same_frame e e' ∧
       Engine.gt e' =
       Engine.on_rows (Engine.owns (Engine.dt e) p) (λ _, label)
         (Engine.gt e).
Proof.
  unfold Engine.set_groundtruth, Engine.rows_of. intros H.
  destruct (Engine.periods e !! n) as [p|]; [|done].
  cbn in H. injection H as <-. exists p. unfold same_frame. done.
Qed.

End BufferFacts.

(** ** nalt_PerceptualDecisionMaking *)

Section NaltFacts.
Context {G : Type} `{!RandomState G} `{!Tasktools G} `{!NumPy}.
Import nalt_PerceptualDecisionMaking.

Lemma nalt_new_trial_inv (self self' : t G) (kwargs : gmap string Q) :
  new_trial self kwargs = Ok self' →
  ∃ d1 d2 d3 g label,
    let e := env self in
    let e' := env self' in
    let N := py_round (lay_end 0 (nalt_chain d1 d2 d3) / Engine.dt e) in
    Engine.periods e' = lay 0 (nalt_chain d1 d2 d3) (Engine.periods e) ∧
    Engine.dt e' = Engine.dt e ∧ (0 < Engine.dt e)%Q ∧
    Engine.t_ind e' = Engine.t_ind e ∧
    Engine.tmax_ind e' = N ∧
    length (Engine.ob e') = Z.to_nat N ∧
    getitem (trial self') "ground_truth" = Ok g ∧ as_int g = Ok label ∧
    Engine.gt e' =
      Engine.on_rows
        (Engine.owns (Engine.dt e) ((0 + d1 + d2)%Q, (0 + d1 + d2 + d3)%Q))
        (λ _, label) (replicate (Z.to_nat N) 0%Z) ∧
    rewards self' = rewards self ∧ abort self' = abort self.
Proof.
  unfold new_trial. intros Hc.
  bind_inv Hc x1 H1. destruct x1 as [gt0 g1].
  bind_inv Hc x2 H2. destruct x2 as [coh0 g2].
  bind_inv Hc e1 He1. bind_inv Hc e2 He2. bind_inv Hc st Hst.
  bind_inv Hc e3 He3. bind_inv Hc e4 He4. bind_inv Hc gtr Hg.
  bind_inv Hc label Hl. bind_inv Hc e5 He5. injection Hc as <-.
  apply (add_period_lay _ _ _ _ _ _ 0%Q) in He1; [|done|done].
  destruct He1 as (durs & Hlen & Hp & Hd & Hdt & Ht & Hw & Ho & Hlast).
  destruct durs as [|d1 [|d2 [|d3 [|]]]]; try done.
  destruct (Hlast eq_refl) as (HN & Hob & Hgt). clear Hlast.
  apply add_ob_frame in He2 as [F2 G2].
  apply add_ob_frame in He3 as [F3 G3].
  apply add_randn_frame in He4 as [F4 G4].
  apply set_groundtruth_inv in He5 as (p & Hpd & F5 & G5).
  pose proof (same_frame_trans _ _ _ (same_frame_trans _ _ _ (same_frame_trans _ _ _ F2 F3) F4) F5) as (Fdt & Ft & Fp & Fn & Fl).
  exists d1, d2, d3, gtr, label.
  cbn [env set_env set_trial trial rewards abort Engine.dt Engine.set_rng
       Engine.periods Engine.t_ind] in *.
  destruct F2 as (A1 & A2 & A3 & A4 & A5), F3 as (B1 & B2 & B3 & B4 & B5),
    F4 as (C1 & C2 & C3 & C4 & C5).
  assert (Hp4 : Engine.periods e4 = Engine.periods e1) by congruence.
  assert (Hd4 : Engine.dt e4 = Engine.dt (env self)) by congruence.
  rewrite Hp4, Hp in Hpd. cbn [zip zip_with lay] in Hpd.
  rewrite lookup_insert_eq in Hpd. injection Hpd as <-.
  cbn [env set_env set_trial trial rewards abort].
  unfold nalt_chain. cbn [zip zip_with] in HN, Hob, Hgt, Hp.
  split; [congruence|]. split; [congruence|]. split; [done|].
  split; [congruence|]. split; [congruence|].
  split; [by rewrite Fl, Hob, length_replicate|].
  split; [done|]. split; [done|].
  split; [|done]. rewrite G5, G4, G3, G2, Hgt, Hd4. done.
Qed.


End NaltFacts.

Section NaltSteps.
Context {G : Type} `{!RandomState G} `{!Tasktools G} `{!NumPy}.
Import nalt_PerceptualDecisionMaking.

Lemma nalt_step_fixation (self : t G) (action gt : Z) (obs : list Q)
    (ra : Q) :
  Engine.ob_now (env self) = Ok obs → Engine.gt_now (env self) = Ok gt →
  in_period "fixation" self = Ok true → action ≠ 0%Z →
  getitem (rewards self) "abort" = Ok ra →
  _step self action = Ok (self, (obs, ra, false, period_info (abort self) gt)).
Proof.
  intros Ho Hg Hf Ha Hr. unfold _step. rewrite Ho, Hg, Hf. cbn.
  apply Z.eqb_neq in Ha. rewrite Ha. cbn. rewrite Hr. done.
Qed.


Lemma nalt_step_between (self : t G) (action gt : Z) (obs : list Q) :
  Engine.ob_now (env self) = Ok obs → Engine.gt_now (env self) = Ok gt →
  in_period "fixation" self = Ok false →
  in_period "decision" self = Ok false →
  _step self action = Ok (self, (obs, 0%Q, false, period_info false gt)).
Proof.
  intros Ho Hg Hf Hd. unfold _step. rewrite Ho, Hg, Hf. cbn.
  rewrite Hd. done.
Qed.

(** Whatever a step returns: the flag is False and the info dictionary
    holds the two entries. *)
Lemma nalt_step_inv (self self' : t G) (action : Z) (obs : list Q)
    (reward : Q) (done_ : bool) (info : gmap string PyVal) :
  _step self action = Ok (self', (obs, reward, done_, info)) →
  done_ = false ∧
  ∃ b gt, Engine.gt_now (env self) = Ok gt ∧ info = period_info b gt.
Proof.
  unfold _step. intros Hs.
  bind_inv Hs o Ho. bind_inv Hs g0 Hg. bind_inv Hs fx Hf.
  bind_inv Hs x Hx. destruct x as [[s b] r].
  injection Hs as <- <- <- <- <-. split; [done|]. by exists b, g0.
Qed.

(** A step returns whenever both buffers have a row for the timestep, the
    two periods are declared and the three rewards are configured. *)
Lemma nalt_step_total (self : t G) (action : Z) :
  (∃ obs, Engine.ob_now (env self) = Ok obs) →
  (∃ gt, Engine.gt_now (env self) = Ok gt) →
  (∃ b, in_period "fixation" self = Ok b) →
  (∃ b, in_period "decision" self = Ok b) →
  (∀ k, k ∈ ["abort"; "correct"; "fail"] → ∃ r, getitem (rewards self) k = Ok r) →
  ∃ r, _step self action = Ok r.
Proof.
  intros [obs Ho] [gt Hg] [fx Hf] [dc Hd] Hr.
  destruct (Hr "abort") as [ra Hra]; [set_solver|].
  destruct (Hr "correct") as [rc Hrc]; [set_solver|].
  destruct (Hr "fail") as [rf Hrf]; [set_solver|].
  unfold _step. rewrite Ho, Hg, Hf. cbn.
  destruct fx.
  - destruct (action =? 0)%Z; cbn; [eauto|]. rewrite Hra. cbn. eauto.
  - rewrite Hd. cbn. destruct dc; [|eauto].
    destruct (action =? 0)%Z; cbn; [eauto|].
    destruct (action =? gt)%Z; [rewrite Hrc | rewrite Hrf]; cbn; eauto.
Qed.

End NaltSteps.

(** ** DelayedMatchCategory *)

Section DMCFacts.
Context {G : Type} `{!RandomState G} `{!Tasktools G} `{!NumPy}.
Import DelayedMatchCategory.

Lemma dmc_new_trial_inv (self self' : t G) (kwargs : gmap string Q) :
  new_trial self kwargs = Ok self' →
  ∃ d1 d2 d3 d4 g label,
    let e := env self in
    let e' := env self' in
    let N := py_round (lay_end 0 (dmc_chain d1 d2 d3 d4) / Engine.dt e) in
    Engine.periods e' = lay 0 (dmc_chain d1 d2 d3 d4) (Engine.periods e) ∧
    Engine.dt e' = Engine.dt e ∧ (0 < Engine.dt e)%Q ∧
    Engine.t_ind e' = Engine.t_ind e ∧
    Engine.tmax_ind e' = N ∧
    length (Engine.ob e') = Z.to_nat N ∧
    getitem (trial self') "ground_truth" = Ok g ∧ as_int g = Ok label ∧
    Engine.gt e' =
      Engine.on_rows
        (Engine.owns (Engine.dt e)
           ((0 + d1 + d2 + d3)%Q, (0 + d1 + d2 + d3 + d4)%Q))
        (λ _, label) (replicate (Z.to_nat N) 0%Z) ∧
    rewards self' = rewards self ∧ abort self' = abort self.
Proof.
  unfold new_trial. intros Hc.
  bind_inv Hc x1 H1. destruct x1 as [gt0 g1].
  bind_inv Hc x2 H2. destruct x2 as [sc0 g2].
  bind_inv Hc gtr Hg. bind_inv Hc scat Hsc.
  destruct (rng_random g2) as [u1 g3]. destruct (rng_random g3) as [u2 g4].
  bind_inv Hc e1 He1. bind_inv Hc e2 He2. bind_inv Hc e3 He3.
  bind_inv Hc e4 He4. bind_inv Hc e5 He5. bind_inv Hc e6 He6.
  bind_inv Hc label Hl. bind_inv Hc e7 He7. injection Hc as <-.
  apply (add_period_lay _ _ _ _ _ _ 0%Q) in He1; [|done|done].
  destruct He1 as (durs & Hlen & Hp & Hd & Hdt & Ht & Hw & Ho & Hlast).
  destruct durs as [|d1 [|d2 [|d3 [|d4 [|]]]]]; try done.
  destruct (Hlast eq_refl) as (HN & Hob & Hgt). clear Hlast.
  apply add_ob_frame in He2 as [F2 G2].
  apply add_ob_frame in He3 as [F3 G3].
  apply add_ob_frame in He4 as [F4 G4].
  apply add_randn_frame in He5 as [F5 G5].
  apply add_randn_frame in He6 as [F6 G6].
  apply set_groundtruth_inv in He7 as (p & Hpd & F7 & G7).
  pose proof (same_frame_trans _ _ _
                (same_frame_trans _ _ _
                   (same_frame_trans _ _ _
                      (same_frame_trans _ _ _ F2 F3) F4) F5) F6)
    as (Edt & Et & Ep & En & El).
  destruct F7 as (Fdt & Ft & Fp & Fn & Fl).
  exists d1, d2, d3, d4, gtr, label.
  cbn [env set_env set_trial trial rewards abort Engine.dt Engine.set_rng
       Engine.periods Engine.t_ind] in *.
  rewrite Ep, Hp in Hpd. cbn [zip zip_with lay] in Hpd.
  rewrite lookup_insert_eq in Hpd. injection Hpd as <-.
  unfold dmc_chain. cbn [zip zip_with] in HN, Hob, Hgt, Hp.
  split; [congruence|]. split; [congruence|]. split; [done|].
  split; [congruence|]. split; [congruence|].
  split; [by rewrite Fl, El, Hob, length_replicate|].
  split; [done|]. split; [done|].
  split; [|done]. rewrite G7, G6, G5, G4, G3, G2, Hgt, Edt, Hd. done.
Qed.


Lemma dmc_step_fixation (self : t G) (action gt : Z) (obs : list Q)
    (ra : Q) :
  Engine.ob_now (env self) = Ok obs → Engine.gt_now (env self) = Ok gt →
  in_period "fixation" self = Ok true → action ≠ 0%Z →
  getitem (rewards self) "abort" = Ok ra →
  _step self action = Ok (self, (obs, ra, false, period_info (abort self) gt)).
Proof.
  intros Ho Hg Hf Ha Hr. unfold _step. rewrite Ho, Hg, Hf. cbn.
  apply Z.eqb_neq in Ha. rewrite Ha. cbn. rewrite Hr. done.
Qed.


Lemma dmc_step_between (self : t G) (action gt : Z) (obs : list Q) :
  Engine.ob_now (env self) = Ok obs → Engine.gt_now (env self) = Ok gt →
  in_period "fixation" self = Ok false →
  in_period "test" self = Ok false →
  _step self action = Ok (self, (obs, 0%Q, false, period_info false gt)).
Proof.
  intros Ho Hg Hf Hd. unfold _step. rewrite Ho, Hg, Hf. cbn.
  rewrite Hd. done.
Qed.

Lemma dmc_step_inv (self self' : t G) (action : Z) (obs : list Q)
    (reward : Q) (done_ : bool) (info : gmap string PyVal) :
  _step self action = Ok (self', (obs, reward, done_, info)) →
  done_ = false ∧
  ∃ b gt, Engine.gt_now (env self) = Ok gt ∧ info = period_info b gt.
Proof.
  unfold _step. intros Hs.
  bind_inv Hs o Ho. bind_inv Hs g0 Hg. bind_inv Hs fx Hf.
  bind_inv Hs x Hx. destruct x as [[s b] r].
  injection Hs as <- <- <- <- <-. split; [done|]. by exists b, g0.
Qed.

Lemma dmc_step_total (self : t G) (action : Z) :
  (∃ obs, Engine.ob_now (env self) = Ok obs) →
  (∃ gt, Engine.gt_now (env self) = Ok gt) →
  (∃ b, in_period "fixation" self = Ok b) →
  (∃ b, in_period "test" self = Ok b) →
  (∀ k, k ∈ ["abort"; "correct"; "fail"] → ∃ r, getitem (rewards self) k = Ok r) →
  ∃ r, _step self action = Ok r.
Proof.
  intros [obs Ho] [gt Hg] [fx Hf] [dc Hd] Hr.
  destruct (Hr "abort") as [ra Hra]; [set_solver|].
  destruct (Hr "correct") as [rc Hrc]; [set_solver|].
  destruct (Hr "fail") as [rf Hrf]; [set_solver|].
  unfold _step. rewrite Ho, Hg, Hf. cbn.
  destruct fx.
  - destruct (action =? 0)%Z; cbn; [eauto|]. rewrite Hra. cbn. eauto.
  - rewrite Hd. cbn. destruct dc; [|eauto].
    destruct (action =? 0)%Z; cbn; [eauto|].
    destruct (action =? gt)%Z; [rewrite Hrc | rewrite Hrf]; cbn; eauto.
Qed.

End DMCFacts.

(** ** ReadySetGo *)

Section RSGFacts.
Context {G : Type} `{!RandomState G} `{!Tasktools G} `{!NumPy}.
Import ReadySetGo.

Lemma rsg_new_trial_inv (self self' : t G) (tr : gmap string Q) :
  _new_trial self = Ok (self', tr) →
  ∃ measure g,
    let e := env self in
    let production := (measure * gain self)%Q in
    measure ∈ measures self ∧
    tr = <["measure" := measure]> (<["production" := production]> ∅) ∧
    (0 < Engine.dt e)%Q ∧
    self' =
      set_env
        (Engine.init_trial
           (0 + fixation self + measure + set_ self + 2 * production)%Q
           (Engine.set_periods
              (rsg_periods (fixation self) (ready self) measure (set_ self)
                 production (Engine.periods e))
              (Engine.set_rng g e)))
        self.
Proof.
  unfold _new_trial. intros Hc.
  bind_inv Hc x Hx. destruct x as [measure g].
  bind_inv Hc e1 H1. bind_inv Hc e2 H2. bind_inv Hc e3 H3.
  bind_inv Hc e4 H4. bind_inv Hc e5 H5. injection Hc as <- <-.
  apply add_epoch_inv in H1 as (c1 & Hc1 & Hdt & ->).
  injection Hc1 as <-.
  apply add_epoch_inv in H2 as (c2 & Hc2 & _ & ->).
  cbn in Hc2. rewrite lookup_insert_eq in Hc2. injection Hc2 as <-.
  apply add_epoch_inv in H3 as (c3 & Hc3 & _ & ->).
  cbn in Hc3. rewrite lookup_insert_ne, lookup_insert_eq in Hc3 by done.
  injection Hc3 as <-.
  apply add_epoch_inv in H4 as (c4 & Hc4 & _ & ->).
  cbn in Hc4. rewrite lookup_insert_eq in Hc4. injection Hc4 as <-.
  apply add_epoch_inv in H5 as (c5 & Hc5 & _ & ->).
  cbn in Hc5. rewrite lookup_insert_eq in Hc5. injection Hc5 as <-.
  exists measure, g. cbn beta zeta.
  split.
  { unfold py_choice in Hx. destruct (measures self) as [|m0 ms] eqn:Em;
      [done|].
    injection Hx as Hx. rewrite <- Em.
    replace measure with (rng_choice (measures self) (Engine.rng (env self))).1
      by (by rewrite Em, Hx).
    apply rng_choice_elem. by rewrite Em. }
  split; [done|]. split; [exact Hdt|]. done.
Qed.

Lemma rsg_step_inv (self : t G) (action : Z) (obs : list Q) (reward : R)
    (done_ : bool) (info : gmap string PyVal) :
  _step self action = Ok (obs, reward, done_, info) →
  done_ = false ∧ ∃ b gt, info = rsg_info b gt.
Proof.
  unfold _step. intros Hs.
  bind_inv Hs fx Hf. bind_inv Hs x Hx. destruct x as [[[o g0] b] r].
  bind_inv Hs pr Hp. bind_inv Hs y Hy. destruct y as [[g1 b1] r1].
  bind_inv Hs rd Hr. bind_inv Hs st Hst.
  injection Hs as <- <- <- <-. split; [done|]. by exists b1, g1.
Qed.

(** The elapsed production time is within dt/2 + 1 of the target. *)
Definition near (self : t G) (measure_1 production : Q) : bool :=
  Qlt_bool (Qabs (Engine.t (env self) - measure_1 - production))
    (Engine.dt (env self) / 2 + 1).

(** The ground truth of a step at a timestep that is not in both the
    fixation and the production epoch. *)
Lemma rsg_step_gt (self : t G) (action act : Z) (fx pr rd st : bool)
    (measure_1 production : Q) :
  in_epoch "fixation" self = Ok fx → in_epoch "production" self = Ok pr →
  in_epoch "ready" self = Ok rd → in_epoch "set" self = Ok st →
  py_index (actions self) action = Ok act →
  Engine.period_end "measure" (env self) = Ok measure_1 →
  getitem (trial self) "production" = Ok production →
  fx && pr = false →
  ∃ obs reward b,
    _step self action =
    Ok (obs, reward, false,
        rsg_info b (if pr && near self measure_1 production
                    then [0; 1]%Q else [1; 0]%Q)).
Proof.
  intros Hf Hp Hr Hs Ha Hm Hprod Hx. unfold _step, near.
  rewrite Hf, Hp, Hr, Hs. cbn.
  destruct fx, pr; try done; cbn; rewrite ?Ha, ?Hm, ?Hprod; cbn.
  - destruct (negb (act =? -1)%Z); cbn; eauto.
  - destruct (Qlt_bool _ (Engine.dt (env self) / 2 + 1)); cbn;
      destruct (action =? 1)%Z; cbn; try (by eauto);
      destruct (Qlt_bool _ _); cbn; eauto.
  - eauto.
Qed.

(** A non-fixate action at a timestep of the fixation epoch. *)
Lemma rsg_step_fixation (self : t G) (action act : Z) (rd st : bool) :
  in_epoch "fixation" self = Ok true →
  in_epoch "production" self = Ok false →
  in_epoch "ready" self = Ok rd → in_epoch "set" self = Ok st →
  py_index (actions self) action = Ok act → act ≠ (-1)%Z →
  _step self action =
  Ok ([1; if rd then 1 else 0; if st then 1 else 0]%Q, R_ABORTED self, false,
      rsg_info (abort self) [1; 0]%Q).
Proof.
  intros Hf Hp Hr Hs Ha Hne. unfold _step.
  rewrite Hf, Hp, Hr, Hs. cbn. rewrite Ha. cbn.
  apply Z.eqb_neq in Hne. rewrite Hne. cbn. by destruct rd, st.
Qed.

End RSGFacts.

(** ** RDM *)

Section RDMFacts.
Context {G : Type} `{!RandomState G} `{!Tasktools G} `{!NumPy}.
Import RDM.

Lemma actions_FIXATE : getitem actions "FIXATE" = Ok 0%Z.
Proof. reflexivity. Qed.

Lemma actions_LEFT : getitem actions "CHOOSE-LEFT" = Ok 1%Z.
Proof. reflexivity. Qed.

Lemma actions_RIGHT : getitem actions "CHOOSE-RIGHT" = Ok 2%Z.
Proof. reflexivity. Qed.

Lemma inputs_FIXATION : getitem inputs "FIXATION" = Ok 0%Z.
Proof. reflexivity. Qed.

Lemma inputs_LEFT : getitem inputs "LEFT" = Ok 1%Z.
Proof. reflexivity. Qed.

Lemma inputs_RIGHT : getitem inputs "RIGHT" = Ok 2%Z.
Proof. reflexivity. Qed.

Lemma inputs_size : size inputs = 3%nat.
Proof. reflexivity. Qed.

Arguments actions : simpl never.
Arguments inputs : simpl never.

Lemma get_epochs_idx_durations (dt stimulus : Q) :
  get_epochs_idx dt (rdm_durations stimulus) =
  Ok (zrange 0 (Qceiling (tmax / dt)), rdm_epochs dt stimulus).
Proof. reflexivity. Qed.

(** [_new_trial] always returns; without a stimulus in the context, the
    stimulus duration is the sampler's draw with [self.stimulus_min] as
    minimum. *)
Lemma rdm_new_trial_inv (self : task G) (g : G) (dt : Q)
    (context : gmap string Q) :
  ∃ stimulus lr c g',
    _new_trial self g dt context =
    Ok (mkTrial (rdm_durations stimulus) (zrange 0 (Qceiling (tmax / dt)))
          (rdm_epochs dt stimulus) lr c, g') ∧
    (context !! "stimulus" = None →
     stimulus = (truncated_exponential g dt stimulus_mean (stimulus_min self)
                   stimulus_max).1).
Proof.
  unfold _new_trial.
  destruct (context !! "stimulus") as [x|].
  - fold (rdm_durations x). rewrite get_epochs_idx_durations. cbn.
    destruct (context !! "left_right"), (context !! "coh"); cbn;
      repeat match goal with
             | |- context [rng_choice ?l ?r] => destruct (rng_choice l r)
             end;
      do 4 eexists; (split; [reflexivity | done]).
  - destruct (truncated_exponential g dt stimulus_mean (stimulus_min self)
                stimulus_max) as [x g1].
    fold (rdm_durations x). rewrite get_epochs_idx_durations. cbn.
    destruct (context !! "left_right"), (context !! "coh"); cbn;
      repeat match goal with
             | |- context [rng_choice ?l ?r] => destruct (rng_choice l r)
             end;
      do 4 eexists; (split; [reflexivity | done]).
Qed.

(** What every status dictionary holds, and what it does not. *)
Lemma step_reward_status (self : task G) (action : Z)
    (status : gmap string PyVal) (reward : Q) :
  step_reward self action = Ok (status, reward) →
  (∃ b, status !! "continue" = Some (VBool b)) ∧
  status !! "new_trial" = None ∧ status !! "gt" = None.
Proof.
  unfold step_reward. intros Hx. bind_inv Hx dec Hdec.
  destruct (negb (py_in (t self - 1) dec)).
  - bind_inv Hx fx Hfx.
    destruct (negb (action =? fx)%Z); injection Hx as <- <-;
      (split; [eexists; reflexivity | split; reflexivity]).
  - destruct (py_in (t self - 1) dec);
      [|injection Hx as <- <-;
        (split; [eexists; reflexivity | split; reflexivity])].
    bind_inv Hx cl Hcl. destruct (action =? cl)%Z.
    + injection Hx as <- <-.
      split; [eexists; reflexivity | split; reflexivity].
    + bind_inv Hx cr Hcr.
      destruct (action =? cr)%Z; injection Hx as <- <-;
        (split; [eexists; reflexivity | split; reflexivity]).
Qed.

Lemma step_reward_total (self : task G) (action : Z) (dec : list Z) :
  epochs (trial self) !! "decision" = Some dec →
  ∃ status reward, step_reward self action = Ok (status, reward).
Proof.
  intros Hd. unfold step_reward. apply getitem_Ok in Hd. rewrite Hd. cbn.
  rewrite actions_FIXATE, actions_LEFT. cbn.
  destruct (negb (py_in (t self - 1) dec)).
  - destruct (negb (action =? 0)%Z); eauto.
  - destruct (py_in (t self - 1) dec); [|eauto].
    destruct (action =? 1)%Z; [eauto|]. rewrite actions_RIGHT. cbn.
    destruct (action =? 2)%Z; eauto.
Qed.

Lemma step_inputs_total (self : task G) (fix_ sti : list Z) :
  epochs (trial self) !! "fixation" = Some fix_ →
  epochs (trial self) !! "stimulus" = Some sti →
  ∃ obs g, step_inputs self = Ok (obs, g).
Proof.
  intros Hf Hs. unfold step_inputs.
  apply getitem_Ok in Hf, Hs.
  rewrite Hf, Hs, inputs_FIXATION, inputs_LEFT, inputs_RIGHT, inputs_size.
  destruct (rng_normal 0 sigma (rng self)) as [x g1].
  destruct (rng_normal 0 sigma g1) as [y g2].
  destruct (Qlt_bool (left_right (trial self)) 0); cbn;
    destruct (py_in (t self) fix_), (py_in (t self) sti); cbn; eauto.
Qed.

(** The rest of a step, once its first two parts have returned. *)
Lemma step_tail (self : task G) (action : Z) (status : gmap string PyVal)
    (reward : Q) (continue : bool) (obs : list Q) (g : G) :
  step_reward self action = Ok (status, reward) →
  status !! "continue" = Some (VBool continue) →
  step_inputs self = Ok (obs, g) →
  ∃ self',
    step self action =
    Ok (self', (obs, returned_reward self continue reward, false, status)) ∧
    stimulus_min self' = stimulus_min self ∧ dt self' = dt self.
Proof.
  intros Hr Hc Hi. unfold step, returned_reward, get_bool, getitem.
  rewrite Hr. cbn. rewrite Hi. cbn. rewrite Hc. cbn.
  destruct (tasktools_new_trial _ _ _ _ _ _ _ _ _) as [[[[r' nt] t'] p'] n'].
  cbn. destruct nt; cbn; [|eauto].
  destruct (rdm_new_trial_inv self g (dt self) ∅)
    as (sti & lr & c & g' & -> & _).
  cbn. eauto.
Qed.

(** Whatever a step returns: the flag is False, the adjusted minimum and
    the timestep size are kept, and the status dictionary holds a boolean
    'continue' and neither 'new_trial' nor 'gt'. *)
Lemma rdm_step_inv (self self' : task G) (action : Z) (obs : list Q)
    (reward : Q) (done_ : bool) (status : gmap string PyVal) :
  step self action = Ok (self', (obs, reward, done_, status)) →
  done_ = false ∧ stimulus_min self' = stimulus_min self ∧
  dt self' = dt self ∧
  (∃ b, status !! "continue" = Some (VBool b)) ∧
  status !! "new_trial" = None ∧ status !! "gt" = None.
Proof.
  unfold step. intros Hs.
  bind_inv Hs x Hx. destruct x as [st r].
  bind_inv Hs og Hog. destruct og as [o2 g2].
  bind_inv Hs cont Hcont.
  destruct (tasktools_new_trial _ _ _ _ _ _ _ _ _) as [[[[r' nt] t'] p'] n'].
  bind_inv Hs tg Htg. destruct tg as [tr g3].
  injection Hs as <- <- <- <- <-.
  split; [done|]. split; [done|]. split; [done|].
  by apply step_reward_status in Hx.
Qed.

Lemma rdm_step_total (self : task G) (action : Z) (fix_ sti dec : list Z) :
  epochs (trial self) !! "fixation" = Some fix_ →
  epochs (trial self) !! "stimulus" = Some sti →
  epochs (trial self) !! "decision" = Some dec →
  ∃ r, step self action = Ok r.
Proof.
  intros Hf Hs Hd.
  destruct (step_reward_total self action dec Hd) as (status & reward & Hr).
  destruct (step_inputs_total self fix_ sti Hf Hs) as (obs & g & Hi).
  destruct (step_reward_status _ _ _ _ Hr) as ([b Hb] & _).
  destruct (step_tail _ _ _ _ _ _ _ Hr Hb Hi) as (self' & Hstep & _).
  eauto.
Qed.

End RDMFacts.

(** * The claims *)

Section RDMStimulusMinimum.
Context {G : Type} `{!RandomState G} `{!Tasktools G} `{!NumPy}.

Lemma rdm_run_keeps_minimum (acts : list Z) :
  ∀ self self' : RDM.task G,
    RDM.run self acts = Ok self' →
    RDM.stimulus_min self' = RDM.stimulus_min self.
Proof.
  induction acts as [|a rest IH]; intros self self' Hrun.
  - by injection Hrun as <-.
  - cbn [RDM.run] in Hrun. bind_inv Hrun x Hx.
    destruct x as [s1 [[[obs reward] done_] status]].
    apply rdm_step_inv in Hx as (_ & Hmin & _).
    rewrite (IH _ _ Hrun). exact Hmin.
Qed.

(** C7.  In RDM the minimum handed to the truncated-exponential sampler is
    max(stimulus_min, dt), with the dt of the construction: [__init__]
    stores it before it draws the first trial, no step changes it, and
    [_new_trial] hands the stored value on, whatever timestep size it is
    called with. *)
Theorem C7_stimulus_min_set_at_construction (dt0 p : Q) (g : G)
    (acts : list Z) (self self' : RDM.task G) :
  RDM.__init__ dt0 p g = Ok self →
  RDM.run self acts = Ok self' →
  RDM.durations (RDM.trial self) =
    rdm_durations
      (truncated_exponential g dt0 RDM.stimulus_mean
         (Qmax RDM.stimulus_min_class dt0) RDM.stimulus_max).1 ∧
  RDM.stimulus_min self' = Qmax RDM.stimulus_min_class dt0 ∧
  ∀ (g1 : G) (dt1 : Q) (context : gmap string Q),
    context !! "stimulus" = None →
    ∃ tr g2,
      RDM._new_trial self' g1 dt1 context = Ok (tr, g2) ∧
      RDM.durations tr =
        rdm_durations
          (truncated_exponential g1 dt1 RDM.stimulus_mean
             (Qmax RDM.stimulus_min_class dt0) RDM.stimulus_max).1.
Proof.
  intros Hinit Hrun. unfold RDM.__init__ in Hinit.
  set (s0 := RDM.mk dt0 0 g 0 0 p (Qmax RDM.stimulus_min_class dt0)
               (RDM.mkTrial ∅ [] ∅ 0 0)) in *.
  destruct (rdm_new_trial_inv s0 g dt0 ∅) as (sti & lr & c & g' & E & Hsti).
  cbn zeta in Hinit. cbn [RDM.rng RDM.dt s0] in Hinit.
  rewrite E in Hinit. cbn in Hinit. injection Hinit as <-.
  apply rdm_run_keeps_minimum in Hrun. cbn in Hrun.
  split; [|split].
  - cbn. by rewrite (Hsti eq_refl).
  - exact Hrun.
  - intros g1 dt1 context Hctx.
    destruct (rdm_new_trial_inv self' g1 dt1 context)
      as (sti1 & lr1 & c1 & g2 & E1 & Hsti1).
    eexists _, _. split; [exact E1|]. cbn.
    by rewrite (Hsti1 Hctx), Hrun.
Qed.

End RDMStimulusMinimum.

(** The theorem of C7 on the concrete task: constructed with dt = 100 and
    stepped three times. *)
Lemma C7_witness :
  RDM.stimulus_min (Run.rdm_after [0; 0; 1]%Z)
  = Qmax RDM.stimulus_min_class 100.
Proof.
  refine (proj1 (proj2 (C7_stimulus_min_set_at_construction
                          100 0 7%N [0; 0; 1]%Z Run.rdm
                          (Run.rdm_after [0; 0; 1]%Z) _ _))).
  - vm_compute. reflexivity.
  - vm_compute. reflexivity.
Defined.

Lemma as_int_pred (g : Q) (k : Z) :
  as_int g = Ok k → as_int (g - 1) = Ok (k - 1)%Z.
Proof.
  unfold as_int. intros Hg.
  destruct (Qeq_bool g (inject_Z (Qfloor g))) eqn:E; [|done].
  injection Hg as <-. apply Qeq_bool_iff in E.
  assert (E1 : (g - 1 == inject_Z (Qfloor g - 1))%Q).
  { rewrite E at 1. unfold Zminus. rewrite inject_Z_plus. simpl. reflexivity. }
  assert (F : Qfloor (g - 1) = (Qfloor g - 1)%Z).
  { rewrite (Qfloor_comp _ _ E1). apply Qfloor_Z. }
  rewrite F. apply Qeq_bool_iff in E1. by rewrite E1.
Qed.

Section NaltStimulusVector.
Context {G : Type} `{!RandomState G} `{!Tasktools G} `{!NumPy}.


End NaltStimulusVector.

(** ** C10: the stimulus rows of a trial *)



Section BufferWrites.
Context {G : Type} `{!RandomState G} `{!Tasktools G}.




End BufferWrites.

Section NaltStimulus.
Context {G : Type} `{!RandomState G} `{!Tasktools G} `{!NumPy}.
Import nalt_PerceptualDecisionMaking.


End NaltStimulus.



Lemma rsg_periods_lookup (f r m s p : Q) (base : gmap string (Q * Q)) :
  rsg_periods f r m s p base !! "fixation" = Some (0%Q, (0 + f)%Q) ∧
  rsg_periods f r m s p base !! "ready" = Some ((0 + f)%Q, (0 + f + r)%Q) ∧
  rsg_periods f r m s p base !! "measure"
    = Some ((0 + f)%Q, (0 + f + m)%Q) ∧
  rsg_periods f r m s p base !! "set"
    = Some ((0 + f + m)%Q, (0 + f + m + s)%Q) ∧
  rsg_periods f r m s p base !! "production"
    = Some ((0 + f + m + s)%Q, (0 + f + m + s + 2 * p)%Q).
Proof.
  unfold rsg_periods.
  repeat split;
    repeat (rewrite lookup_insert_ne by done); apply lookup_insert_eq.
Qed.

Section ReadySetGoGroundTruth.
Context {G : Type} `{!RandomState G} `{!Tasktools G} `{!NumPy}.
Import ReadySetGo.

(** C9.  In ReadySetGo._step the ground-truth vector info['gt'] is one-hot
    at every timestep and for every action of the action space: it is
    [0, 1] exactly when the timestep is in the production epoch and the
    elapsed production time is within dt/2 + 1 of the target, and [1, 0]
    in every other case.  The trial is one [_new_trial] declared, from
    measures and a set duration that are not negative. *)
Theorem C9_ground_truth_one_hot (self self' : t G) (tr : gmap string Q)
    (i action : Z) :
  _new_trial self = Ok (self', tr) →
  Forall (λ m, 0 <= m)%Q (measures self) → (0 <= set_ self)%Q →
  actions self = [-1; 1]%Z → (0 ≤ action < 2)%Z →
  let s := at_step i (set_trial tr self') in
  ∃ obs reward info gt in_prod measure_1 production,
    _step s action = Ok (obs, reward, false, info) ∧
    info !! "gt" = Some (VArr gt) ∧
    (gt = [1; 0]%Q ∨ gt = [0; 1]%Q) ∧
    in_epoch "production" s = Ok in_prod ∧
    Engine.period_end "measure" (env s) = Ok measure_1 ∧
    getitem (trial s) "production" = Ok production ∧
    (gt = [0; 1]%Q ↔
     in_prod = true ∧
     (Qabs (Engine.t (env s) - measure_1 - production)
      < Engine.dt (env s) / 2 + 1)%Q).
Proof.
  intros Hnt Hms Hset Hact Ha s.
  apply rsg_new_trial_inv in Hnt as (m & g & Hm & -> & Hdt & ->).
  rewrite Forall_forall in Hms. pose proof (Hms _ Hm) as Hm0.
  destruct (rsg_periods_lookup (fixation self) (ready self) m (set_ self)
              (m * gain self) (Engine.periods (env self)))
    as (Pf & Pr & Pm & Ps & Pp).
  set (dt := Engine.dt (env self)) in *.
  assert (Hord : (py_round ((0 + fixation self) / dt)
                  ≤ py_round ((0 + fixation self + m + set_ self) / dt))%Z)
    by (apply round_div_mono; [done | qlra]).
  assert (Hpy : ∃ act, py_index (actions s) action = Ok act).
  { subst s. cbn. rewrite Hact.
    assert (action = 0 ∨ action = 1)%Z as [-> | ->] by lia; cbn; eauto. }
  destruct Hpy as [act Hpy].
  edestruct (rsg_step_gt s action act) as (obs & reward & b & Hstep).
  1-4: subst s; unfold in_epoch, Engine.in_period; cbn.
  1: rewrite Pf; reflexivity.
  1: rewrite Pp; reflexivity.
  1: rewrite Pr; reflexivity.
  1: rewrite Ps; reflexivity.
  1: exact Hpy.
  1: subst s; unfold Engine.period_end; cbn; rewrite Pm; reflexivity.
  1: subst s; cbn; reflexivity.
  { apply andb_false_iff.
    destruct (Engine.owns dt (0%Q, (0 + fixation self)%Q) i) eqn:E1; [|by left].
    right. apply not_true_is_false. intros E2.
    apply owns_iff in E1, E2. unfold dt in *. lia. }
  assert (Hinfo : ∀ gt0, rsg_info b gt0 !! "gt" = Some (VArr gt0)) by done.
  assert (Hprod : in_epoch "production" s
                  = Ok (Engine.owns dt
                          ((0 + fixation self + m + set_ self)%Q,
                           (0 + fixation self + m + set_ self
                            + 2 * (m * gain self))%Q) i)).
  { subst s. unfold in_epoch, Engine.in_period. cbn. rewrite Pp. done. }
  assert (Hend : Engine.period_end "measure" (env s)
                 = Ok (0 + fixation self + m)%Q).
  { subst s. unfold Engine.period_end. cbn. rewrite Pm. done. }
  cbn [snd] in Hstep. fold dt in Hstep.
  set (pr := Engine.owns dt _ i) in *.
  set (nr := near s (0 + fixation self + m) (m * gain self)) in *.
  exists obs, reward, (rsg_info b (if pr && nr then [0; 1]%Q else [1; 0]%Q)),
    (if pr && nr then [0; 1]%Q else [1; 0]%Q), pr,
    (0 + fixation self + m)%Q, (m * gain self)%Q.
  split; [exact Hstep|]. split; [apply Hinfo|].
  split; [destruct (pr && nr); auto|]. split; [exact Hprod|].
  split; [exact Hend|]. split; [done|].
  assert (Hnr : nr = true ↔
                (Qabs (Engine.t (env s) - (0 + fixation self + m)
                       - m * gain self) < Engine.dt (env s) / 2 + 1)%Q)
    by apply Qlt_bool_iff.
  rewrite <- Hnr. destruct pr, nr; cbn; split; try done; by intros [? ?].
Qed.

End ReadySetGoGroundTruth.

(** The theorem of C9 on the concrete task: the default task at timestep
    19 (1520 ms, 20 ms after the target), action go. *)
Lemma C9_witness :
  ∃ obs reward info gt,
    ReadySetGo._step (ReadySetGo.at_step 19 (Run.rsg 80)) 1
    = Ok (obs, reward, false, info) ∧
    info !! "gt" = Some (VArr gt) ∧ (gt = [1; 0]%Q ∨ gt = [0; 1]%Q).
Proof.
  destruct (C9_ground_truth_one_hot (Run.rsg_attributes 80)
              (Run.rsg_drawn 80).1 (Run.rsg_drawn 80).2 19 1)
    as (obs & reward & info & gt & _ & _ & _ & Hs & Hi & Hg & _).
  - vm_compute. reflexivity.
  - unfold Run.rsg_attributes, ReadySetGo.attributes.
    cbn [ReadySetGo.measures]. repeat constructor; done.
  - unfold Run.rsg_attributes, ReadySetGo.attributes.
    cbn [ReadySetGo.set_ snd]. done.
  - reflexivity.
  - lia.
  - exists obs, reward, info, gt.
    split; [exact Hs|]. split; [exact Hi | exact Hg].
Defined.

(** ** C1: the periods of a trial *)

(** A period laid by [lay] hides the one of the same name the timeline
    held before. *)
Lemma lay_lookup (nds : list (string * Q)) :
  ∀ (c : Q) (m : gmap string (Q * Q)) (k : string),
    lay c nds m !! k =
    match lay c nds ∅ !! k with Some p => Some p | None => m !! k end.
Proof.
  induction nds as [|[n d] r IH]; intros c m k; [done|].
  cbn [lay]. rewrite (IH _ (<[n := _]> m)), (IH _ (<[n := _]> ∅)).
  destruct (lay (c + d) r ∅ !! k) as [p|]; [done|].
  destruct (decide (n = k)) as [->|Hne].
  - by rewrite !lookup_insert_eq.
  - by rewrite !lookup_insert_ne, lookup_empty by done.
Qed.

Lemma lay_dom (nds : list (string * Q)) :
  ∀ (c : Q) (k : string), is_Some (lay c nds ∅ !! k) ↔ k ∈ nds.*1.
Proof.
  induction nds as [|[n d] r IH]; intros c k.
  - cbn. rewrite lookup_empty. split; [by intros [? ?]|].
    intros Hk. by apply elem_of_nil in Hk.
  - cbn [lay fmap list_fmap fst]. rewrite lay_lookup, elem_of_cons.
    specialize (IH (c + d)%Q k).
    destruct (lay (c + d) r ∅ !! k) as [p|] eqn:E.
    + split; [|by eauto]. intros _. right. apply IH. by eauto.
    + destruct (decide (n = k)) as [->|Hne].
      * rewrite lookup_insert_eq. split; [by left | by eauto].
      * rewrite lookup_insert_ne, lookup_empty by done. split.
        -- by intros [? ?].
        -- intros [->|Hk]; [done|]. apply IH in Hk. by destruct Hk.
Qed.

(** Laid over a timeline that holds only names of the list, the periods
    are those laid over the empty one: a later trial overwrites the
    periods of the trial before. *)
Lemma lay_overwrites (nds : list (string * Q)) (c : Q)
    (m : gmap string (Q * Q)) :
  declared_among m nds.*1 → lay c nds m = lay c nds ∅.
Proof.
  intros Hm. apply map_eq. intros k. rewrite lay_lookup.
  destruct (lay c nds ∅ !! k) as [p|] eqn:E; [done|].
  destruct (m !! k) as [q|] eqn:Ek; [|done].
  assert (Hk : k ∈ nds.*1) by (apply Hm; by eauto).
  apply (lay_dom nds c) in Hk. rewrite E in Hk. by destruct Hk.
Qed.

Lemma lay_declared (nds : list (string * Q)) (c : Q) :
  declared_among (lay c nds ∅) nds.*1.
Proof. intros k Hk. by apply (lay_dom nds c). Qed.

(** The same for the five epochs of ReadySetGo. *)
Lemma rsg_periods_overwrites (f r m s p : Q) (base : gmap string (Q * Q)) :
  declared_among base ["fixation"; "ready"; "measure"; "set"; "production"] →
  rsg_periods f r m s p base = rsg_periods f r m s p ∅.
Proof.
  intros Hb. apply map_eq. intros k. unfold rsg_periods.
  destruct (decide (k = "production")) as [->|N1];
    [by rewrite !lookup_insert_eq|].
  rewrite !(lookup_insert_ne _ "production") by done.
  destruct (decide (k = "set")) as [->|N2]; [by rewrite !lookup_insert_eq|].
  rewrite !(lookup_insert_ne _ "set") by done.
  destruct (decide (k = "measure")) as [->|N3];
    [by rewrite !lookup_insert_eq|].
  rewrite !(lookup_insert_ne _ "measure") by done.
  destruct (decide (k = "ready")) as [->|N4]; [by rewrite !lookup_insert_eq|].
  rewrite !(lookup_insert_ne _ "ready") by done.
  destruct (decide (k = "fixation")) as [->|N5];
    [by rewrite !lookup_insert_eq|].
  rewrite !(lookup_insert_ne _ "fixation") by done.
  rewrite lookup_empty. destruct (base !! k) as [q|] eqn:E; [|done].
  assert (Hk : k ∈ ["fixation"; "ready"; "measure"; "set"; "production"])
    by (apply Hb; by eauto).
  repeat (apply elem_of_cons in Hk as [->|Hk]; [done|]).
  by apply elem_of_nil in Hk.
Qed.

Lemma rsg_periods_declared (f r m s p : Q) :
  declared_among (rsg_periods f r m s p ∅)
    ["fixation"; "ready"; "measure"; "set"; "production"].
Proof.
  intros k [q Hk]. unfold rsg_periods in Hk.
  repeat (apply lookup_insert_Some in Hk as [[<- _]|[_ Hk]];
          [set_solver|]).
  by rewrite lookup_empty in Hk.
Qed.

Lemma partitions_idx_fmap (dt : Q) (m : gmap string (Q * Q)) (N : Z) :
  partitions dt m N →
  partitions_idx
    ((λ p : Q * Q, zrange (Engine.start_ind dt p) (Engine.end_ind dt p))
       <$> m) N.
Proof.
  intros [Hdis Hcov].
  assert (Hin : ∀ (p : Q * Q) i,
            i ∈ zrange (Engine.start_ind dt p) (Engine.end_ind dt p)
            ↔ Engine.owns dt p i = true).
  { intros p i. rewrite elem_of_zrange. unfold Engine.owns.
    rewrite andb_true_iff, Z.leb_le, Z.ltb_lt. done. }
  split.
  - intros n1 n2 l1 l2 i Hne H1 H2 I1 I2.
    rewrite lookup_fmap in H1, H2.
    apply fmap_Some in H1 as (p1 & H1 & ->).
    apply fmap_Some in H2 as (p2 & H2 & ->).
    apply Hin in I1, I2. eauto.
  - intros i. rewrite (Hcov i). split.
    + intros (n & p & Hn & Ho). eexists n, _. rewrite lookup_fmap, Hn.
      split; [done|]. by apply Hin.
    + intros (n & l & Hn & Hi). rewrite lookup_fmap in Hn.
      apply fmap_Some in Hn as (p & Hn & ->). apply Hin in Hi. eauto.
Qed.

Lemma lay_nonneg (nds : list (string * Q)) :
  ∀ (c : Q) (m : gmap string (Q * Q)),
    Forall (λ nd, 0 <= nd.2)%Q nds →
    (∀ n p, m !! n = Some p → (p.1 <= p.2)%Q) →
    ∀ n p, lay c nds m !! n = Some p → (p.1 <= p.2)%Q.
Proof.
  induction nds as [|[k d] r IH]; intros c m Hpos Hm; [exact Hm|].
  apply Forall_cons in Hpos as [Hd Hpos]. cbn [lay].
  apply IH; [done|]. intros n p Hn.
  destruct (decide (k = n)) as [->|Hne].
  - rewrite lookup_insert_eq in Hn. injection Hn as <-. simpl in *. qlra.
  - rewrite lookup_insert_ne in Hn by done. eauto.
Qed.

Section Periods.
Context {G : Type} `{!RandomState G} `{!Tasktools G} `{!NumPy}.

(** C1, as the code has it.  N is the end index round(end / dt) of the
    last period, the length section 4.2 gives the timeline.  Periods
    declared end to end from time 0 by one [add_period] call on a list of
    distinct names, each of a non-negative duration, own pairwise disjoint
    sets of timesteps whose union is {0, ..., N-1}: so for the trials of
    nalt_PerceptualDecisionMaking and of DelayedMatchCategory, the first
    one and every later one (a trial overwrites the periods of the trial
    before, and leaves only its own names).  In ReadySetGo, with
    non-negative fixation, measures, set and gain, the epochs other than
    'ready' partition {0, ..., N-1}.  With dt > 0 and a non-negative
    stimulus duration, the index lists of RDM's three duration intervals
    are pairwise disjoint and their union is {0, ..., E-1}, E being the
    end index of the decision interval. *)
Theorem C1_periods_partition_the_trial :
  (∀ (timing : gmap string Engine.Dist) (names : list string)
     (e e' : Engine.Env G),
     declared_among (Engine.periods e) names → NoDup names → names ≠ [] →
     Engine.add_period timing names (Engine.AfterTime 0) true e = Ok e' →
     (∀ n p, Engine.periods e' !! n = Some p → (p.1 <= p.2)%Q) →
     partitions (Engine.dt e') (Engine.periods e') (Engine.tmax_ind e') ∧
     declared_among (Engine.periods e') names) ∧
  (∀ (self self' : nalt_PerceptualDecisionMaking.t G) kwargs,
     declared_among
       (Engine.periods (nalt_PerceptualDecisionMaking.env self))
       ["fixation"; "stimulus"; "decision"] →
     nalt_PerceptualDecisionMaking.new_trial self kwargs = Ok self' →
     (∀ n p, Engine.periods (nalt_PerceptualDecisionMaking.env self') !! n
             = Some p → (p.1 <= p.2)%Q) →
     partitions (Engine.dt (nalt_PerceptualDecisionMaking.env self'))
       (Engine.periods (nalt_PerceptualDecisionMaking.env self'))
       (Engine.tmax_ind (nalt_PerceptualDecisionMaking.env self')) ∧
     declared_among
       (Engine.periods (nalt_PerceptualDecisionMaking.env self'))
       ["fixation"; "stimulus"; "decision"]) ∧
  (∀ (self self' : DelayedMatchCategory.t G) kwargs,
     declared_among (Engine.periods (DelayedMatchCategory.env self))
       ["fixation"; "sample"; "first_delay"; "test"] →
     DelayedMatchCategory.new_trial self kwargs = Ok self' →
     (∀ n p, Engine.periods (DelayedMatchCategory.env self') !! n = Some p →
             (p.1 <= p.2)%Q) →
     partitions (Engine.dt (DelayedMatchCategory.env self'))
       (Engine.periods (DelayedMatchCategory.env self'))
       (Engine.tmax_ind (DelayedMatchCategory.env self')) ∧
     declared_among (Engine.periods (DelayedMatchCategory.env self'))
       ["fixation"; "sample"; "first_delay"; "test"]) ∧
  (∀ (self : RDM.task G) (g g' : G) (dt : Q) context (tr : RDM.Trial),
     (0 < dt)%Q →
     RDM._new_trial self g dt context = Ok (tr, g') →
     (∀ a b, RDM.durations tr !! "stimulus" = Some (RDM.Interval a b) →
             (a <= b)%Q) →
     ∃ a b, RDM.durations tr !! "decision" = Some (RDM.Interval a b) ∧
            partitions_idx (RDM.epochs tr) (py_round (b / dt))) ∧
  (∀ (self self' : ReadySetGo.t G) (tr : gmap string Q),
     declared_among (Engine.periods (ReadySetGo.env self))
       ["fixation"; "ready"; "measure"; "set"; "production"] →
     ReadySetGo._new_trial self = Ok (self', tr) →
     (0 <= ReadySetGo.fixation self)%Q →
     Forall (λ m, 0 <= m)%Q (ReadySetGo.measures self) →
     (0 <= ReadySetGo.set_ self)%Q → (0 <= ReadySetGo.gain self)%Q →
     partitions (Engine.dt (ReadySetGo.env self'))
       (delete "ready" (Engine.periods (ReadySetGo.env self')))
       (Engine.tmax_ind (ReadySetGo.env self')) ∧
     declared_among (Engine.periods (ReadySetGo.env self'))
       ["fixation"; "ready"; "measure"; "set"; "production"]).
Proof.
  split; [|split; [|split; [|split]]].
  - intros timing names e e' Hold Hnd Hne Hadd Hpos.
    apply (add_period_lay _ _ _ _ _ _ 0%Q) in Hadd; [|done|done].
    destruct Hadd as (durs & Hlen & Hp & Hd & Hdt & _ & _ & _ & Hlast).
    destruct (Hlast eq_refl) as (HN & _).
    assert (Hfst : (zip names durs).*1 = names)
      by (apply fst_zip; lia).
    rewrite lay_overwrites in Hp by (by rewrite Hfst).
    rewrite Hd, HN, Hp. split.
    + apply lay_partitions; [done | by rewrite Hfst |].
      apply (lay_durations_nonneg _ 0%Q ∅); [by rewrite Hfst|].
      intros n p _ Hn. apply (Hpos n). by rewrite Hp.
    + rewrite <- Hfst at 2. apply lay_declared.
  - intros self self' kwargs Hold Hnt Hpos.
    apply nalt_new_trial_inv in Hnt
      as (d1 & d2 & d3 & g & label & Hp & Hd & Hdt & _ & HN & _).
    rewrite lay_overwrites in Hp by exact Hold.
    rewrite Hd, HN, Hp. split.
    + apply lay_partitions; [done | compute_done |].
      apply (lay_durations_nonneg _ 0%Q ∅); [compute_done|].
      intros n p _ Hn. apply (Hpos n). by rewrite Hp.
    + apply (lay_declared (nalt_chain d1 d2 d3)).
  - intros self self' kwargs Hold Hnt Hpos.
    apply dmc_new_trial_inv in Hnt
      as (d1 & d2 & d3 & d4 & g & label & Hp & Hd & Hdt & _ & HN & _).
    rewrite lay_overwrites in Hp by exact Hold.
    rewrite Hd, HN, Hp. split.
    + apply lay_partitions; [done | compute_done |].
      apply (lay_durations_nonneg _ 0%Q ∅); [compute_done|].
      intros n p _ Hn. apply (Hpos n). by rewrite Hp.
    + apply (lay_declared (dmc_chain d1 d2 d3 d4)).
  - intros self g g' dt context tr Hdt Hnt Hpos.
    destruct (rdm_new_trial_inv self g dt context)
      as (sti & lr & c & g1 & E & _).
    rewrite E in Hnt. injection Hnt as <- <-.
    cbn [RDM.durations RDM.epochs] in *.
    exists (RDM.fixation + sti)%Q, (RDM.fixation + sti + RDM.decision)%Q.
    split; [done|].
    assert (Hsti : (0 <= sti)%Q).
    { specialize (Hpos RDM.fixation (RDM.fixation + sti)%Q eq_refl). qlra. }
    assert (EN : py_round ((RDM.fixation + sti + RDM.decision) / dt)
            = py_round (lay_end 0 [("fixation", RDM.fixation);
                                   ("stimulus", sti);
                                   ("decision", RDM.decision)] / dt)).
    { apply py_round_comp. cbn [lay_end]. unfold Qdiv.
      apply Qmult_comp; [qlra | reflexivity]. }
    rewrite EN. apply partitions_idx_fmap, lay_partitions;
      [done | compute_done |].
    repeat constructor; [done | exact Hsti | done].
  - intros self self' tr Hold Hnt Hf Hms Hs Hg.
    apply rsg_new_trial_inv in Hnt as (m & g & Hm & -> & Hdt & ->).
    rewrite Forall_forall in Hms. pose proof (Hms _ Hm) as Hm0.
    cbn. rewrite (rsg_periods_overwrites _ _ _ _ _ _ Hold).
    split; [|apply rsg_periods_declared].
    change (delete "ready"
              (rsg_periods (ReadySetGo.fixation self) (ReadySetGo.ready self)
                 m (ReadySetGo.set_ self) (m * ReadySetGo.gain self) ∅))
      with (lay 0 [("fixation", ReadySetGo.fixation self); ("measure", m);
                   ("set", ReadySetGo.set_ self);
                   ("production", (2 * (m * ReadySetGo.gain self))%Q)] ∅).
    apply lay_partitions; [done | compute_done |].
    repeat constructor; cbn; try done.
    apply Qmult_le_0_compat; [done|]. by apply Qmult_le_0_compat.
Qed.

End Periods.


(** The theorem of C1 on the second trial of
    nalt_PerceptualDecisionMaking(), drawn over the periods of the first:
    its periods partition its 11 timesteps. *)
Lemma C1_witness :
  partitions
    (Engine.dt (nalt_PerceptualDecisionMaking.env
       (the Run.nalt_trial
          (nalt_PerceptualDecisionMaking.new_trial Run.nalt_trial ∅))))
    (Engine.periods (nalt_PerceptualDecisionMaking.env
       (the Run.nalt_trial
          (nalt_PerceptualDecisionMaking.new_trial Run.nalt_trial ∅))))
    (Engine.tmax_ind (nalt_PerceptualDecisionMaking.env
       (the Run.nalt_trial
          (nalt_PerceptualDecisionMaking.new_trial Run.nalt_trial ∅)))).
Proof.
  refine (proj1 (proj1 (proj2 C1_periods_partition_the_trial)
            Run.nalt_trial
            (the Run.nalt_trial
               (nalt_PerceptualDecisionMaking.new_trial Run.nalt_trial ∅))
            ∅ _ _ _)).
  - refine (proj2 (proj1 (proj2 C1_periods_partition_the_trial)
              Run.nalt Run.nalt_trial ∅ _ _ _)).
    + intros k [p Hk]. vm_compute in Hk. discriminate.
    + vm_compute. reflexivity.
    + replace (Engine.periods
                 (nalt_PerceptualDecisionMaking.env Run.nalt_trial))
        with (lay 0 (nalt_chain 500 (990 # 2) 500) ∅)
        by (vm_compute; reflexivity).
      apply lay_nonneg; [repeat constructor; done|].
      intros n p Hn. by rewrite lookup_empty in Hn.
  - vm_compute. reflexivity.
  - replace (Engine.periods
               (nalt_PerceptualDecisionMaking.env
                  (the Run.nalt_trial
                     (nalt_PerceptualDecisionMaking.new_trial
                        Run.nalt_trial ∅))))
      with (lay 0 (nalt_chain 500 80 500) ∅)
      by (vm_compute; reflexivity).
    apply lay_nonneg; [repeat constructor; done|].
    intros n p Hn. by rewrite lookup_empty in Hn.
Defined.

(** C1 as stated fails in three ways.  In the first trial of ReadySetGo
    (dt = 80, measure = 500) the epochs 'ready' (500 to 583 ms) and
    'measure' (500 to 1000 ms) both own timestep 6.  The trial ends at
    2083 ms: its last period ends at index round(2083 / 80) = 26, and with
    the N = ceil(2083 / 80) = 27 of section 3 the timestep 26 belongs to no
    period.  In the first trial of RDM (dt = 100, a stimulus of 330 ms) the
    decision interval ends at 1580 ms while 'tmax' is 2750 ms: the timeline
    has 28 timesteps, and timestep 16 is in none of the three epochs. *)
Lemma C1_counterexample_overlap_and_gaps :
  ReadySetGo.__init__ 80 (500, 83, 83)%Q 1 7%N = Ok (Run.rsg 80) ∧
  Engine.periods (ReadySetGo.env (Run.rsg 80)) !! "ready"
    = Some (0 + 500, 0 + 500 + 83)%Q ∧
  Engine.periods (ReadySetGo.env (Run.rsg 80)) !! "measure"
    = Some (0 + 500, 0 + 500 + 500)%Q ∧
  Engine.owns 80 (0 + 500, 0 + 500 + 83)%Q 6 = true ∧
  Engine.owns 80 (0 + 500, 0 + 500 + 500)%Q 6 = true ∧
  ¬ partitions (Engine.dt (ReadySetGo.env (Run.rsg 80)))
      (Engine.periods (ReadySetGo.env (Run.rsg 80)))
      (Engine.tmax_ind (ReadySetGo.env (Run.rsg 80))) ∧
  Engine.periods (ReadySetGo.env (Run.rsg 80)) !! "production"
    = Some (0 + 500 + 500 + 83, 0 + 500 + 500 + 83 + 2 * (500 * 1))%Q ∧
  Engine.tmax_ind (ReadySetGo.env (Run.rsg 80)) = 26%Z ∧
  Qceiling ((0 + 500 + 500 + 83 + 2 * (500 * 1)) / 80) = 27%Z ∧
  (∀ n p, Engine.periods (ReadySetGo.env (Run.rsg 80)) !! n = Some p →
          Engine.owns 80 p 26 = false) ∧
  RDM.__init__ 100 0 7%N = Ok Run.rdm ∧
  RDM.durations (RDM.trial Run.rdm) !! "decision"
    = Some (RDM.Interval (2160 # 2) (3160 # 2)) ∧
  RDM.durations (RDM.trial Run.rdm) !! "tmax" = Some (RDM.Total 2750) ∧
  length (RDM.time (RDM.trial Run.rdm)) = 28%nat ∧
  RDM.time (RDM.trial Run.rdm) !! 16%nat = Some 16%Z ∧
  (∀ n l, RDM.epochs (RDM.trial Run.rdm) !! n = Some l → 16%Z ∉ l) ∧
  ¬ partitions_idx (RDM.epochs (RDM.trial Run.rdm)) 28.
Proof.
  assert (Hr : Engine.periods (ReadySetGo.env (Run.rsg 80)) !! "ready"
               = Some (0 + 500, 0 + 500 + 83)%Q)
    by (vm_compute; reflexivity).
  assert (Hm : Engine.periods (ReadySetGo.env (Run.rsg 80)) !! "measure"
               = Some (0 + 500, 0 + 500 + 500)%Q)
    by (vm_compute; reflexivity).
  assert (Hd : Engine.dt (ReadySetGo.env (Run.rsg 80)) = 80%Q)
    by (vm_compute; reflexivity).
  assert (Hps : Engine.periods (ReadySetGo.env (Run.rsg 80))
                = rsg_periods 500 83 500 83 (500 * 1) ∅)
    by (vm_compute; reflexivity).
  assert (Hep : RDM.epochs (RDM.trial Run.rdm) = rdm_epochs 100 (660 # 2))
    by (vm_compute; reflexivity).
  assert (Hgap : ∀ n l, RDM.epochs (RDM.trial Run.rdm) !! n = Some l →
                        16%Z ∉ l).
  { intros n l Hn Hin.
    assert (Hpart : partitions_idx (rdm_epochs 100 (660 # 2)) 16).
    { replace 16%Z
        with (py_round (lay_end 0 [("fixation", RDM.fixation);
                                   ("stimulus", (660 # 2)%Q);
                                   ("decision", RDM.decision)] / 100))
        by (vm_compute; reflexivity).
      apply partitions_idx_fmap, lay_partitions;
        [done | compute_done | repeat constructor; done]. }
    rewrite Hep in Hn. destruct Hpart as [_ Hcov].
    assert (0 ≤ 16 < 16)%Z; [|lia].
    apply Hcov. eauto. }
  split; [vm_compute; reflexivity|].
  split; [exact Hr|]. split; [exact Hm|].
  split; [reflexivity|]. split; [reflexivity|].
  split.
  { intros [Hdis _]. rewrite Hd in Hdis.
    apply (Hdis "ready" "measure" _ _ 6%Z ltac:(done) Hr Hm); reflexivity. }
  split; [vm_compute; reflexivity|].
  split; [vm_compute; reflexivity|].
  split; [vm_compute; reflexivity|].
  split.
  { intros n p Hn. rewrite Hps in Hn. unfold rsg_periods in Hn.
    repeat (apply lookup_insert_Some in Hn as [[_ <-]|[_ Hn]];
            [vm_compute; reflexivity|]).
    by rewrite lookup_empty in Hn. }
  split; [vm_compute; reflexivity|].
  split; [vm_compute; reflexivity|].
  split; [vm_compute; reflexivity|].
  split; [vm_compute; reflexivity|].
  split; [vm_compute; reflexivity|].
  split; [exact Hgap|].
  intros [_ Hcov].
  destruct (proj1 (Hcov 16%Z) ltac:(lia)) as (n & l & Hn & Hin).
  exact (Hgap n l Hn Hin).
Qed.

(** ** Steps of ReadySetGo in the production epoch *)

Section RSGSteps.
Context {G : Type} `{!RandomState G} `{!Tasktools G} `{!NumPy}.
Import ReadySetGo.

(** The go action at a timestep of the production epoch: the trial ends,
    the reward is R_FAIL beyond the tolerance and
    min((1 - eps/eps_threshold)**1.5, 0.1) * R_CORRECT within it. *)
Lemma rsg_step_go (self : t G) (rd st : bool) (measure_1 production : Q) :
  in_epoch "fixation" self = Ok false →
  in_epoch "production" self = Ok true →
  in_epoch "ready" self = Ok rd → in_epoch "set" self = Ok st →
  Engine.period_end "measure" (env self) = Ok measure_1 →
  getitem (trial self) "production" = Ok production →
  let eps := Qabs (Engine.t (env self) - measure_1 - production) in
  let eps_threshold := ((2 # 10) * production + 25)%Q in
  _step self 1 =
  Ok ([0; if rd then 1 else 0; if st then 1 else 0]%Q,
      if Qlt_bool eps_threshold eps then R_FAIL self
      else (Rmin (pow15 (Q2R (1 - eps / eps_threshold))) (1 / 10)
            * R_CORRECT self)%R,
      false,
      rsg_info true (if near self measure_1 production
                     then [0; 1]%Q else [1; 0]%Q)).
Proof.
  intros Hf Hp Hr Hs Hm Hprod eps thr. unfold _step, near.
  rewrite Hf, Hp, Hr, Hs. cbn [mbind Res_bind].
  rewrite Hm. cbn [mbind Res_bind]. rewrite Hprod. cbn [mbind Res_bind].
  fold eps. fold thr. change (1 =? 1)%Z with true. cbv iota.
  destruct (Qlt_bool eps (Engine.dt (env self) / 2 + 1));
    destruct (Qlt_bool thr eps); destruct rd, st; reflexivity.
Qed.

(** A step returns whenever the four epochs and 'measure' are declared,
    the action is one of the action space and the trial holds its
    production time. *)
Lemma rsg_step_total (self : t G) (action : Z) :
  (∀ k, k ∈ ["fixation"; "production"; "ready"; "set"] →
        ∃ b, in_epoch k self = Ok b) →
  (∃ act, py_index (actions self) action = Ok act) →
  (∃ m, Engine.period_end "measure" (env self) = Ok m) →
  (∃ p, getitem (trial self) "production" = Ok p) →
  ∃ r, _step self action = Ok r.
Proof.
  intros He [act Ha] [m Hm] [p Hp].
  destruct (He "fixation") as [fx Hf]; [set_solver|].
  destruct (He "production") as [pr Hpr]; [set_solver|].
  destruct (He "ready") as [rd Hr]; [set_solver|].
  destruct (He "set") as [st Hs]; [set_solver|].
  unfold _step. rewrite Hf, Hpr, Hr, Hs. cbn.
  destruct fx, pr; cbn; rewrite ?Ha, ?Hm, ?Hp; cbn;
    repeat match goal with
           | |- context [if ?b then _ else _] => destruct b; cbn
           end; eauto.
Qed.

End RSGSteps.

(** ** C2: non-fixate actions before the decision *)

Section Aborts.
Context {G : Type} `{!RandomState G} `{!Tasktools G} `{!NumPy}.

Lemma rdm_step_reward_abort (self : RDM.task G) (action : Z) (dec : list Z) :
  RDM.epochs (RDM.trial self) !! "decision" = Some dec →
  py_in (RDM.t self - 1) dec = false → action ≠ 0%Z →
  RDM.step_reward self action =
  Ok (<["continue" := VBool false]> (<["continue" := VBool true]> ∅),
      RDM.R_ABORTED).
Proof.
  intros Hd Hin Ha. unfold RDM.step_reward.
  apply getitem_Ok in Hd. rewrite Hd. cbn [mbind Res_bind].
  rewrite Hin. cbn [negb]. rewrite actions_FIXATE. cbn [mbind Res_bind].
  apply Z.eqb_neq in Ha. rewrite Ha. reflexivity.
Qed.

(** An action at a timestep of neither the fixation nor the production
    epoch of ReadySetGo. *)
Lemma rsg_step_between (self : ReadySetGo.t G) (action : Z) (rd st : bool) :
  ReadySetGo.in_epoch "fixation" self = Ok false →
  ReadySetGo.in_epoch "production" self = Ok false →
  ReadySetGo.in_epoch "ready" self = Ok rd →
  ReadySetGo.in_epoch "set" self = Ok st →
  ReadySetGo._step self action =
  Ok ([0; if rd then 1 else 0; if st then 1 else 0]%Q, 0%R, false,
      rsg_info false [1; 0]%Q).
Proof.
  intros Hf Hp Hr Hs. unfold ReadySetGo._step.
  rewrite Hf, Hp, Hr, Hs. cbn [mbind Res_bind]. by destruct rd, st.
Qed.

(** In the epochs [get_epochs_idx] builds, a timestep of the fixation or
    of the stimulus epoch is not one of the decision epoch. *)
Lemma rdm_epochs_pre_decision (dt stimulus : Q) (k : string)
    (l dec : list Z) (i : Z) :
  (0 < dt)%Q → (0 <= stimulus)%Q →
  k = "fixation" ∨ k = "stimulus" →
  rdm_epochs dt stimulus !! k = Some l →
  rdm_epochs dt stimulus !! "decision" = Some dec →
  i ∈ l → py_in i dec = false.
Proof.
  intros Hdt Hs Hk Hl Hd Hi.
  destruct (py_in i dec) eqn:E; [|done]. apply py_in_iff in E.
  assert (Hpart : partitions_idx (rdm_epochs dt stimulus)
                    (py_round (lay_end 0 [("fixation", RDM.fixation);
                                          ("stimulus", stimulus);
                                          ("decision", RDM.decision)] / dt))).
  { apply partitions_idx_fmap, lay_partitions;
      [done | compute_done | repeat constructor; done]. }
  destruct Hpart as [Hdis _].
  exfalso. apply (Hdis k "decision" l dec i); [|done|done|done|done].
  by destruct Hk as [-> | ->].
Qed.

(** C2, as the code has it.  In nalt_PerceptualDecisionMaking and
    DelayedMatchCategory a non-fixate action at a timestep of the fixation
    period yields the configured abort reward, and info['new_trial'] is
    the task's abort flag (False as constructed: the trial continues); at
    a timestep of neither the fixation nor the decision (test) period, so
    during stimulus, sample and delay, it yields reward 0 and the trial
    continues.  In ReadySetGo a non-fixate action at a timestep of the
    fixation epoch yields R_ABORTED, with the abort flag as new_trial.  In
    RDM an action other than FIXATE at a step whose previous timestep (the
    one the action is judged at) is not in the decision epoch, so at
    every timestep of the fixation and of the stimulus epoch of a trial,
    sets status['continue'] to False and hands R_ABORTED to
    tasktools.new_trial.  In ReadySetGo an action at a timestep of neither
    the fixation nor the production epoch yields reward 0 and new_trial
    False. *)
Theorem C2_abort_during_fixation :
  (∀ (self : nalt_PerceptualDecisionMaking.t G) (action gt : Z)
     (obs : list Q) (ra : Q),
     Engine.ob_now (nalt_PerceptualDecisionMaking.env self) = Ok obs →
     Engine.gt_now (nalt_PerceptualDecisionMaking.env self) = Ok gt →
     getitem (nalt_PerceptualDecisionMaking.rewards self) "abort" = Ok ra →
     action ≠ 0%Z →
     (nalt_PerceptualDecisionMaking.in_period "fixation" self = Ok true →
      nalt_PerceptualDecisionMaking._step self action =
      Ok (self, (obs, ra, false,
                 period_info (nalt_PerceptualDecisionMaking.abort self) gt)))
     ∧
     (nalt_PerceptualDecisionMaking.in_period "fixation" self = Ok false →
      nalt_PerceptualDecisionMaking.in_period "decision" self = Ok false →
      nalt_PerceptualDecisionMaking._step self action =
      Ok (self, (obs, 0%Q, false, period_info false gt)))) ∧
  (∀ (self : DelayedMatchCategory.t G) (action gt : Z) (obs : list Q)
     (ra : Q),
     Engine.ob_now (DelayedMatchCategory.env self) = Ok obs →
     Engine.gt_now (DelayedMatchCategory.env self) = Ok gt →
     getitem (DelayedMatchCategory.rewards self) "abort" = Ok ra →
     action ≠ 0%Z →
     (DelayedMatchCategory.in_period "fixation" self = Ok true →
      DelayedMatchCategory._step self action =
      Ok (self, (obs, ra, false,
                 period_info (DelayedMatchCategory.abort self) gt))) ∧
     (DelayedMatchCategory.in_period "fixation" self = Ok false →
      DelayedMatchCategory.in_period "test" self = Ok false →
      DelayedMatchCategory._step self action =
      Ok (self, (obs, 0%Q, false, period_info false gt)))) ∧
  (∀ (self : ReadySetGo.t G) (action act : Z) (rd st : bool),
     ReadySetGo.in_epoch "fixation" self = Ok true →
     ReadySetGo.in_epoch "production" self = Ok false →
     ReadySetGo.in_epoch "ready" self = Ok rd →
     ReadySetGo.in_epoch "set" self = Ok st →
     py_index (ReadySetGo.actions self) action = Ok act → act ≠ (-1)%Z →
     ReadySetGo._step self action =
     Ok ([1; if rd then 1 else 0; if st then 1 else 0]%Q,
         ReadySetGo.R_ABORTED self, false,
         rsg_info (ReadySetGo.abort self) [1; 0]%Q)) ∧
  (∀ (self : RDM.task G) (action : Z) (fix_ sti dec : list Z),
     RDM.epochs (RDM.trial self) !! "fixation" = Some fix_ →
     RDM.epochs (RDM.trial self) !! "stimulus" = Some sti →
     RDM.epochs (RDM.trial self) !! "decision" = Some dec →
     py_in (RDM.t self - 1) dec = false → action ≠ 0%Z →
     ∃ self' obs status,
       RDM.step self action =
       Ok (self', (obs, returned_reward self false RDM.R_ABORTED, false,
                   status)) ∧
       status !! "continue" = Some (VBool false)) ∧
  (∀ dt rewards timing stim_scale sigma n_ch (g : G),
     nalt_PerceptualDecisionMaking.abort
       (nalt_PerceptualDecisionMaking.__init__ dt rewards timing stim_scale
          sigma n_ch g) = false) ∧
  (∀ dt rewards timing sigma (g : G),
     DelayedMatchCategory.abort
       (DelayedMatchCategory.__init__ dt rewards timing sigma g) = false) ∧
  (∀ dt timing gain (g : G),
     ReadySetGo.abort (ReadySetGo.attributes dt timing gain g) = false) ∧
  (∀ (self : ReadySetGo.t G) (action : Z) (rd st : bool),
     ReadySetGo.in_epoch "fixation" self = Ok false →
     ReadySetGo.in_epoch "production" self = Ok false →
     ReadySetGo.in_epoch "ready" self = Ok rd →
     ReadySetGo.in_epoch "set" self = Ok st →
     ReadySetGo._step self action =
     Ok ([0; if rd then 1 else 0; if st then 1 else 0]%Q, 0%R, false,
         rsg_info false [1; 0]%Q)) ∧
  (∀ (self : RDM.task G) (action : Z) (dt stimulus : Q) (k : string)
     (l : list Z),
     RDM.epochs (RDM.trial self) = rdm_epochs dt stimulus →
     (0 < dt)%Q → (0 <= stimulus)%Q →
     k = "fixation" ∨ k = "stimulus" →
     RDM.epochs (RDM.trial self) !! k = Some l →
     (RDM.t self - 1)%Z ∈ l → action ≠ 0%Z →
     ∃ self' obs status,
       RDM.step self action =
       Ok (self', (obs, returned_reward self false RDM.R_ABORTED, false,
                   status)) ∧
       status !! "continue" = Some (VBool false)).
Proof.
  split; [|split; [|split; [|split; [|split; [|split; [|split; [|split]]]]]]];
    try done.
  - intros self action gt obs ra Ho Hg Hr Ha. split.
    + intros Hf. by apply nalt_step_fixation.
    + intros Hf Hd. by apply nalt_step_between.
  - intros self action gt obs ra Ho Hg Hr Ha. split.
    + intros Hf. by apply dmc_step_fixation.
    + intros Hf Hd. by apply dmc_step_between.
  - intros self action act rd st Hf Hp Hr Hs Ha Hne.
    by apply (rsg_step_fixation self action act).
  - intros self action fix_ sti dec Hf Hs Hd Hin Ha.
    pose proof (rdm_step_reward_abort self action dec Hd Hin Ha) as Hr.
    destruct (step_inputs_total self fix_ sti Hf Hs) as (obs & g & Hi).
    destruct (step_tail self action _ _ false obs g Hr eq_refl Hi)
      as (self' & Hstep & _).
    eexists self', obs, _. split; [exact Hstep | reflexivity].
  - intros self action rd st Hf Hp Hr Hs.
    by apply rsg_step_between.
  - intros self action dt stimulus k l He Hdt Hs0 Hk Hl Hin Ha.
    rewrite He in Hl.
    assert (Hd : rdm_epochs dt stimulus !! "decision"
                 = Some (zrange
                           (py_round ((0 + RDM.fixation + stimulus) / dt))
                           (py_round ((0 + RDM.fixation + stimulus
                                       + RDM.decision) / dt))))
      by reflexivity.
    pose proof (rdm_epochs_pre_decision dt stimulus k l _ _ Hdt Hs0 Hk Hl
                  Hd Hin) as Hout.
    rewrite <- He in Hd.
    pose proof (rdm_step_reward_abort self action _ Hd Hout Ha) as Hr.
    destruct (step_inputs_total self
                (zrange (py_round (0 / dt))
                   (py_round ((0 + RDM.fixation) / dt)))
                (zrange (py_round ((0 + RDM.fixation) / dt))
                   (py_round ((0 + RDM.fixation + stimulus) / dt))))
      as (obs & g & Hi); [by rewrite He | by rewrite He |].
    destruct (step_tail self action _ _ false obs g Hr eq_refl Hi)
      as (self' & Hstep & _).
    eexists self', obs, _. split; [exact Hstep | reflexivity].
Qed.

End Aborts.

(** The theorem of C2 on the concrete nalt_PerceptualDecisionMaking task:
    action 1 at timestep 2, in the fixation period of the first trial. *)
Lemma C2_witness :
  ∃ obs,
    nalt_PerceptualDecisionMaking._step
      (nalt_PerceptualDecisionMaking.at_step 2 Run.nalt_trial) 1 =
    Ok (nalt_PerceptualDecisionMaking.at_step 2 Run.nalt_trial,
        (obs, (- (1 # 10))%Q, false, period_info false 0)).
Proof.
  eexists.
  refine (proj1 (proj1 C2_abort_during_fixation
                   (nalt_PerceptualDecisionMaking.at_step 2 Run.nalt_trial)
                   1%Z 0%Z _ (- (1 # 10))%Q _ _ _ _) _).
  - vm_compute. reflexivity.
  - vm_compute. reflexivity.
  - vm_compute. reflexivity.
  - done.
  - vm_compute. reflexivity.
Defined.

(** C2 as stated fails in the stimulus period: in the first trial of the
    default nalt_PerceptualDecisionMaking task, action 1 at timestep 6
    (stimulus period) gets reward 0, not the abort reward -0.1, and
    new_trial is False. *)
Lemma C2_counterexample_stimulus_period :
  nalt_PerceptualDecisionMaking.in_period "stimulus"
    (nalt_PerceptualDecisionMaking.at_step 6 Run.nalt_trial) = Ok true ∧
  getitem (nalt_PerceptualDecisionMaking.rewards Run.nalt_trial) "abort"
    = Ok (- (1 # 10))%Q ∧
  Qeq_bool 0 (- (1 # 10)) = false ∧
  ∃ obs,
    nalt_PerceptualDecisionMaking._step
      (nalt_PerceptualDecisionMaking.at_step 6 Run.nalt_trial) 1 =
    Ok (nalt_PerceptualDecisionMaking.at_step 6 Run.nalt_trial,
        (obs, 0%Q, false, period_info false 0)).
Proof.
  split; [vm_compute; reflexivity|]. split; [vm_compute; reflexivity|].
  split; [reflexivity|].
  eexists. vm_compute. reflexivity.
Qed.

(** ** C3: choices in the decision period *)

Section Choices.
Context {G : Type} `{!RandomState G} `{!Tasktools G} `{!NumPy}.




End Choices.


(** ** Rewards of the go action *)

Lemma pow15_0 : ReadySetGo.pow15 0 = 0%R.
Proof. unfold ReadySetGo.pow15. apply Rmult_0_l. Qed.

Lemma pow15_1 : ReadySetGo.pow15 1 = 1%R.
Proof. unfold ReadySetGo.pow15. rewrite sqrt_1. apply Rmult_1_l. Qed.



(** ** C4: the reward of the go action *)

(** C4 on the code.  With dt = 25 and production = 500, the go action at
    timestep 55 (1375 ms, in the production epoch) has eps = 125 =
    eps_threshold, within the tolerance: the reward is 0 = R_FAIL, outside
    (0, R_CORRECT].  At timestep 60 (1500 ms) the go action is on the
    target (eps = 0); the reward is 0.1, a tenth of R_CORRECT.  The source
    caps the graded reward by [min(reward, 0.1)]. *)
Lemma C4_go_reward_is_capped :
  ReadySetGo.__init__ 25 (500, 83, 83)%Q 1 7%N = Ok (Run.rsg 25) ∧
  ReadySetGo.R_CORRECT (Run.rsg 25) = 1%R ∧
  ReadySetGo.in_epoch "production" (ReadySetGo.at_step 55 (Run.rsg 25))
    = Ok true ∧
  ReadySetGo.in_epoch "production" (ReadySetGo.at_step 60 (Run.rsg 25))
    = Ok true ∧
  (∃ obs, ReadySetGo._step (ReadySetGo.at_step 55 (Run.rsg 25)) 1 =
          Ok (obs, 0%R, false, rsg_info true [1; 0]%Q)) ∧
  (∃ obs, ReadySetGo._step (ReadySetGo.at_step 60 (Run.rsg 25)) 1 =
          Ok (obs, (1 / 10)%R, false, rsg_info true [0; 1]%Q)).
Proof.
  split; [vm_compute; reflexivity|]. split; [reflexivity|].
  split; [vm_compute; reflexivity|]. split; [vm_compute; reflexivity|].
  split.
  - pose proof (rsg_step_go (ReadySetGo.at_step 55 (Run.rsg 25)) false false
                  (0 + 500 + 500)%Q (500 * 1)%Q) as Hstep.
    cbv zeta in Hstep.
    replace (near (ReadySetGo.at_step 55 (Run.rsg 25)) (0 + 500 + 500)
               (500 * 1)) with false in Hstep by (vm_compute; reflexivity).
    set (eps := Qabs _) in Hstep. set (thr := (_ + 25)%Q) in Hstep.
    replace (Qlt_bool thr eps) with false in Hstep
      by (vm_compute; reflexivity).
    assert (Hx : Q2R (1 - eps / thr) = 0%R).
    { transitivity (Q2R 0).
      - apply Qeq_eqR. vm_compute. reflexivity.
      - unfold Q2R. simpl. rlra. }
    rewrite Hx, pow15_0 in Hstep.
    change (ReadySetGo.R_CORRECT (ReadySetGo.at_step 55 (Run.rsg 25)))
      with 1%R in Hstep.
    replace (Rmin 0 (1 / 10) * 1)%R with 0%R in Hstep
      by (rewrite Rmin_left by rlra; rlra).
    eexists. apply Hstep; vm_compute; reflexivity.
  - pose proof (rsg_step_go (ReadySetGo.at_step 60 (Run.rsg 25)) false false
                  (0 + 500 + 500)%Q (500 * 1)%Q) as Hstep.
    cbv zeta in Hstep.
    replace (near (ReadySetGo.at_step 60 (Run.rsg 25)) (0 + 500 + 500)
               (500 * 1)) with true in Hstep by (vm_compute; reflexivity).
    set (eps := Qabs _) in Hstep. set (thr := (_ + 25)%Q) in Hstep.
    replace (Qlt_bool thr eps) with false in Hstep
      by (vm_compute; reflexivity).
    assert (Hx : Q2R (1 - eps / thr) = 1%R).
    { transitivity (Q2R 1).
      - apply Qeq_eqR. vm_compute. reflexivity.
      - unfold Q2R. simpl. rlra. }
    rewrite Hx, pow15_1 in Hstep.
    change (ReadySetGo.R_CORRECT (ReadySetGo.at_step 60 (Run.rsg 25)))
      with 1%R in Hstep.
    replace (Rmin 1 (1 / 10) * 1)%R with (1 / 10)%R in Hstep
      by (rewrite Rmin_right by rlra; rlra).
    eexists. apply Hstep; vm_compute; reflexivity.
Qed.

(** ** Steps return *)

Lemma update_keeps_key {A} (d other : gmap string A) (k : string) :
  is_Some (d !! k) → ∃ v, getitem (update d other) k = Ok v.
Proof.
  intros [v Hv]. unfold getitem, update.
  destruct ((other ∪ d) !! k) as [w|] eqn:E; [eauto|].
  apply lookup_union_None in E as [_ E]. congruence.
Qed.

Section StepsReturn.
Context {G : Type} `{!RandomState G} `{!Tasktools G} `{!NumPy}.

(** The three rewards are configured, whatever dictionary the caller
    gives. *)
Lemma nalt_init_rewards dt rewards timing stim_scale sigma n_ch (g : G) :
  ∀ k, k ∈ ["abort"; "correct"; "fail"] →
    ∃ r, getitem
           (nalt_PerceptualDecisionMaking.rewards
              (nalt_PerceptualDecisionMaking.__init__ dt rewards timing
                 stim_scale sigma n_ch g)) k = Ok r.
Proof.
  intros k Hk. cbn [nalt_PerceptualDecisionMaking.__init__
                      nalt_PerceptualDecisionMaking.rewards].
  apply update_keeps_key.
  repeat (apply elem_of_cons in Hk as [-> | Hk]; [by eexists|]).
  by apply elem_of_nil in Hk.
Qed.

Lemma dmc_init_rewards dt rewards timing sigma (g : G) :
  ∀ k, k ∈ ["abort"; "correct"; "fail"] →
    ∃ r, getitem
           (DelayedMatchCategory.rewards
              (DelayedMatchCategory.__init__ dt rewards timing sigma g)) k
         = Ok r.
Proof.
  intros k Hk. cbn [DelayedMatchCategory.__init__
                      DelayedMatchCategory.rewards].
  apply update_keeps_key.
  repeat (apply elem_of_cons in Hk as [-> | Hk]; [by eexists|]).
  by apply elem_of_nil in Hk.
Qed.

(** At every timestep of a trial, a step of nalt_PerceptualDecisionMaking
    returns. *)
Lemma nalt_trial_steps (self self' : nalt_PerceptualDecisionMaking.t G)
    kwargs (i action : Z) :
  nalt_PerceptualDecisionMaking.new_trial self kwargs = Ok self' →
  (∀ k, k ∈ ["abort"; "correct"; "fail"] →
        ∃ r, getitem (nalt_PerceptualDecisionMaking.rewards self) k = Ok r) →
  (0 ≤ i < Engine.tmax_ind (nalt_PerceptualDecisionMaking.env self'))%Z →
  ∃ r, nalt_PerceptualDecisionMaking._step
         (nalt_PerceptualDecisionMaking.at_step i self') action = Ok r.
Proof.
  intros Hnt Hr Hi.
  apply nalt_new_trial_inv in Hnt
    as (d1 & d2 & d3 & g & label & Hp & Hd & Hdt & _ & HN & Hlen & _ & _
        & Hgt & Hrw & _).
  rewrite HN in Hi.
  apply nalt_step_total;
    unfold nalt_PerceptualDecisionMaking.in_period,
      nalt_PerceptualDecisionMaking.at_step, Engine.in_period,
      Engine.ob_now, Engine.gt_now;
    cbn [nalt_PerceptualDecisionMaking.env
         nalt_PerceptualDecisionMaking.set_env
         nalt_PerceptualDecisionMaking.rewards Engine.set_t Engine.periods
         Engine.dt Engine.t_ind Engine.ob Engine.gt].
  - destruct (py_index_Some
                (Engine.ob (nalt_PerceptualDecisionMaking.env self')) i)
      as (o & Ho & _); [rewrite Hlen; lia | eauto].
  - destruct (py_index_Some
                (Engine.gt (nalt_PerceptualDecisionMaking.env self')) i)
      as (x & Hx & _); [|eauto].
    rewrite Hgt, on_rows_length, length_replicate. lia.
  - rewrite Hp. unfold nalt_chain. cbn [lay].
    rewrite !lookup_insert_ne by done. rewrite lookup_insert_eq. eauto.
  - rewrite Hp. unfold nalt_chain. cbn [lay].
    rewrite lookup_insert_eq. eauto.
  - by rewrite Hrw.
Qed.

Lemma dmc_trial_steps (self self' : DelayedMatchCategory.t G) kwargs
    (i action : Z) :
  DelayedMatchCategory.new_trial self kwargs = Ok self' →
  (∀ k, k ∈ ["abort"; "correct"; "fail"] →
        ∃ r, getitem (DelayedMatchCategory.rewards self) k = Ok r) →
  (0 ≤ i < Engine.tmax_ind (DelayedMatchCategory.env self'))%Z →
  ∃ r, DelayedMatchCategory._step (DelayedMatchCategory.at_step i self')
         action = Ok r.
Proof.
  intros Hnt Hr Hi.
  apply dmc_new_trial_inv in Hnt
    as (d1 & d2 & d3 & d4 & g & label & Hp & Hd & Hdt & _ & HN & Hlen & _
        & _ & Hgt & Hrw & _).
  rewrite HN in Hi.
  apply dmc_step_total;
    unfold DelayedMatchCategory.in_period, DelayedMatchCategory.at_step,
      Engine.in_period, Engine.ob_now, Engine.gt_now;
    cbn [DelayedMatchCategory.env DelayedMatchCategory.set_env
         DelayedMatchCategory.rewards Engine.set_t Engine.periods
         Engine.dt Engine.t_ind Engine.ob Engine.gt].
  - destruct (py_index_Some (Engine.ob (DelayedMatchCategory.env self')) i)
      as (o & Ho & _); [rewrite Hlen; lia | eauto].
  - destruct (py_index_Some (Engine.gt (DelayedMatchCategory.env self')) i)
      as (x & Hx & _); [|eauto].
    rewrite Hgt, on_rows_length, length_replicate. lia.
  - rewrite Hp. unfold dmc_chain. cbn [lay].
    rewrite !lookup_insert_ne by done. rewrite lookup_insert_eq. eauto.
  - rewrite Hp. unfold dmc_chain. cbn [lay].
    rewrite lookup_insert_eq. eauto.
  - by rewrite Hrw.
Qed.

(** At every timestep of a trial, a step of ReadySetGo returns for the
    actions 0 and 1. *)
Lemma rsg_trial_steps (self self' : ReadySetGo.t G) (tr : gmap string Q)
    (i action : Z) :
  ReadySetGo._new_trial self = Ok (self', tr) →
  ReadySetGo.actions self = [-1; 1]%Z → (0 ≤ action < 2)%Z →
  ∃ r, ReadySetGo._step
         (ReadySetGo.at_step i (ReadySetGo.set_trial tr self')) action
       = Ok r.
Proof.
  intros Hnt Hact Ha.
  apply rsg_new_trial_inv in Hnt as (m & g & Hm & -> & Hdt & ->).
  destruct (rsg_periods_lookup (ReadySetGo.fixation self)
              (ReadySetGo.ready self) m (ReadySetGo.set_ self)
              (m * ReadySetGo.gain self)
              (Engine.periods (ReadySetGo.env self)))
    as (Pf & Pr & Pm & Ps & Pp).
  apply rsg_step_total.
  - intros k Hk. unfold ReadySetGo.in_epoch, Engine.in_period. cbn.
    repeat (apply elem_of_cons in Hk as [-> | Hk];
            [rewrite ?Pf, ?Pp, ?Pr, ?Ps; by eexists|]).
    by apply elem_of_nil in Hk.
  - cbn. rewrite Hact.
    assert (action = 0 ∨ action = 1)%Z as [-> | ->] by lia; cbn; eauto.
  - unfold Engine.period_end. cbn. rewrite Pm. eauto.
  - cbn. eauto.
Qed.

(** The trials of RDM: their [epochs] dictionary is the one
    [get_epochs_idx] builds. *)
Definition rdm_wf (self : RDM.task G) : Prop :=
  ∃ dt stimulus, RDM.epochs (RDM.trial self) = rdm_epochs dt stimulus.

Lemma rdm_init_wf (dt p : Q) (g : G) (self : RDM.task G) :
  RDM.__init__ dt p g = Ok self → rdm_wf self.
Proof.
  unfold RDM.__init__. intros Hi. cbn zeta in Hi.
  bind_inv Hi x Hx. destruct x as [tr g1]. injection Hi as <-.
  destruct (rdm_new_trial_inv
              (RDM.mk dt 0 g 0 0 p (Qmax RDM.stimulus_min_class dt)
                 (RDM.mkTrial ∅ [] ∅ 0 0)) g dt ∅)
    as (sti & lr & c & g' & E & _).
  cbn [RDM.rng RDM.dt] in Hx. rewrite E in Hx. injection Hx as <- <-.
  by exists dt, sti.
Qed.

Lemma rdm_step_wf (self self' : RDM.task G) (action : Z)
    (r : list Q * Q * bool * gmap string PyVal) :
  rdm_wf self → RDM.step self action = Ok (self', r) → rdm_wf self'.
Proof.
  intros Hwf. unfold RDM.step. intros Hs.
  bind_inv Hs x Hx. destruct x as [st rw].
  bind_inv Hs og Hog. destruct og as [o2 g2].
  bind_inv Hs cont Hcont.
  destruct (tasktools_new_trial _ _ _ _ _ _ _ _ _) as [[[[r' nt] t'] p'] n'].
  bind_inv Hs tg Htg. destruct tg as [tr g3].
  injection Hs as <- <-. unfold rdm_wf. cbn [RDM.trial].
  destruct nt.
  - destruct (rdm_new_trial_inv self g2 (RDM.dt self) ∅)
      as (sti & lr & c & g' & E & _).
    rewrite E in Htg. injection Htg as <- <-. by exists (RDM.dt self), sti.
  - injection Htg as <- <-. exact Hwf.
Qed.

Lemma rdm_wf_step_total (self : RDM.task G) (action : Z) :
  rdm_wf self → ∃ r, RDM.step self action = Ok r.
Proof.
  intros (dt & sti & E).
  eapply rdm_step_total; rewrite E; reflexivity.
Qed.

(** Every run of RDM returns, and leaves a task whose steps return. *)
Lemma rdm_run_total (acts : list Z) :
  ∀ self : RDM.task G, rdm_wf self →
    ∃ self', RDM.run self acts = Ok self' ∧ rdm_wf self'.
Proof.
  induction acts as [|a rest IH]; intros self Hwf; [by exists self|].
  destruct (rdm_wf_step_total self a Hwf) as ([s1 r] & Hs).
  destruct (IH s1 (rdm_step_wf _ _ _ _ Hwf Hs)) as (s2 & Hrun & Hwf2).
  exists s2. cbn [RDM.run]. rewrite Hs. cbn. done.
Qed.

Lemma rdm_run_wf (acts : list Z) (self self' : RDM.task G) :
  rdm_wf self → RDM.run self acts = Ok self' → rdm_wf self'.
Proof.
  intros Hwf Hrun. destruct (rdm_run_total acts self Hwf) as (s & E & Hs).
  congruence.
Qed.

End StepsReturn.

(** ** C6: the info record *)

Section InfoRecord.
Context {G : Type} `{!RandomState G} `{!Tasktools G} `{!NumPy}.

(** C6, as the code has it.  Every step of nalt_PerceptualDecisionMaking,
    DelayedMatchCategory and ReadySetGo returns an info dictionary with a
    boolean 'new_trial' and the current ground truth under 'gt' (an
    integer in the first two, the two-entry vector in ReadySetGo), and at
    every timestep of a trial the step does return.  The status dictionary
    RDM.step returns holds a boolean 'continue', and neither 'new_trial'
    nor 'gt'; every step of a run of RDM returns. *)
Theorem C6_info_holds_new_trial_and_gt :
  (∀ (self s : nalt_PerceptualDecisionMaking.t G) action obs reward d info,
     nalt_PerceptualDecisionMaking._step self action
       = Ok (s, (obs, reward, d, info)) →
     ∃ b gt, info !! "new_trial" = Some (VBool b) ∧
             info !! "gt" = Some (VInt gt) ∧
             Engine.gt_now (nalt_PerceptualDecisionMaking.env self) = Ok gt)
  ∧
  (∀ (self self' : nalt_PerceptualDecisionMaking.t G) kwargs (i action : Z),
     nalt_PerceptualDecisionMaking.new_trial self kwargs = Ok self' →
     (∀ k, k ∈ ["abort"; "correct"; "fail"] →
        ∃ r, getitem (nalt_PerceptualDecisionMaking.rewards self) k = Ok r) →
     (0 ≤ i < Engine.tmax_ind (nalt_PerceptualDecisionMaking.env self'))%Z →
     ∃ s obs reward d b gt,
       nalt_PerceptualDecisionMaking._step
         (nalt_PerceptualDecisionMaking.at_step i self') action
       = Ok (s, (obs, reward, d, period_info b gt))) ∧
  (∀ (self s : DelayedMatchCategory.t G) action obs reward d info,
     DelayedMatchCategory._step self action
       = Ok (s, (obs, reward, d, info)) →
     ∃ b gt, info !! "new_trial" = Some (VBool b) ∧
             info !! "gt" = Some (VInt gt) ∧
             Engine.gt_now (DelayedMatchCategory.env self) = Ok gt) ∧
  (∀ (self self' : DelayedMatchCategory.t G) kwargs (i action : Z),
     DelayedMatchCategory.new_trial self kwargs = Ok self' →
     (∀ k, k ∈ ["abort"; "correct"; "fail"] →
        ∃ r, getitem (DelayedMatchCategory.rewards self) k = Ok r) →
     (0 ≤ i < Engine.tmax_ind (DelayedMatchCategory.env self'))%Z →
     ∃ s obs reward d b gt,
       DelayedMatchCategory._step (DelayedMatchCategory.at_step i self')
         action
       = Ok (s, (obs, reward, d, period_info b gt))) ∧
  (∀ (self : ReadySetGo.t G) action obs reward d info,
     ReadySetGo._step self action = Ok (obs, reward, d, info) →
     ∃ b gt, info !! "new_trial" = Some (VBool b) ∧
             info !! "gt" = Some (VArr gt)) ∧
  (∀ (self self' : ReadySetGo.t G) (tr : gmap string Q) (i action : Z),
     ReadySetGo._new_trial self = Ok (self', tr) →
     ReadySetGo.actions self = [-1; 1]%Z → (0 ≤ action < 2)%Z →
     ∃ obs reward d b gt,
       ReadySetGo._step
         (ReadySetGo.at_step i (ReadySetGo.set_trial tr self')) action
       = Ok (obs, reward, d, rsg_info b gt)) ∧
  (∀ (self s : RDM.task G) action obs reward d status,
     RDM.step self action = Ok (s, (obs, reward, d, status)) →
     (∃ b, status !! "continue" = Some (VBool b)) ∧
     status !! "new_trial" = None ∧ status !! "gt" = None) ∧
  (∀ (dt p : Q) (g : G) (self self' : RDM.task G) (acts : list Z)
     (action : Z),
     RDM.__init__ dt p g = Ok self → RDM.run self acts = Ok self' →
     ∃ s obs reward d status,
       RDM.step self' action = Ok (s, (obs, reward, d, status)) ∧
       status !! "new_trial" = None ∧ status !! "gt" = None).
Proof.
  split; [|split; [|split; [|split; [|split; [|split; [|split]]]]]].
  - intros self s action obs reward d info Hs.
    apply nalt_step_inv in Hs as (_ & b & gt & Hg & ->).
    exists b, gt. done.
  - intros self self' kwargs i action Hnt Hr Hi.
    destruct (nalt_trial_steps self self' kwargs i action Hnt Hr Hi)
      as ([s [[[obs reward] d] info]] & Hs).
    destruct (nalt_step_inv _ _ _ _ _ _ _ Hs) as (_ & b & gt & _ & ->).
    by exists s, obs, reward, d, b, gt.
  - intros self s action obs reward d info Hs.
    apply dmc_step_inv in Hs as (_ & b & gt & Hg & ->).
    exists b, gt. done.
  - intros self self' kwargs i action Hnt Hr Hi.
    destruct (dmc_trial_steps self self' kwargs i action Hnt Hr Hi)
      as ([s [[[obs reward] d] info]] & Hs).
    destruct (dmc_step_inv _ _ _ _ _ _ _ Hs) as (_ & b & gt & _ & ->).
    by exists s, obs, reward, d, b, gt.
  - intros self action obs reward d info Hs.
    apply rsg_step_inv in Hs as (_ & b & gt & ->).
    exists b, gt. done.
  - intros self self' tr i action Hnt Hact Ha.
    destruct (rsg_trial_steps self self' tr i action Hnt Hact Ha)
      as ([[[obs reward] d] info] & Hs).
    destruct (rsg_step_inv _ _ _ _ _ _ Hs) as (_ & b & gt & ->).
    by exists obs, reward, d, b, gt.
  - intros self s action obs reward d status Hs.
    by apply rdm_step_inv in Hs as (_ & _ & _ & Hc & Hn & Hg).
  - intros dt p g self self' acts action Hinit Hrun.
    pose proof (rdm_run_wf acts _ _ (rdm_init_wf _ _ _ _ Hinit) Hrun) as Hwf.
    destruct (rdm_wf_step_total self' action Hwf)
      as ([s [[[obs reward] d] status]] & Hs).
    destruct (rdm_step_inv _ _ _ _ _ _ _ Hs) as (_ & _ & _ & _ & Hn & Hg).
    by exists s, obs, reward, d, status.
Qed.

End InfoRecord.

(** The theorem of C6 on the concrete nalt_PerceptualDecisionMaking task:
    the step at timestep 6 of the first trial. *)
Lemma C6_witness :
  ∃ s obs reward d b gt,
    nalt_PerceptualDecisionMaking._step
      (nalt_PerceptualDecisionMaking.at_step 6 Run.nalt_trial) 1
    = Ok (s, (obs, reward, d, period_info b gt)).
Proof.
  refine (proj1 (proj2 C6_info_holds_new_trial_and_gt)
            Run.nalt Run.nalt_trial ∅ 6%Z 1%Z _ _ _).
  - vm_compute. reflexivity.
  - apply nalt_init_rewards.
  - replace (Engine.tmax_ind
               (nalt_PerceptualDecisionMaking.env Run.nalt_trial))
      with 15%Z by (vm_compute; reflexivity).
    lia.
Defined.

(** C6 as stated fails on RDM: the first step of the default task, with
    action FIXATE, returns the status dictionary {'continue': True}, which
    holds neither 'new_trial' nor a ground truth. *)
Lemma C6_counterexample_rdm_status :
  RDM.__init__ 100 0 7%N = Ok Run.rdm ∧
  ∃ s obs reward,
    RDM.step Run.rdm 0 =
    Ok (s, (obs, reward, false, <["continue" := VBool true]> ∅)) ∧
    (<["continue" := VBool true]> ∅ : gmap string PyVal) !! "new_trial"
      = None ∧
    (<["continue" := VBool true]> ∅ : gmap string PyVal) !! "gt" = None ∧
    (<["continue" := VBool true]> ∅ : gmap string PyVal) !! "ground_truth"
      = None.
Proof.
  split; [vm_compute; reflexivity|].
  assert (Hr : RDM.step_reward Run.rdm 0
               = Ok (<["continue" := VBool true]> ∅, 0%Q))
    by (vm_compute; reflexivity).
  destruct (step_inputs_total Run.rdm _ _
              ltac:(vm_compute; reflexivity) ltac:(vm_compute; reflexivity))
    as (obs & g & Hi).
  destruct (step_tail Run.rdm 0 _ _ true obs g Hr eq_refl Hi)
    as (s & Hs & _).
  exists s, obs, (returned_reward Run.rdm true 0). split; [exact Hs|].
  clear. repeat split; reflexivity.
Qed.

(** ** C8: the done flag *)

Section DoneFlag.
Context {G : Type} `{!RandomState G} `{!Tasktools G} `{!NumPy}.


End DoneFlag.


(** * Further properties of the step functions *)

(** ** RDM: observations *)

Section RDMObservations.
Context {G : Type} `{!RandomState G} `{!Tasktools G} `{!NumPy}.

Lemma scale_sum (c : Q) : (RDM.scale c + RDM.scale (- c) == 1)%Q.
Proof. unfold RDM.scale. field. Qed.

Lemma scale_diff (c : Q) : (RDM.scale c - RDM.scale (- c) == c / 100)%Q.
Proof. unfold RDM.scale. field. Qed.

(** X1.  In a stimulus timestep the observation of RDM.step is
    [1, LEFT, RIGHT]: the channel on the trial's side (LEFT when left_right
    is negative, RIGHT otherwise) carries scale(coh) plus the first normal
    draw over sqrt(dt), the other one scale(-coh) plus the second draw over
    sqrt(dt); exactly two draws are taken.  The two means sum to 1 and
    differ by coh/100. *)
Theorem X1_rdm_stimulus_observation (self : RDM.task G)
    (fix_ sti : list Z) :
  RDM.epochs (RDM.trial self) !! "fixation" = Some fix_ →
  RDM.epochs (RDM.trial self) !! "stimulus" = Some sti →
  RDM.t self ∈ sti →
  let c := RDM.coh (RDM.trial self) in
  let high := (RDM.scale c
               + (rdm_noise self).1.1 / np_sqrt (RDM.dt self))%Q in
  let low := (RDM.scale (- c)
              + (rdm_noise self).1.2 / np_sqrt (RDM.dt self))%Q in
  RDM.step_inputs self =
    Ok (if Qlt_bool (RDM.left_right (RDM.trial self)) 0
        then [1%Q; high; low] else [1%Q; low; high],
        (rdm_noise self).2) ∧
  (RDM.scale c + RDM.scale (- c) == 1)%Q ∧
  (RDM.scale c - RDM.scale (- c) == c / 100)%Q.
Proof.
  intros Hf Hs Ht c high low.
  split; [|split; [apply scale_sum | apply scale_diff]].
  subst high low c. unfold RDM.step_inputs, rdm_noise.
  apply getitem_Ok in Hf, Hs. apply py_in_iff in Ht.
  rewrite Hf, Hs, inputs_FIXATION, inputs_LEFT, inputs_RIGHT, inputs_size.
  destruct (rng_normal 0 RDM.sigma (RDM.rng self)) as [x g1].
  destruct (rng_normal 0 RDM.sigma g1) as [y g2].
  cbn [mbind Res_bind]. rewrite Ht, orb_true_r.
  by destruct (Qlt_bool (RDM.left_right (RDM.trial self)) 0).
Qed.

(** The observation of a timestep outside the stimulus epoch. *)
Lemma step_inputs_outside_stimulus (self : RDM.task G) (fix_ sti : list Z) :
  RDM.epochs (RDM.trial self) !! "fixation" = Some fix_ →
  RDM.epochs (RDM.trial self) !! "stimulus" = Some sti →
  py_in (RDM.t self) sti = false →
  RDM.step_inputs self =
    Ok (if py_in (RDM.t self) fix_ then [1; 0; 0]%Q else [0; 0; 0]%Q,
        RDM.rng self).
Proof.
  intros Hf Hs Hn. unfold RDM.step_inputs.
  apply getitem_Ok in Hf, Hs.
  rewrite Hf, Hs, inputs_FIXATION, inputs_LEFT, inputs_RIGHT, inputs_size.
  cbn [mbind Res_bind]. rewrite Hn, orb_false_r.
  by destruct (Qlt_bool (RDM.left_right (RDM.trial self)) 0),
       (py_in (RDM.t self) fix_).
Qed.

Lemma py_in_false (x : Z) (l : list Z) : x ∉ l → py_in x l = false.
Proof.
  intros Hn. destruct (py_in x l) eqn:E; [|done]. by apply py_in_iff in E.
Qed.

(** X2.  Outside the stimulus epoch RDM.step draws no noise: the generator
    is left as it was and the observation is [1, 0, 0] in the fixation
    epoch and [0, 0, 0] elsewhere. *)
Theorem X2_rdm_observation_outside_stimulus (self : RDM.task G)
    (fix_ sti : list Z) :
  RDM.epochs (RDM.trial self) !! "fixation" = Some fix_ →
  RDM.epochs (RDM.trial self) !! "stimulus" = Some sti →
  RDM.t self ∉ sti →
  RDM.step_inputs self =
    Ok (if py_in (RDM.t self) fix_ then [1; 0; 0]%Q else [0; 0; 0]%Q,
        RDM.rng self).
Proof.
  intros Hf Hs Ht.
  apply (step_inputs_outside_stimulus self fix_ sti Hf Hs).
  by apply py_in_false.
Qed.

End RDMObservations.

(** X1 at the ninth step of the first trial of RDM(dt=100), a stimulus
    timestep of a trial with left_right = -1. *)
Lemma X1_witness :
  RDM.step_inputs (Run.rdm_after [0; 0; 0; 0; 0; 0; 0; 0; 0]%Z) =
  Ok ([1%Q;
       (RDM.scale (RDM.coh (RDM.trial Run.rdm))
        + (rdm_noise (Run.rdm_after [0; 0; 0; 0; 0; 0; 0; 0; 0]%Z)).1.1
          / np_sqrt 100)%Q;
       (RDM.scale (- RDM.coh (RDM.trial Run.rdm))
        + (rdm_noise (Run.rdm_after [0; 0; 0; 0; 0; 0; 0; 0; 0]%Z)).1.2
          / np_sqrt 100)%Q],
      (rdm_noise (Run.rdm_after [0; 0; 0; 0; 0; 0; 0; 0; 0]%Z)).2).
Proof.
  refine (proj1 (X1_rdm_stimulus_observation
            (Run.rdm_after [0; 0; 0; 0; 0; 0; 0; 0; 0]%Z)
            [0; 1; 2; 3; 4; 5; 6; 7]%Z [8; 9; 10]%Z _ _ _)).
  - vm_compute. reflexivity.
  - vm_compute. reflexivity.
  - apply py_in_iff. vm_compute. reflexivity.
Defined.

(** X2 at the first step of RDM(dt=100). *)
Lemma X2_witness :
  RDM.step_inputs Run.rdm = Ok ([1; 0; 0]%Q, RDM.rng Run.rdm).
Proof.
  refine (X2_rdm_observation_outside_stimulus Run.rdm
            [0; 1; 2; 3; 4; 5; 6; 7]%Z [8; 9; 10]%Z _ _ _).
  - vm_compute. reflexivity.
  - vm_compute. reflexivity.
  - intros Hin. apply py_in_iff in Hin. vm_compute in Hin. discriminate.
Defined.

(** ** RDM: actions, trials and the clock *)

Section RDMActions.
Context {G : Type} `{!RandomState G} `{!Tasktools G} `{!NumPy}.

(** X3.  An action that is none of FIXATE (0), CHOOSE-LEFT (1) and
    CHOOSE-RIGHT (2) is not refused by RDM.step: while the previous
    timestep is outside the decision epoch it aborts the trial like any
    non-fixate action (reward R_ABORTED, 'continue' False); inside it, it
    is ignored like a fixation (reward 0, 'continue' True, no choice
    recorded). *)
Theorem X3_rdm_action_out_of_range (self : RDM.task G) (action : Z)
    (dec : list Z) :
  RDM.epochs (RDM.trial self) !! "decision" = Some dec →
  (action < 0 ∨ 2 < action)%Z →
  RDM.step_reward self action =
    Ok (if py_in (RDM.t self - 1) dec
        then (<["continue" := VBool true]> ∅, 0%Q)
        else (<["continue" := VBool false]> ∅, RDM.R_ABORTED)).
Proof.
  intros Hd Ha. unfold RDM.step_reward.
  apply getitem_Ok in Hd. rewrite Hd. cbn [mbind Res_bind].
  rewrite actions_FIXATE, actions_LEFT, actions_RIGHT. cbn [mbind Res_bind].
  destruct (py_in (RDM.t self - 1) dec); cbn [negb].
  - replace (action =? 1)%Z with false by (symmetry; apply Z.eqb_neq; lia).
    by replace (action =? 2)%Z with false by (symmetry; apply Z.eqb_neq; lia).
  - replace (action =? 0)%Z with false by (symmetry; apply Z.eqb_neq; lia).
    cbn [negb]. by rewrite insert_insert_eq.
Qed.

(** The side and the coherence of a trial drawn without a context are
    among the class's lists. *)
Lemma rdm_new_trial_drawn (self : RDM.task G) (g g' : G) (dt : Q)
    (context : gmap string Q) (tr : RDM.Trial) :
  RDM._new_trial self g dt context = Ok (tr, g') →
  (context !! "left_right" = None → RDM.left_right tr ∈ RDM.left_rights) ∧
  (context !! "coh" = None → RDM.coh tr ∈ RDM.cohs).
Proof.
  unfold RDM._new_trial.
  destruct (match context !! "stimulus" with
            | Some x => (x, g)
            | None => truncated_exponential g dt RDM.stimulus_mean
                        (RDM.stimulus_min self) RDM.stimulus_max
            end) as [x g1].
  fold (rdm_durations x). rewrite get_epochs_idx_durations.
  cbn [mbind Res_bind]. intros Hx.
  bind_inv Hx lg Hlg. destruct lg as [lr g2].
  bind_inv Hx cg Hcg. destruct cg as [c g3].
  injection Hx as <- <-. cbn [RDM.left_right RDM.coh]. split.
  - intros Hn. rewrite Hn in Hlg. unfold py_choice, RDM.left_rights in Hlg.
    injection Hlg as Hlg.
    pose proof (rng_choice_elem [-1; 1]%Q g1 ltac:(done)) as He.
    by rewrite Hlg in He.
  - intros Hn. rewrite Hn in Hcg. unfold py_choice, RDM.cohs in Hcg.
    injection Hcg as Hcg.
    pose proof (rng_choice_elem
                  [0; 64 # 10; 128 # 10; 256 # 10; 512 # 10]%Q g2
                  ltac:(done)) as He.
    by rewrite Hcg in He.
Qed.

Lemma rdm_step_drawn (self self' : RDM.task G) (action : Z)
    (r : list Q * Q * bool * gmap string PyVal) :
  RDM.step self action = Ok (self', r) →
  RDM.left_right (RDM.trial self) ∈ RDM.left_rights →
  RDM.coh (RDM.trial self) ∈ RDM.cohs →
  RDM.left_right (RDM.trial self') ∈ RDM.left_rights ∧
  RDM.coh (RDM.trial self') ∈ RDM.cohs.
Proof.
  unfold RDM.step. intros Hs Hl Hc.
  bind_inv Hs x Hx. destruct x as [st r0].
  bind_inv Hs og Hog. destruct og as [o2 g2].
  bind_inv Hs cont Hcont.
  destruct (tasktools_new_trial _ _ _ _ _ _ _ _ _) as [[[[r' nt] t'] p'] n'].
  bind_inv Hs tg Htg. destruct tg as [tr g3].
  injection Hs as <- <-. cbn [RDM.trial].
  destruct nt.
  - apply rdm_new_trial_drawn in Htg as [H1 H2].
    split; [by apply H1 | by apply H2].
  - by injection Htg as <- <-.
Qed.

Lemma rdm_run_drawn (acts : list Z) :
  ∀ self self' : RDM.task G,
    RDM.run self acts = Ok self' →
    RDM.left_right (RDM.trial self) ∈ RDM.left_rights →
    RDM.coh (RDM.trial self) ∈ RDM.cohs →
    RDM.left_right (RDM.trial self') ∈ RDM.left_rights ∧
    RDM.coh (RDM.trial self') ∈ RDM.cohs.
Proof.
  induction acts as [|a acts IH]; intros self self' Hr Hl Hc.
  - by injection Hr as <-.
  - cbn [RDM.run] in Hr. bind_inv Hr x Hx. destruct x as [s1 r1].
    destruct (rdm_step_drawn _ _ _ _ Hx Hl Hc) as [Hl1 Hc1].
    by apply (IH s1 self' Hr).
Qed.

(** X4.  Every trial of a run of RDM, the first one and those step draws,
    has its side left_right in [-1, 1] and its coherence in the class's
    list cohs.  So a choice made while the previous timestep is in the
    decision epoch is rewarded R_CORRECT for exactly one of CHOOSE-LEFT
    and CHOOSE-RIGHT, and R_FAIL for the other. *)
Theorem X4_rdm_trials_have_a_side (dt p : Q) (g : G)
    (self self' : RDM.task G) (acts : list Z) :
  RDM.__init__ dt p g = Ok self →
  RDM.run self acts = Ok self' →
  RDM.left_right (RDM.trial self') ∈ RDM.left_rights ∧
  RDM.coh (RDM.trial self') ∈ RDM.cohs ∧
  ∀ dec, RDM.epochs (RDM.trial self') !! "decision" = Some dec →
         (RDM.t self' - 1)%Z ∈ dec →
         ∃ sl sr rl rr,
           RDM.step_reward self' 1 = Ok (sl, rl) ∧
           RDM.step_reward self' 2 = Ok (sr, rr) ∧
           ((rl = RDM.R_CORRECT ∧ rr = RDM.R_FAIL) ∨
            (rl = RDM.R_FAIL ∧ rr = RDM.R_CORRECT)).
Proof.
  intros Hi Hr.
  assert (Hw : RDM.left_right (RDM.trial self) ∈ RDM.left_rights ∧
               RDM.coh (RDM.trial self) ∈ RDM.cohs).
  { unfold RDM.__init__ in Hi. bind_inv Hi tg Htg. destruct tg as [tr g1].
    injection Hi as <-. cbn [RDM.trial].
    apply rdm_new_trial_drawn in Htg as [H1 H2].
    split; [by apply H1 | by apply H2]. }
  destruct Hw as [Hl Hc].
  destruct (rdm_run_drawn acts self self' Hr Hl Hc) as [Hl' Hc'].
  split; [exact Hl'|]. split; [exact Hc'|].
  intros dec Hd Ht. apply py_in_iff in Ht.
  unfold RDM.step_reward. apply getitem_Ok in Hd. rewrite Hd.
  cbn [mbind Res_bind].
  rewrite actions_LEFT, actions_RIGHT. cbn [mbind Res_bind].
  rewrite Ht. cbn [negb]. change (1 =? 1)%Z with true.
  change (2 =? 1)%Z with false. change (2 =? 2)%Z with true. cbv iota.
  do 4 eexists. split; [reflexivity|]. split; [reflexivity|].
  unfold RDM.left_rights in Hl'.
  apply elem_of_cons in Hl' as [->|Hl']; [left; done|].
  apply list_elem_of_singleton in Hl' as ->. right; done.
Qed.

(** X5.  A context that gives the stimulus duration, the side and the
    coherence fixes the trial: RDM._new_trial takes them as they are (no
    bound is checked), and the generator is returned as it was passed. *)
Theorem X5_rdm_new_trial_full_context (self : RDM.task G) (g : G)
    (dt s lr c : Q) (context : gmap string Q) :
  context !! "stimulus" = Some s →
  context !! "left_right" = Some lr →
  context !! "coh" = Some c →
  ∃ tr,
    RDM._new_trial self g dt context = Ok (tr, g) ∧
    RDM.left_right tr = lr ∧ RDM.coh tr = c ∧
    RDM.durations tr !! "stimulus"
      = Some (RDM.Interval RDM.fixation (RDM.fixation + s)) ∧
    RDM.durations tr !! "decision"
      = Some (RDM.Interval (RDM.fixation + s)
                (RDM.fixation + s + RDM.decision)) ∧
    RDM.epochs tr = rdm_epochs dt s.
Proof.
  intros Hs Hl Hc. unfold RDM._new_trial. rewrite Hs, Hl, Hc.
  fold (rdm_durations s). rewrite get_epochs_idx_durations.
  cbn [mbind Res_bind]. eexists. split; [reflexivity|].
  cbn [RDM.left_right RDM.coh RDM.durations RDM.epochs]. done.
Qed.

(** X6.  RDM.step reads the reward at the previous timestep (t - 1) and
    the observation at the current one (t).  At a timestep t that is in
    the decision epoch while t - 1 is not, the observation is already the
    blank [0, 0, 0] of the decision epoch, and any non-fixate action is
    still an abort: the reward handed to tasktools.new_trial is R_ABORTED
    and 'continue' is False. *)
Theorem X6_rdm_reward_lags_observation (self : RDM.task G) (action : Z)
    (fix_ sti dec : list Z) :
  RDM.epochs (RDM.trial self) !! "fixation" = Some fix_ →
  RDM.epochs (RDM.trial self) !! "stimulus" = Some sti →
  RDM.epochs (RDM.trial self) !! "decision" = Some dec →
  RDM.t self ∈ dec → (RDM.t self - 1)%Z ∉ dec →
  RDM.t self ∉ fix_ → RDM.t self ∉ sti →
  action ≠ 0%Z →
  ∃ self',
    RDM.step self action =
    Ok (self', ([0; 0; 0]%Q, returned_reward self false RDM.R_ABORTED, false,
                <["continue" := VBool false]> ∅)).
Proof.
  intros Hf Hs Hd Ht Ht1 Htf Hts Ha.
  pose proof (py_in_false _ _ Ht1) as Hn.
  pose proof (py_in_false _ _ Htf) as Hnf.
  assert (Hr : RDM.step_reward self action =
               Ok (<["continue" := VBool false]> ∅, RDM.R_ABORTED)).
  { unfold RDM.step_reward. apply getitem_Ok in Hd. rewrite Hd.
    cbn [mbind Res_bind]. rewrite Hn, actions_FIXATE. cbn [mbind Res_bind negb].
    apply Z.eqb_neq in Ha. rewrite Ha. cbn [negb].
    by rewrite insert_insert_eq. }
  pose proof (step_inputs_outside_stimulus self fix_ sti Hf Hs
                (py_in_false _ _ Hts)) as Hi.
  rewrite Hnf in Hi.
  destruct (step_tail self action _ _ false _ _ Hr eq_refl Hi)
    as (self' & Hstep & _).
  by exists self'.
Qed.

(** X18.  No action makes RDM raise: for a positive dt the constructor
    returns, and from the task it builds every sequence of integer
    actions, legal or not, steps through to the end. *)
Theorem X18_rdm_run_never_raises (dt p : Q) (g : G) (acts : list Z) :
  (0 < dt)%Q →
  ∃ self self',
    RDM.__init__ dt p g = Ok self ∧ RDM.run self acts = Ok self'.
Proof.
  intros _.
  assert (Hi : ∃ self, RDM.__init__ dt p g = Ok self).
  { unfold RDM.__init__.
    destruct (rdm_new_trial_inv
                (RDM.mk dt 0 g 0 0 p (Qmax RDM.stimulus_min_class dt)
                   (RDM.mkTrial ∅ [] ∅ 0 0)) g dt ∅)
      as (sti & lr & c & g' & Hnt & _).
    cbn [RDM.rng RDM.dt]. rewrite Hnt. cbn [mbind Res_bind]. eauto. }
  destruct Hi as [self Hi].
  destruct (rdm_run_total acts self (rdm_init_wf _ _ _ _ Hi))
    as (self' & Hr & _).
  by exists self, self'.
Qed.

End RDMActions.

(** X3 in the decision epoch of the first trial of RDM(dt=100): the
    action 5 is ignored. *)
Lemma X3_witness :
  RDM.step_reward
    (Run.rdm_after [0; 0; 0; 0; 0; 0; 0; 0; 0; 0; 0; 0]%Z) 5 =
  Ok (<["continue" := VBool true]> ∅, 0%Q).
Proof.
  refine (X3_rdm_action_out_of_range
            (Run.rdm_after [0; 0; 0; 0; 0; 0; 0; 0; 0; 0; 0; 0]%Z) 5
            [11; 12; 13; 14; 15]%Z _ _).
  - vm_compute. reflexivity.
  - lia.
Defined.

(** X4 in the decision epoch of the first trial of RDM(dt=100). *)
Lemma X4_witness :
  ∃ sl sr rl rr,
    RDM.step_reward
      (Run.rdm_after [0; 0; 0; 0; 0; 0; 0; 0; 0; 0; 0; 0]%Z) 1
      = Ok (sl, rl) ∧
    RDM.step_reward
      (Run.rdm_after [0; 0; 0; 0; 0; 0; 0; 0; 0; 0; 0; 0]%Z) 2
      = Ok (sr, rr) ∧
    ((rl = RDM.R_CORRECT ∧ rr = RDM.R_FAIL) ∨
     (rl = RDM.R_FAIL ∧ rr = RDM.R_CORRECT)).
Proof.
  refine (proj2 (proj2 (X4_rdm_trials_have_a_side 100 0 7%N Run.rdm
            (Run.rdm_after [0; 0; 0; 0; 0; 0; 0; 0; 0; 0; 0; 0]%Z)
            [0; 0; 0; 0; 0; 0; 0; 0; 0; 0; 0; 0]%Z _ _))
            [11; 12; 13; 14; 15]%Z _ _).
  - vm_compute. reflexivity.
  - vm_compute. reflexivity.
  - vm_compute. reflexivity.
  - apply py_in_iff. vm_compute. reflexivity.
Defined.

(** X5 on RDM(dt=100), for a trial of 300 ms of stimulus on the right at
    coherence 0. *)
Lemma X5_witness :
  ∃ tr,
    RDM._new_trial Run.rdm 7%N 100
      (<["stimulus" := 300%Q]> (<["left_right" := 1%Q]>
         (<["coh" := 0%Q]> ∅))) = Ok (tr, 7%N) ∧
    RDM.left_right tr = 1%Q ∧ RDM.coh tr = 0%Q ∧
    RDM.durations tr !! "stimulus"
      = Some (RDM.Interval RDM.fixation (RDM.fixation + 300)) ∧
    RDM.durations tr !! "decision"
      = Some (RDM.Interval (RDM.fixation + 300)
                (RDM.fixation + 300 + RDM.decision)) ∧
    RDM.epochs tr = rdm_epochs 100 300.
Proof.
  refine (X5_rdm_new_trial_full_context Run.rdm 7%N 100 300 1 0 _ _ _ _).
  - reflexivity.
  - reflexivity.
  - reflexivity.
Defined.

(** X6 at the twelfth step of the first trial of RDM(dt=100): timestep 11
    opens the decision epoch, and CHOOSE-LEFT is an abort. *)
Lemma X6_witness :
  ∃ self',
    RDM.step (Run.rdm_after [0; 0; 0; 0; 0; 0; 0; 0; 0; 0; 0]%Z) 1 =
    Ok (self',
        ([0; 0; 0]%Q,
         returned_reward (Run.rdm_after [0; 0; 0; 0; 0; 0; 0; 0; 0; 0; 0]%Z)
           false RDM.R_ABORTED,
         false, <["continue" := VBool false]> ∅)).
Proof.
  refine (X6_rdm_reward_lags_observation
            (Run.rdm_after [0; 0; 0; 0; 0; 0; 0; 0; 0; 0; 0]%Z) 1
            [0; 1; 2; 3; 4; 5; 6; 7]%Z [8; 9; 10]%Z [11; 12; 13; 14; 15]%Z
            _ _ _ _ _ _ _ _).
  - vm_compute. reflexivity.
  - vm_compute. reflexivity.
  - vm_compute. reflexivity.
  - apply py_in_iff. vm_compute. reflexivity.
  - intros Hin. apply py_in_iff in Hin. vm_compute in Hin. discriminate.
  - intros Hin. apply py_in_iff in Hin. vm_compute in Hin. discriminate.
  - intros Hin. apply py_in_iff in Hin. vm_compute in Hin. discriminate.
  - lia.
Defined.

(** X18 on RDM(dt=100), for a fixation, a choice and an illegal action. *)
Lemma X18_witness :
  ∃ self self',
    RDM.__init__ 100 0 7%N = Ok self ∧ RDM.run self [0; 1; 5]%Z = Ok self'.
Proof.
  refine (X18_rdm_run_never_raises 100 0 7%N [0; 1; 5]%Z _).
  reflexivity.
Defined.

(** ** nalt_PerceptualDecisionMaking: the stimulus vector *)

Lemma as_int_succ (g : Q) (j : Z) :
  as_int (g - 1) = Ok j → as_int g = Ok (j + 1)%Z.
Proof.
  unfold as_int. intros Hg.
  destruct (Qeq_bool (g - 1) (inject_Z (Qfloor (g - 1)))) eqn:E; [|done].
  injection Hg as <-. apply Qeq_bool_iff in E.
  assert (E1 : (g == inject_Z (Qfloor (g - 1) + 1))%Q).
  { rewrite inject_Z_plus. rewrite <- E. simpl. ring. }
  assert (F : Qfloor g = (Qfloor (g - 1) + 1)%Z).
  { rewrite (Qfloor_comp _ _ E1). apply Qfloor_Z. }
  rewrite F. apply Qeq_bool_iff in E1. by rewrite E1.
Qed.

Lemma as_int_error (g : Q) (e : PyError) : as_int g = Raise e → e = IndexError.
Proof.
  unfold as_int. destruct (Qeq_bool g (inject_Z (Qfloor g))); [done|].
  by intros [= <-].
Qed.

Section NaltStimulusIndex.
Context {G : Type} `{!RandomState G} `{!Tasktools G} `{!NumPy}.
Import nalt_PerceptualDecisionMaking.

(** The stimulus vector for an integer ground truth within Python's index
    range. *)
Lemma nalt_stim_value (self : t G) (coh g : Q) (k : Z) :
  getitem (trial self) "coh" = Ok coh →
  getitem (trial self) "ground_truth" = Ok g →
  as_int g = Ok k →
  (1 - Z.of_nat (n self) ≤ k ≤ Z.of_nat (n self))%Z →
  stim self =
  Ok (<[Z.to_nat (if (k <=? 0)%Z then Z.of_nat (n self) + k - 1 else k - 1)
        := ((1 + coh / 100) / 2)%Q]>
        (replicate (n self) (1 * (1 - coh / 100) / 2)%Q)).
Proof.
  intros Hcoh Hg Hk Hrange. unfold stim.
  rewrite Hcoh, Hg. cbn [mbind Res_bind]. rewrite (as_int_pred _ _ Hk).
  cbn [mbind Res_bind]. unfold py_setitem, py_pos. rewrite length_replicate.
  destruct (k <=? 0)%Z eqn:Ek.
  - apply Z.leb_le in Ek.
    replace (k - 1 <? 0)%Z with true by (symmetry; apply Z.ltb_lt; lia).
    replace ((0 <=? k - 1 + Z.of_nat (n self))
             && (k - 1 + Z.of_nat (n self) <? Z.of_nat (n self)))%Z
      with true by (symmetry; apply andb_true_iff; lia).
    cbn [mbind Res_bind]. do 3 f_equal. lia.
  - apply Z.leb_gt in Ek.
    replace (k - 1 <? 0)%Z with false by (symmetry; apply Z.ltb_ge; lia).
    replace ((0 <=? k - 1) && (k - 1 <? Z.of_nat (n self)))%Z
      with true by (symmetry; apply andb_true_iff; lia).
    reflexivity.
Qed.

(** X7.  The index ground_truth - 1 of line 72 is a Python index: a ground
    truth k with -n < k <= 0, which only the keyword arguments of
    new_trial can give, is accepted and counts from the end, so
    ground_truth = 0 puts the high value (1 + coh/100)/2 on the last
    channel; all other entries keep (1 - coh/100)/2. *)
Theorem X7_nalt_stimulus_index_wraps (self : t G) (coh g : Q) (k : Z) :
  getitem (trial self) "coh" = Ok coh →
  getitem (trial self) "ground_truth" = Ok g →
  as_int g = Ok k →
  (1 - Z.of_nat (n self) ≤ k ≤ 0)%Z →
  ∃ v,
    stim self = Ok v ∧ length v = n self ∧
    v !! Z.to_nat (Z.of_nat (n self) + k - 1)
      = Some ((1 + coh / 100) / 2)%Q ∧
    (∀ j, (j < n self)%nat → j ≠ Z.to_nat (Z.of_nat (n self) + k - 1) →
          v !! j = Some (1 * (1 - coh / 100) / 2)%Q).
Proof.
  intros Hcoh Hg Hk Hrange.
  rewrite (nalt_stim_value self coh g k Hcoh Hg Hk) by lia.
  replace (k <=? 0)%Z with true by (symmetry; apply Z.leb_le; lia).
  eexists. split; [reflexivity|].
  split; [by rewrite length_insert, length_replicate|].
  split; [apply list_lookup_insert_eq; rewrite length_replicate; lia|].
  intros j Hj Hne. rewrite list_lookup_insert_ne by done.
  by apply lookup_replicate_2.
Qed.

(** X8.  Building the stimulus vector raises IndexError exactly when the
    trial's ground truth is not an integer k with -n < k <= n: a
    fractional value, a label above the number of choices, or one at or
    below -n. *)
Theorem X8_nalt_stimulus_index_error (self : t G) (coh g : Q) :
  getitem (trial self) "coh" = Ok coh →
  getitem (trial self) "ground_truth" = Ok g →
  stim self = Raise IndexError ↔
  ∀ k, as_int g = Ok k →
       (k < 1 - Z.of_nat (n self) ∨ Z.of_nat (n self) < k)%Z.
Proof.
  intros Hcoh Hg. split.
  - intros Hr k Hk.
    destruct (decide (1 - Z.of_nat (n self) ≤ k ≤ Z.of_nat (n self))%Z)
      as [Hin|Hout]; [|lia].
    by rewrite (nalt_stim_value self coh g k Hcoh Hg Hk Hin) in Hr.
  - intros Hall. unfold stim. rewrite Hcoh, Hg. cbn [mbind Res_bind].
    destruct (as_int (g - 1)) as [j|e] eqn:Ej.
    + pose proof (Hall _ (as_int_succ _ _ Ej)) as Hj.
      cbn [mbind Res_bind]. unfold py_setitem, py_pos.
      rewrite length_replicate.
      destruct (j <? 0)%Z eqn:Elt.
      * apply Z.ltb_lt in Elt.
        replace ((0 <=? j + Z.of_nat (n self))
                 && (j + Z.of_nat (n self) <? Z.of_nat (n self)))%Z
          with false; [done|].
        symmetry. apply andb_false_iff. left. apply Z.leb_gt. lia.
      * apply Z.ltb_ge in Elt.
        replace ((0 <=? j) && (j <? Z.of_nat (n self)))%Z with false;
          [done|].
        symmetry. apply andb_false_iff. right. apply Z.ltb_ge. lia.
    + cbn [mbind Res_bind]. by rewrite (as_int_error _ _ Ej).
Qed.

End NaltStimulusIndex.

(** X7 on a three-choice trial with ground_truth = 0 and coherence 51.2:
    the high value is on the third channel. *)
Lemma X7_witness :
  ∃ v,
    nalt_PerceptualDecisionMaking.stim
      (nalt_PerceptualDecisionMaking.set_trial
         (<["ground_truth" := 0%Q]> (<["coh" := (512 # 10)%Q]> ∅))
         Run.nalt) = Ok v ∧
    length v = 3%nat ∧
    v !! 2%nat = Some ((1 + (512 # 10) / 100) / 2)%Q ∧
    (∀ j, (j < 3)%nat → j ≠ 2%nat →
          v !! j = Some (1 * (1 - (512 # 10) / 100) / 2)%Q).
Proof.
  refine (X7_nalt_stimulus_index_wraps
            (nalt_PerceptualDecisionMaking.set_trial
               (<["ground_truth" := 0%Q]> (<["coh" := (512 # 10)%Q]> ∅))
               Run.nalt) (512 # 10) 0 0 _ _ _ _).
  - reflexivity.
  - reflexivity.
  - reflexivity.
  - cbn. lia.
Defined.

(** X8 on a three-choice trial with ground_truth = 4. *)
Lemma X8_witness :
  nalt_PerceptualDecisionMaking.stim
    (nalt_PerceptualDecisionMaking.set_trial
       (<["ground_truth" := 4%Q]> (<["coh" := 0%Q]> ∅)) Run.nalt)
  = Raise IndexError.
Proof.
  apply (X8_nalt_stimulus_index_error
           (nalt_PerceptualDecisionMaking.set_trial
              (<["ground_truth" := 4%Q]> (<["coh" := 0%Q]> ∅)) Run.nalt)
           0 4).
  - reflexivity.
  - reflexivity.
  - intros k Hk. injection Hk as <-. right. vm_compute. reflexivity.
Defined.

(** ** nalt_PerceptualDecisionMaking: the choices of a constructed task *)

Lemma as_int_label (z : Z) : as_int (inject_Z z + 1) = Ok (z + 1)%Z.
Proof.
  unfold as_int.
  assert (E : (inject_Z z + 1 == inject_Z (z + 1))%Q)
    by (rewrite inject_Z_plus; reflexivity).
  assert (F : Qfloor (inject_Z z + 1) = (z + 1)%Z)
    by (rewrite (Qfloor_comp _ _ E); apply Qfloor_Z).
  rewrite F. apply Qeq_bool_iff in E. by rewrite E.
Qed.

Section NaltChoices.
Context {G : Type} `{!RandomState G} `{!Tasktools G} `{!NumPy}.
Import nalt_PerceptualDecisionMaking.

(** X17.  The choices of a task built by __init__ are the n_ch labels
    1, ..., n_ch, in this order (np.arange(n_ch) + 1): each is an integer
    between 1 and n_ch, so the index ground_truth - 1 of a drawn ground
    truth is within the stimulus vector.  With n_ch = 0 there is nothing
    to draw from, and new_trial raises ValueError. *)
Theorem X17_nalt_choices_are_the_labels (dt : Q) (rewards : gmap string Q)
    (timing : gmap string Engine.Dist) (stim_scale sigma : Q) (n_ch : nat)
    (g : G) :
  let self := __init__ dt rewards timing stim_scale sigma n_ch g in
  n self = n_ch ∧ length (choices self) = n_ch ∧
  (∀ i c, choices self !! i = Some c → as_int c = Ok (Z.of_nat i + 1)%Z) ∧
  (∀ c, c ∈ choices self →
        ∃ k, as_int c = Ok k ∧ (1 ≤ k ≤ Z.of_nat n_ch)%Z) ∧
  (n_ch = 0%nat → ∀ kwargs, new_trial self kwargs = Raise ValueError).
Proof.
  intros self. subst self. cbn [__init__ n choices].
  assert (Hlk : ∀ i c,
    map (λ k, inject_Z (Z.of_nat k) + 1)%Q (seq 0 n_ch) !! i = Some c →
    (i < n_ch)%nat ∧ c = (inject_Z (Z.of_nat i) + 1)%Q).
  { intros i c Hi. rewrite list_lookup_fmap in Hi.
    destruct (seq 0 n_ch !! i) as [k|] eqn:Ek; [|done].
    apply lookup_seq in Ek as [-> Hlt]. by injection Hi as <-. }
  split; [done|]. split; [by rewrite length_map, length_seq|].
  split; [|split].
  - intros i c Hi. apply Hlk in Hi as [_ ->]. apply as_int_label.
  - intros c Hc. apply list_elem_of_lookup in Hc as [i Hi].
    apply Hlk in Hi as [Hlt ->]. exists (Z.of_nat i + 1)%Z.
    split; [apply as_int_label | lia].
  - intros -> kwargs. reflexivity.
Qed.

End NaltChoices.

(** ** The period tasks: trials and steps *)

Section Draws.
Context {G : Type} `{!RandomState G}.

Lemma py_choice_Ok (l : list Q) (g g' : G) (x : Q) :
  py_choice l g = Ok (x, g') →
  x = (rng_choice l g).1 ∧ g' = (rng_choice l g).2 ∧ x ∈ l.
Proof.
  unfold py_choice. intros Hx.
  assert (Hne : l ≠ []) by (by destruct l).
  assert (Hr : rng_choice l g = (x, g')) by (destruct l; congruence).
  pose proof (rng_choice_elem l g Hne) as He.
  rewrite Hr in *. done.
Qed.

End Draws.

Section PeriodTrials.
Context {G : Type} `{!RandomState G} `{!Tasktools G} `{!NumPy}.

(** X9.  new_trial draws the trial's entries first and lets the keyword
    arguments override them afterwards: the generator always gives up one
    choice among self.choices and then one among self.cohs (in
    DelayedMatchCategory: among [0, 1]), the trial dictionary holds every
    keyword argument as passed, and a key the call does not pass keeps
    its draw, which is an element of the list it was drawn from. *)
Theorem X9_new_trial_keywords_override_draws :
  (∀ (self self' : nalt_PerceptualDecisionMaking.t G)
     (kwargs : gmap string Q),
     nalt_PerceptualDecisionMaking.new_trial self kwargs = Ok self' →
     let d1 := rng_choice (nalt_PerceptualDecisionMaking.choices self)
                 (Engine.rng (nalt_PerceptualDecisionMaking.env self)) in
     let d2 := rng_choice (nalt_PerceptualDecisionMaking.cohs self) d1.2 in
     d1.1 ∈ nalt_PerceptualDecisionMaking.choices self ∧
     d2.1 ∈ nalt_PerceptualDecisionMaking.cohs self ∧
     (∀ k v, kwargs !! k = Some v →
             nalt_PerceptualDecisionMaking.trial self' !! k = Some v) ∧
     (kwargs !! "ground_truth" = None →
      nalt_PerceptualDecisionMaking.trial self' !! "ground_truth"
        = Some d1.1) ∧
     (kwargs !! "coh" = None →
      nalt_PerceptualDecisionMaking.trial self' !! "coh" = Some d2.1)) ∧
  (∀ (self self' : DelayedMatchCategory.t G) (kwargs : gmap string Q),
     DelayedMatchCategory.new_trial self kwargs = Ok self' →
     let d1 := rng_choice (DelayedMatchCategory.choices self)
                 (Engine.rng (DelayedMatchCategory.env self)) in
     let d2 := rng_choice [0; 1]%Q d1.2 in
     d1.1 ∈ DelayedMatchCategory.choices self ∧
     d2.1 ∈ [0; 1]%Q ∧
     (∀ k v, kwargs !! k = Some v →
             DelayedMatchCategory.trial self' !! k = Some v) ∧
     (kwargs !! "ground_truth" = None →
      DelayedMatchCategory.trial self' !! "ground_truth" = Some d1.1) ∧
     (kwargs !! "sample_category" = None →
      DelayedMatchCategory.trial self' !! "sample_category" = Some d2.1)).
Proof.
  split.
  - intros self self' kwargs Hc d1 d2. subst d1 d2.
    unfold nalt_PerceptualDecisionMaking.new_trial in Hc.
    bind_inv Hc x1 H1. destruct x1 as [gt0 g1].
    bind_inv Hc x2 H2. destruct x2 as [coh0 g2].
    bind_inv Hc e1 He1. bind_inv Hc e2 He2. bind_inv Hc st Hst.
    bind_inv Hc e3 He3. bind_inv Hc e4 He4. bind_inv Hc gtr Hg.
    bind_inv Hc label Hl. bind_inv Hc e5 He5. injection Hc as <-.
    apply py_choice_Ok in H1 as (-> & -> & Hin1).
    apply py_choice_Ok in H2 as (-> & -> & Hin2).
    cbn [nalt_PerceptualDecisionMaking.trial
         nalt_PerceptualDecisionMaking.set_env
         nalt_PerceptualDecisionMaking.set_trial].
    unfold update.
    split; [exact Hin1|]. split; [exact Hin2|]. split; [|split].
    + intros k v Hk. by apply lookup_union_Some_l.
    + intros Hn. rewrite lookup_union_r by done. apply lookup_insert_eq.
    + intros Hn. rewrite lookup_union_r by done.
      rewrite lookup_insert_ne by done. apply lookup_insert_eq.
  - intros self self' kwargs Hc d1 d2. subst d1 d2.
    unfold DelayedMatchCategory.new_trial in Hc.
    bind_inv Hc x1 H1. destruct x1 as [gt0 g1].
    bind_inv Hc x2 H2. destruct x2 as [sc0 g2].
    bind_inv Hc gtr Hg. bind_inv Hc scat Hsc.
    destruct (rng_random g2) as [u1 g3]. destruct (rng_random g3) as [u2 g4].
    bind_inv Hc e1 He1. bind_inv Hc e2 He2. bind_inv Hc e3 He3.
    bind_inv Hc e4 He4. bind_inv Hc e5 He5. bind_inv Hc e6 He6.
    bind_inv Hc label Hl. bind_inv Hc e7 He7. injection Hc as <-.
    apply py_choice_Ok in H1 as (-> & -> & Hin1).
    apply py_choice_Ok in H2 as (-> & -> & Hin2).
    cbn [DelayedMatchCategory.trial DelayedMatchCategory.set_env
         DelayedMatchCategory.set_trial].
    unfold update.
    split; [exact Hin1|]. split; [exact Hin2|]. split; [|split].
    + intros k v Hk. by apply lookup_union_Some_l.
    + intros Hn. rewrite lookup_union_r by done. apply lookup_insert_eq.
    + intros Hn. rewrite lookup_union_r by done.
      rewrite lookup_insert_ne by done. apply lookup_insert_eq.
Qed.

(** X10.  A step of a period task changes nothing of the task but its
    performance attribute: the clock, the buffers, the trial and the
    tables are left to the driver.  The performance is set to 1 by a
    choice that earns rewards['correct'] and ends the trial, and is
    otherwise kept: no step sets it back to 0. *)
Theorem X10_step_changes_performance_only :
  (∀ (self s : nalt_PerceptualDecisionMaking.t G) action obs reward d info,
     nalt_PerceptualDecisionMaking._step self action
       = Ok (s, (obs, reward, d, info)) →
     s = nalt_PerceptualDecisionMaking.set_performance
           (nalt_PerceptualDecisionMaking.performance s) self ∧
     (nalt_PerceptualDecisionMaking.performance s
        = nalt_PerceptualDecisionMaking.performance self ∨
      (nalt_PerceptualDecisionMaking.performance s = 1%Z ∧
       info !! "new_trial" = Some (VBool true) ∧
       getitem (nalt_PerceptualDecisionMaking.rewards self) "correct"
         = Ok reward))) ∧
  (∀ (self s : DelayedMatchCategory.t G) action obs reward d info,
     DelayedMatchCategory._step self action
       = Ok (s, (obs, reward, d, info)) →
     s = DelayedMatchCategory.set_performance
           (DelayedMatchCategory.performance s) self ∧
     (DelayedMatchCategory.performance s
        = DelayedMatchCategory.performance self ∨
      (DelayedMatchCategory.performance s = 1%Z ∧
       info !! "new_trial" = Some (VBool true) ∧
       getitem (DelayedMatchCategory.rewards self) "correct" = Ok reward))).
Proof.
  split.
  - intros self s action obs reward d info Hs.
    unfold nalt_PerceptualDecisionMaking._step in Hs.
    bind_inv Hs o Ho. bind_inv Hs g0 Hg. bind_inv Hs fx Hf.
    bind_inv Hs x Hx. destruct x as [[s0 b] r].
    injection Hs as <- <- <- <- <-.
    assert (Hk : ∀ self : nalt_PerceptualDecisionMaking.t G,
               self = nalt_PerceptualDecisionMaking.set_performance
                        (nalt_PerceptualDecisionMaking.performance self) self)
      by (by intros []).
    destruct fx.
    + destruct (negb (action =? 0)%Z).
      * bind_inv Hx ra Hra. injection Hx as <- <- <-.
        split; [apply Hk | by left].
      * injection Hx as <- <- <-. split; [apply Hk | by left].
    + bind_inv Hx dc Hdc. destruct dc.
      * destruct (negb (action =? 0)%Z).
        -- destruct (action =? g0)%Z.
           ++ bind_inv Hx rc Hrc. injection Hx as <- <- <-.
              split; [done|]. right. done.
           ++ bind_inv Hx rf Hrf. injection Hx as <- <- <-.
              split; [apply Hk | by left].
        -- injection Hx as <- <- <-. split; [apply Hk | by left].
      * injection Hx as <- <- <-. split; [apply Hk | by left].
  - intros self s action obs reward d info Hs.
    unfold DelayedMatchCategory._step in Hs.
    bind_inv Hs o Ho. bind_inv Hs g0 Hg. bind_inv Hs fx Hf.
    bind_inv Hs x Hx. destruct x as [[s0 b] r].
    injection Hs as <- <- <- <- <-.
    assert (Hk : ∀ self : DelayedMatchCategory.t G,
               self = DelayedMatchCategory.set_performance
                        (DelayedMatchCategory.performance self) self)
      by (by intros []).
    destruct fx.
    + destruct (negb (action =? 0)%Z).
      * bind_inv Hx ra Hra. injection Hx as <- <- <-.
        split; [apply Hk | by left].
      * injection Hx as <- <- <-. split; [apply Hk | by left].
    + bind_inv Hx dc Hdc. destruct dc.
      * destruct (negb (action =? 0)%Z).
        -- destruct (action =? g0)%Z.
           ++ bind_inv Hx rc Hrc. injection Hx as <- <- <-.
              split; [done|]. right. done.
           ++ bind_inv Hx rf Hrf. injection Hx as <- <- <-.
              split; [apply Hk | by left].
        -- injection Hx as <- <- <-. split; [apply Hk | by left].
      * injection Hx as <- <- <-. split; [apply Hk | by left].
Qed.

(** X11.  The fixate action, 0, is neutral in every task and at every
    timestep: in nalt_PerceptualDecisionMaking and DelayedMatchCategory a
    step with action 0 that returns gives reward 0 and new_trial False and
    leaves the task as it is; so it does in ReadySetGo, where action 0
    stands for actions[0] = -1; in RDM the reward part of step gives
    reward 0 and the status {'continue': True}. *)
Theorem X11_fixate_action_is_neutral :
  (∀ (self s : nalt_PerceptualDecisionMaking.t G) obs reward d info,
     nalt_PerceptualDecisionMaking._step self 0
       = Ok (s, (obs, reward, d, info)) →
     s = self ∧ reward = 0%Q ∧ info !! "new_trial" = Some (VBool false)) ∧
  (∀ (self s : DelayedMatchCategory.t G) obs reward d info,
     DelayedMatchCategory._step self 0 = Ok (s, (obs, reward, d, info)) →
     s = self ∧ reward = 0%Q ∧ info !! "new_trial" = Some (VBool false)) ∧
  (∀ (self : ReadySetGo.t G) obs reward d info,
     py_index (ReadySetGo.actions self) 0 = Ok (-1)%Z →
     ReadySetGo._step self 0 = Ok (obs, reward, d, info) →
     reward = 0%R ∧ info !! "new_trial" = Some (VBool false)) ∧
  (∀ (self : RDM.task G) status reward,
     RDM.step_reward self 0 = Ok (status, reward) →
     reward = 0%Q ∧ status = <["continue" := VBool true]> ∅).
Proof.
  split; [|split; [|split]].
  - intros self s obs reward d info Hs.
    unfold nalt_PerceptualDecisionMaking._step in Hs.
    bind_inv Hs o Ho. bind_inv Hs g0 Hg. bind_inv Hs fx Hf.
    bind_inv Hs x Hx. destruct x as [[s0 b] r].
    injection Hs as <- <- <- <- <-.
    change (negb (0 =? 0)%Z) with false in Hx. destruct fx.
    + by injection Hx as <- <- <-.
    + bind_inv Hx dc Hdc. destruct dc; by injection Hx as <- <- <-.
  - intros self s obs reward d info Hs.
    unfold DelayedMatchCategory._step in Hs.
    bind_inv Hs o Ho. bind_inv Hs g0 Hg. bind_inv Hs fx Hf.
    bind_inv Hs x Hx. destruct x as [[s0 b] r].
    injection Hs as <- <- <- <- <-.
    change (negb (0 =? 0)%Z) with false in Hx. destruct fx.
    + by injection Hx as <- <- <-.
    + bind_inv Hx dc Hdc. destruct dc; by injection Hx as <- <- <-.
  - intros self obs reward d info Ha Hs.
    unfold ReadySetGo._step in Hs.
    bind_inv Hs fx Hf. bind_inv Hs x Hx. destruct x as [[[o g0] b] r].
    bind_inv Hs pr Hp. bind_inv Hs y Hy. destruct y as [[g1 b1] r1].
    bind_inv Hs rd Hr. bind_inv Hs st Hst.
    injection Hs as <- <- <- <-.
    assert (Hb : b = false ∧ r = 0%R).
    { destruct fx.
      - rewrite Ha in Hx. cbn [mbind Res_bind] in Hx.
        change (negb (-1 =? -1)%Z) with false in Hx.
        by injection Hx as <- <- <- <-.
      - by injection Hx as <- <- <- <-. }
    destruct Hb as [-> ->].
    change (0 =? 1)%Z with false in Hy. destruct pr.
    + bind_inv Hy m1 Hm1. bind_inv Hy pd Hpd.
      by injection Hy as <- <- <-.
    + by injection Hy as <- <- <-.
  - intros self status reward Hs. unfold RDM.step_reward in Hs.
    bind_inv Hs dec Hdec. rewrite actions_FIXATE, actions_LEFT in Hs.
    cbn [mbind Res_bind] in Hs.
    change (negb (0 =? 0)%Z) with false in Hs.
    change (0 =? 1)%Z with false in Hs.
    rewrite actions_RIGHT in Hs. cbn [mbind Res_bind] in Hs.
    change (0 =? 2)%Z with false in Hs.
    destruct (py_in (RDM.t self - 1) dec); cbn [negb] in Hs;
      by injection Hs as <- <-.
Qed.

End PeriodTrials.

(** X9 on nalt_PerceptualDecisionMaking(): a ground truth passed by
    keyword is the trial's. *)
Lemma X9_witness :
  nalt_PerceptualDecisionMaking.trial
    (the Run.nalt
       (nalt_PerceptualDecisionMaking.new_trial Run.nalt
          (<["ground_truth" := 3%Q]> ∅))) !! "ground_truth" = Some 3%Q.
Proof.
  refine (proj1 (proj2 (proj2
            (proj1 X9_new_trial_keywords_override_draws Run.nalt
               (the Run.nalt
                  (nalt_PerceptualDecisionMaking.new_trial Run.nalt
                     (<["ground_truth" := 3%Q]> ∅)))
               (<["ground_truth" := 3%Q]> ∅) _)))
            "ground_truth" 3%Q _).
  - vm_compute. reflexivity.
  - reflexivity.
Defined.

(** X10 at a correct choice in the decision period of the first trial of
    nalt_PerceptualDecisionMaking(). *)
Lemma X10_witness :
  nalt_PerceptualDecisionMaking.performance
    (nalt_PerceptualDecisionMaking.set_performance 1
       (nalt_PerceptualDecisionMaking.at_step 10 Run.nalt_trial))
  = nalt_PerceptualDecisionMaking.performance
      (nalt_PerceptualDecisionMaking.at_step 10 Run.nalt_trial) ∨
  (nalt_PerceptualDecisionMaking.performance
     (nalt_PerceptualDecisionMaking.set_performance 1
        (nalt_PerceptualDecisionMaking.at_step 10 Run.nalt_trial)) = 1%Z ∧
   period_info true 2 !! "new_trial" = Some (VBool true) ∧
   getitem
     (nalt_PerceptualDecisionMaking.rewards
        (nalt_PerceptualDecisionMaking.at_step 10 Run.nalt_trial)) "correct"
   = Ok 1%Q).
Proof.
  refine (proj2 (proj1 X10_step_changes_performance_only
            (nalt_PerceptualDecisionMaking.at_step 10 Run.nalt_trial)
            (nalt_PerceptualDecisionMaking.set_performance 1
               (nalt_PerceptualDecisionMaking.at_step 10 Run.nalt_trial))
            2%Z
            (the [] (Engine.ob_now
                       (nalt_PerceptualDecisionMaking.env
                          (nalt_PerceptualDecisionMaking.at_step 10
                             Run.nalt_trial))))
            1%Q false (period_info true 2) _)).
  vm_compute. reflexivity.
Defined.

(** X11 in the fixation period of the first trial of
    nalt_PerceptualDecisionMaking(). *)
Lemma X11_witness :
  nalt_PerceptualDecisionMaking.at_step 2 Run.nalt_trial
  = nalt_PerceptualDecisionMaking.at_step 2 Run.nalt_trial ∧
  0%Q = 0%Q ∧ period_info false 0 !! "new_trial" = Some (VBool false).
Proof.
  refine (proj1 X11_fixate_action_is_neutral
            (nalt_PerceptualDecisionMaking.at_step 2 Run.nalt_trial)
            (nalt_PerceptualDecisionMaking.at_step 2 Run.nalt_trial)
            (the [] (Engine.ob_now
                       (nalt_PerceptualDecisionMaking.env
                          (nalt_PerceptualDecisionMaking.at_step 2
                             Run.nalt_trial))))
            0%Q false (period_info false 0) _).
  vm_compute. reflexivity.
Defined.

(** ** ReadySetGo: observations, actions and rewards *)

Section RSGEdges.
Context {G : Type} `{!RandomState G} `{!Tasktools G} `{!NumPy}.
Import ReadySetGo.

(** X12.  The observation of ReadySetGo._step carries no noise (the
    attribute sigma is never read): it is the indicator vector of the
    epochs fixation, ready and set at the current timestep. *)
Theorem X12_rsg_observation_is_epoch_indicator (self : t G) (action : Z)
    (obs : list Q) (reward : R) (d : bool) (info : gmap string PyVal) :
  _step self action = Ok (obs, reward, d, info) →
  ∃ fx rd st,
    in_epoch "fixation" self = Ok fx ∧ in_epoch "ready" self = Ok rd ∧
    in_epoch "set" self = Ok st ∧
    obs = [if fx then 1 else 0; if rd then 1 else 0;
           if st then 1 else 0]%Q.
Proof.
  unfold _step. intros Hs.
  bind_inv Hs fx Hf. bind_inv Hs x Hx. destruct x as [[[o g0] b] r].
  bind_inv Hs pr Hp. bind_inv Hs y Hy. destruct y as [[g1 b1] r1].
  bind_inv Hs rd Hr. bind_inv Hs st Hst.
  injection Hs as <- <- <- <-.
  exists fx, rd, st. split; [done|]. split; [done|]. split; [done|].
  assert (Ho : o = [if fx then 1 else 0; 0; 0]%Q).
  { destruct fx.
    - bind_inv Hx a Ha. destruct (negb (a =? -1)%Z);
        by injection Hx as <- <- <- <-.
    - by injection Hx as <- <- <- <-. }
  rewrite Ho. by destruct fx, rd, st.
Qed.

(** X13.  The action is an index into self.actions only in the fixation
    epoch, and there it is a Python index.  With actions = [-1, 1]: an
    action outside -2..1 raises IndexError; the action -1 counts from the
    end, reads as go and is answered with R_ABORTED like the action 1.
    Outside the fixation epoch the action is never looked up: a step that
    returns for the action 0 returns for every integer. *)
Theorem X13_rsg_action_is_a_python_index (self : t G) :
  actions self = [-1; 1]%Z →
  (∀ action, in_epoch "fixation" self = Ok true →
             (action < -2 ∨ 2 ≤ action)%Z →
             _step self action = Raise IndexError) ∧
  (∀ rd st, in_epoch "fixation" self = Ok true →
            in_epoch "production" self = Ok false →
            in_epoch "ready" self = Ok rd → in_epoch "set" self = Ok st →
            _step self (-1) =
            Ok ([1; if rd then 1 else 0; if st then 1 else 0]%Q,
                R_ABORTED self, false, rsg_info (abort self) [1; 0]%Q)) ∧
  (∀ action, in_epoch "fixation" self = Ok false →
             (∃ r, _step self 0 = Ok r) → ∃ r, _step self action = Ok r).
Proof.
  intros Hact. split; [|split].
  - intros action Hf Ha.
    assert (Hidx : py_index (actions self) action = Raise IndexError).
    { rewrite Hact. unfold py_index, py_pos. cbn [length].
      destruct (action <? 0)%Z eqn:E.
      - apply Z.ltb_lt in E.
        replace ((0 <=? action + Z.of_nat 2) && (action + Z.of_nat 2 <? Z.of_nat 2))%Z
          with false; [done|].
        symmetry. apply andb_false_iff. left. apply Z.leb_gt. lia.
      - apply Z.ltb_ge in E.
        replace ((0 <=? action) && (action <? Z.of_nat 2))%Z
          with false; [done|].
        symmetry. apply andb_false_iff. right. apply Z.ltb_ge. lia. }
    unfold _step. rewrite Hf. cbn [mbind Res_bind]. rewrite Hidx.
    reflexivity.
  - intros rd st Hf Hp Hr Hs.
    apply (rsg_step_fixation self (-1) 1 rd st Hf Hp Hr Hs); [|done].
    by rewrite Hact.
  - intros action Hf [r0 H0]. unfold _step in *. rewrite Hf in *.
    cbn [mbind Res_bind] in *.
    bind_inv H0 pr Hp. rewrite Hp. cbn [mbind Res_bind].
    bind_inv H0 y Hy. destruct y as [[g1 b1] r1].
    bind_inv H0 rd Hr. bind_inv H0 st Hst. rewrite Hr, Hst.
    destruct pr.
    + bind_inv Hy m1 Hm1. bind_inv Hy pd Hpd. rewrite Hm1, Hpd.
      cbn [mbind Res_bind].
      destruct (action =? 1)%Z; [|cbn [mbind Res_bind]; eauto].
      destruct (Qlt_bool _ (Qabs _)); cbn [mbind Res_bind]; eauto.
    + cbn [mbind Res_bind]. eauto.
Qed.

Lemma pow15_nonneg (x : R) : (0 <= x)%R → (0 <= pow15 x)%R.
Proof.
  intros Hx. unfold pow15. apply Rmult_le_pos; [exact Hx | apply sqrt_pos].
Qed.

(** X14.  With the rewards __init__ sets (R_ABORTED = -0.1, R_CORRECT = 1,
    R_FAIL = 0) and a production time that is not negative, every reward
    ReadySetGo._step returns lies between -0.1 and 0.1: the reward of a go
    in the production epoch is min((1 - eps/eps_threshold)**1.5, 0.1)
    times R_CORRECT and never exceeds 0.1. *)
Theorem X14_rsg_reward_range (self : t G) (action : Z) (obs : list Q)
    (reward : R) (d : bool) (info : gmap string PyVal) :
  R_ABORTED self = (- (1 / 10))%R → R_CORRECT self = 1%R →
  R_FAIL self = 0%R →
  (∀ p, getitem (trial self) "production" = Ok p → (0 <= p)%Q) →
  _step self action = Ok (obs, reward, d, info) →
  (- (1 / 10) <= reward <= 1 / 10)%R.
Proof.
  intros Ha Hc Hfl Hpos Hs. unfold _step in Hs.
  bind_inv Hs fx Hf. bind_inv Hs x Hx. destruct x as [[[o g0] b] r].
  bind_inv Hs pr Hp. bind_inv Hs y Hy. destruct y as [[g1 b1] r1].
  bind_inv Hs rd Hr. bind_inv Hs st Hst.
  injection Hs as <- <- <- <-.
  assert (Hr0 : (- (1 / 10) <= r <= 1 / 10)%R).
  { destruct fx.
    - bind_inv Hx a Hidx. destruct (negb (a =? -1)%Z);
        injection Hx as <- <- <- <-; [rewrite Ha|]; rlra.
    - injection Hx as <- <- <- <-. rlra. }
  destruct pr; [|by injection Hy as <- <- <-].
  bind_inv Hy m1 Hm1. bind_inv Hy pd Hpd.
  pose proof (Hpos _ Hpd) as Hpd0.
  remember (Qabs (Engine.t (env self) - m1 - pd)) as eps eqn:Heps.
  remember ((2 # 10) * pd + 25)%Q as thr eqn:Hthr.
  destruct (action =? 1)%Z; [|by injection Hy as <- <- <-].
  destruct (Qlt_bool thr eps) eqn:E.
  - injection Hy as <- <- <-. rewrite Hfl. rlra.
  - injection Hy as <- <- <-. rewrite Hc.
    apply Qlt_bool_false in E.
    assert (Hthr0 : (0 < thr)%Q) by (rewrite Hthr; qlra).
    assert (Hbase : (0 <= 1 - eps / thr)%Q).
    { assert (eps / thr <= 1)%Q; [|qlra].
      apply Qle_shift_div_r; [exact Hthr0 | qlra]. }
    apply Qle_Rle in Hbase.
    replace (Q2R 0) with 0%R in Hbase by (unfold Q2R; simpl; rlra).
    pose proof (pow15_nonneg _ Hbase) as Hp15.
    pose proof (Rmin_r (pow15 (Q2R (1 - eps / thr))) (1 / 10)) as Hmr.
    assert (Hm0 : (0 <= Rmin (pow15 (Q2R (1 - eps / thr))) (1 / 10))%R)
      by (apply Rmin_glb; [exact Hp15 | rlra]).
    rlra.
Qed.

(** X15.  ReadySetGo._new_trial raises ValueError when self.measures is
    empty.  Otherwise the dictionary it returns holds a measure drawn from
    self.measures and production = measure * gain; the production epoch
    it declares lasts twice the production time; and it leaves self.trial
    and the other attributes as they were: the returned dictionary is for
    the caller to store, as __init__ does. *)
Theorem X15_rsg_new_trial_dictionary (self : t G) :
  (measures self = [] → _new_trial self = Raise ValueError) ∧
  (∀ self' tr, _new_trial self = Ok (self', tr) →
     ∃ m p,
       m ∈ measures self ∧
       tr = <["measure" := m]> (<["production" := (m * gain self)%Q]> ∅) ∧
       Engine.periods (env self') !! "production" = Some p ∧
       (p.2 - p.1 == 2 * (m * gain self))%Q ∧
       trial self' = trial self ∧
       self' = set_env (env self') self).
Proof.
  split.
  - intros He. unfold _new_trial. by rewrite He.
  - intros self' tr Hnt.
    apply rsg_new_trial_inv in Hnt as (m & g & Hm & -> & Hdt & ->).
    destruct (rsg_periods_lookup (fixation self) (ready self) m (set_ self)
                (m * gain self) (Engine.periods (env self)))
      as (_ & _ & _ & _ & Pp).
    eexists m, _. split; [exact Hm|]. split; [done|].
    split; [exact Pp|]. split; [cbn [fst snd]; ring|]. done.
Qed.

End RSGEdges.

(** ** ReadySetGo: the duration __str__ reports *)

Lemma foldl_Qmax_le (l : list Q) :
  ∀ x, (x <= foldl Qmax x l)%Q ∧ ∀ y, y ∈ l → (y <= foldl Qmax x l)%Q.
Proof.
  induction l as [|a l IH]; intros x; cbn [foldl].
  - split; [apply Qle_refl|]. intros y Hy. by apply elem_of_nil in Hy.
  - destruct (IH (Qmax x a)) as [H1 H2]. split.
    + eapply Qle_trans; [apply Q.le_max_l | exact H1].
    + intros y Hy. apply elem_of_cons in Hy as [-> | Hy].
      * eapply Qle_trans; [apply Q.le_max_r | exact H1].
      * by apply H2.
Qed.

Lemma np_max_upper (l : list Q) (m : Q) :
  m ∈ l → ∃ M, ReadySetGo.np_max l = Ok M ∧ (m <= M)%Q.
Proof.
  destruct l as [|x r]; intros Hm; [by apply elem_of_nil in Hm|].
  eexists. split; [reflexivity|].
  destruct (foldl_Qmax_le r x) as [H1 H2].
  apply elem_of_cons in Hm as [-> | Hm]; [exact H1 | by apply H2].
Qed.

Lemma string_app_assoc (a b c : string) : (a +:+ b) +:+ c = a +:+ b +:+ c.
Proof.
  induction a as [|x a IH]; [reflexivity|].
  change (String x ((a +:+ b) +:+ c) = String x (a +:+ b +:+ c)).
  by rewrite IH.
Qed.

Section RSGReport.
Context {G : Type} `{!RandomState G} `{!Tasktools G} `{!NumPy}.
Import ReadySetGo.

(** X16.  The duration __str__ reports is fixation + max(measures) + set
    + 2 * gain * set: its last term takes the set duration where
    _new_trial takes the measured interval.  For a trial that drew the
    measure m, the production epoch ends 2 * gain * (m - set) -
    (max(measures) - m) later than the reported duration. *)
Theorem X16_rsg_reported_duration (str : Q → string) (self self' : t G)
    (tr : gmap string Q) (m : Q) :
  _new_trial self = Ok (self', tr) → tr !! "measure" = Some m →
  ∃ d M p,
    np_max (measures self) = Ok M ∧ (m <= M)%Q ∧
    max_trial_duration self = Ok d ∧
    (d == fixation self + M + set_ self + 2 * gain self * set_ self)%Q ∧
    __str__ str self =
      Ok ((if Qeq_bool (fixation self) 0 || Qeq_bool (ready self) 0
              || Qeq_bool (set_ self) 0
           then "XXXXXXXXXXXXXXXXXXXXXX" +:+ nl +:+
                "the duration of all periods must be larger than 0" +:+ nl
                +:+ "XXXXXXXXXXXXXXXXXXXXXX" +:+ nl
           else "") +:+
          "mean trial duration: " +:+ str d +:+ nl +:+
          " (max num. steps: " +:+ str (d / Engine.dt (env self))%Q) ∧
    Engine.periods (env self') !! "production" = Some p ∧
    (p.2 - d == 2 * gain self * (m - set_ self) - (M - m))%Q.
Proof.
  intros Hnt Hm.
  apply rsg_new_trial_inv in Hnt as (m' & g & Hin & -> & Hdt & ->).
  rewrite lookup_insert_eq in Hm. injection Hm as ->.
  destruct (np_max_upper _ _ Hin) as (M & HM & Hle).
  destruct (rsg_periods_lookup (fixation self) (ready self) m (set_ self)
              (m * gain self) (Engine.periods (env self)))
    as (_ & _ & _ & _ & Pp).
  assert (Hd : max_trial_duration self =
               Ok (fixation self + M + set_ self
                   + 2 * gain self * set_ self)%Q)
    by (unfold max_trial_duration; by rewrite HM).
  eexists _, M, _. split; [exact HM|]. split; [exact Hle|].
  split; [exact Hd|]. split; [reflexivity|].
  split; [|split; [exact Pp|cbn [fst snd]; ring]].
  unfold __str__. rewrite Hd. cbn [mbind Res_bind]. cbv zeta.
  destruct (Qeq_bool (fixation self) 0 || Qeq_bool (ready self) 0
            || Qeq_bool (set_ self) 0);
    by rewrite !string_app_assoc.
Qed.

End RSGReport.

(** A go in the fixation epoch of the first trial of ReadySetGo(dt=80). *)
Lemma rsg_fixation_go :
  ReadySetGo._step (ReadySetGo.at_step 2 (Run.rsg 80)) 1 =
  Ok ([1; 0; 0]%Q, ReadySetGo.R_ABORTED (ReadySetGo.at_step 2 (Run.rsg 80)),
      false, rsg_info false [1; 0]%Q).
Proof.
  apply (rsg_step_fixation (ReadySetGo.at_step 2 (Run.rsg 80)) 1 1
           false false).
  - vm_compute. reflexivity.
  - vm_compute. reflexivity.
  - vm_compute. reflexivity.
  - vm_compute. reflexivity.
  - reflexivity.
  - done.
Qed.

(** X12 at a go in the fixation epoch of ReadySetGo(dt=80). *)
Lemma X12_witness :
  ∃ fx rd st,
    ReadySetGo.in_epoch "fixation" (ReadySetGo.at_step 2 (Run.rsg 80))
      = Ok fx ∧
    ReadySetGo.in_epoch "ready" (ReadySetGo.at_step 2 (Run.rsg 80))
      = Ok rd ∧
    ReadySetGo.in_epoch "set" (ReadySetGo.at_step 2 (Run.rsg 80)) = Ok st ∧
    [1; 0; 0]%Q = [if fx then 1 else 0; if rd then 1 else 0;
                   if st then 1 else 0]%Q.
Proof.
  exact (X12_rsg_observation_is_epoch_indicator
           (ReadySetGo.at_step 2 (Run.rsg 80)) 1 _ _ _ _ rsg_fixation_go).
Defined.

(** X13 in the fixation epoch of ReadySetGo(dt=80): the action 2. *)
Lemma X13_witness :
  ReadySetGo._step (ReadySetGo.at_step 2 (Run.rsg 80)) 2 = Raise IndexError.
Proof.
  refine (proj1 (X13_rsg_action_is_a_python_index
                   (ReadySetGo.at_step 2 (Run.rsg 80)) _) 2%Z _ _).
  - reflexivity.
  - vm_compute. reflexivity.
  - lia.
Defined.

(** X14 at a go in the fixation epoch of ReadySetGo(dt=80). *)
Lemma X14_witness :
  (- (1 / 10)
   <= ReadySetGo.R_ABORTED (ReadySetGo.at_step 2 (Run.rsg 80))
   <= 1 / 10)%R.
Proof.
  refine (X14_rsg_reward_range (ReadySetGo.at_step 2 (Run.rsg 80)) 1
            _ _ _ _ _ _ _ _ rsg_fixation_go).
  - reflexivity.
  - reflexivity.
  - reflexivity.
  - intros p Hp. apply getitem_Ok in Hp. vm_compute in Hp.
    injection Hp as <-. vm_compute. discriminate.
Defined.

(** X15 on the first trial of ReadySetGo(dt=80). *)
Lemma X15_witness :
  ∃ m p,
    m ∈ ReadySetGo.measures (Run.rsg_attributes 80) ∧
    (Run.rsg_drawn 80).2 =
      <["measure" := m]>
        (<["production" :=
             (m * ReadySetGo.gain (Run.rsg_attributes 80))%Q]> ∅) ∧
    Engine.periods (ReadySetGo.env (Run.rsg_drawn 80).1) !! "production"
      = Some p ∧
    (p.2 - p.1 == 2 * (m * ReadySetGo.gain (Run.rsg_attributes 80)))%Q ∧
    ReadySetGo.trial (Run.rsg_drawn 80).1
      = ReadySetGo.trial (Run.rsg_attributes 80) ∧
    (Run.rsg_drawn 80).1 =
      ReadySetGo.set_env (ReadySetGo.env (Run.rsg_drawn 80).1)
        (Run.rsg_attributes 80).
Proof.
  refine (proj2 (X15_rsg_new_trial_dictionary (Run.rsg_attributes 80))
            (Run.rsg_drawn 80).1 (Run.rsg_drawn 80).2 _).
  vm_compute. reflexivity.
Defined.

(** X16 on the first trial of ReadySetGo(dt=80), which draws the measure
    500: the reported duration is 1749 ms, the trial lasts 2083 ms. *)
Lemma X16_witness :
  ∃ d M p,
    ReadySetGo.np_max (ReadySetGo.measures (Run.rsg_attributes 80)) = Ok M ∧
    (500 <= M)%Q ∧
    ReadySetGo.max_trial_duration (Run.rsg_attributes 80) = Ok d ∧
    (d == ReadySetGo.fixation (Run.rsg_attributes 80) + M
          + ReadySetGo.set_ (Run.rsg_attributes 80)
          + 2 * ReadySetGo.gain (Run.rsg_attributes 80)
            * ReadySetGo.set_ (Run.rsg_attributes 80))%Q ∧
    ReadySetGo.__str__ (λ _, "") (Run.rsg_attributes 80) =
      Ok ("" +:+ "mean trial duration: " +:+ "" +:+ ReadySetGo.nl +:+
          " (max num. steps: " +:+ "") ∧
    Engine.periods (ReadySetGo.env (Run.rsg_drawn 80).1) !! "production"
      = Some p ∧
    (p.2 - d ==
     2 * ReadySetGo.gain (Run.rsg_attributes 80)
       * (500 - ReadySetGo.set_ (Run.rsg_attributes 80)) - (M - 500))%Q.
Proof.
  refine (X16_rsg_reported_duration (λ _, "") (Run.rsg_attributes 80)
            (Run.rsg_drawn 80).1 (Run.rsg_drawn 80).2 500 _ _).
  - vm_compute. reflexivity.
  - vm_compute. reflexivity.
Defined.

(** X17 on nalt_PerceptualDecisionMaking(): the second of its three
    choices is the label 2. *)
Lemma X17_witness :
  ∃ k, as_int (inject_Z 1 + 1) = Ok k ∧ (1 ≤ k ≤ Z.of_nat 3)%Z.
Proof.
  refine (proj1 (proj2 (proj2 (proj2
            (X17_nalt_choices_are_the_labels 100 ∅ ∅ 1 (3 # 2) 3 7%N))))
            (inject_Z 1 + 1)%Q _).
  apply (list_elem_of_lookup_2 _ 1%nat). reflexivity.
Defined.
